(* ===== verification/_CoqProject ===== *)
-Q . S2P
Prelude.v
Text.v
PyObj.v
JsonLib.v
CJson.v
DateTime.v
World.v
Ledger.v
ListCmd.v
ListSpec.v
ContentCmd.v
Cli.v
