(* ===== verification/Prelude.v ===== *)
(** * A verification development for [scrape.py] (Thai PBS news scraper)

    The program (one file, [src/scrape.py]) is a command-line tool with two
    subcommands that share an HTTP helper and an on-disk layout:

    - [api_get] (lines 27-31) sends a GET request to the news API. It raises on
      an HTTP error status and returns the decoded JSON body.
    - [load_existing_ids] (lines 34-48) reads the ledger [data/<cat>/list.jsonl]
      and returns the set of article ids recorded there. It skips lines that
      are blank, not JSON, without an ["id"] key, or whose id [int()] rejects.
    - [parse_date] (lines 51-56) parses a date with dateutil. A naive result
      is read as UTC.
    - [cmd_list] (lines 59-124) pages through the category index. It filters
      the articles by a cutoff date, drops ids already in the ledger, and
      appends each new article to the ledger as one JSON line. It stops at a
      page limit or an article limit.
    - [cmd_content] (lines 127-172) reads the ledger and works out which
      articles have no [data/<cat>/content/<id>.json] yet. It downloads each
      such article, writes it pretty-printed, and isolates a failure to its
      own article.
    - [main] (lines 175-219) declares the argparse command line and dispatches
      to one of the two commands.

    ** Files of the development, in dependency order

    - [Prelude] (this file): the [result] type of a Python evaluation that
      may raise, its bind [let? x := c in k] in [py_scope], [res_mapM], the
      hint databases and the generic list lemmas the components share.
    - [Text]: text on byte strings: [str.strip], the lines of a file read in
      universal-newline mode ([text_lines]), [str()] and [int()] of integers.
    - [PyObj]: the Python objects [json.loads] produces ([pyval]), the
      exceptions the program meets ([exn]), and the built-ins applied to
      them: [o["k"]], [dict.get], [int()], truth value, iteration, [str()].
    - [JsonLib]: the class [JsonLib] of the [json] functions the program
      calls and the class [JsonLibLaws] of the laws the proofs use.
    - [CJson]: a concrete printer and parser following CPython's [json]
      module, an instance of both classes; its laws are round trips.
    - [DateTime]: datetimes, the class [DateUtil] of [dateutil.parser.parse]
      with an ISO 8601 instance [IsoDate], and [parse_date].
    - [World]: the machine state ([world]: files, directories, the trace of
      requests, sleeps and prints) and the state-and-exception monad [M],
      with [let*] in [py_scope]; the [pathlib]/[open] operations and
      [api_get] against a [server]. It holds the program logic the proofs
      use: [vrf m srv w Q] (the postcondition [Q] holds of the result and
      the final world, with a rule per operation and the tactic [vrf_step]),
      [srv_free] (a computation that never talks to the server),
      [touches_only p] (a computation that changes file [p] only) and
      [reqs_le n] (a computation that sends at most [n] requests), each
      with its hint database.
    - [Ledger]: [load_existing_ids], the ids [record_ids] of a ledger text,
      and the texts [ledger_text] the list loop writes.
    - [ListCmd]: [cmd_list] as the code composes it: [cutoff_skip],
      [article_loop] (lines 95-117), [page_loop] (lines 86-121) and the
      body. Section [log] holds the loop invariant [log_inv] (the ledger is
      the start ledger followed by the records written, with new distinct
      ids), Section [rerun] the replay of a completed run.
    - [ListSpec]: the list workflow of the specification (section 4.3)
      as a function of the pages' contents, [spec_collect]: the stubs of
      pages [1 .. min(totalPage, max(P,1))], cutoff-filtered and
      deduplicated ([fresh]), cut after [max(N,1)]; and the lemmas that
      the two loops implement it ([article_loop_refine],
      [page_loop_refine]).
    - [ContentCmd]: [cmd_content]: [unlink_all], [load_stubs],
      [pending_stubs], [fetch_one] with its [try]/[except], the download
      loop [for_each pending (fetch_one cdir)] and the body.
    - [Cli]: argparse as the program configures it: a token-by-token parser
      [parse_sub]/[parse_args] over the option tables [LIST_OPTS] and
      [CONTENT_OPTS] (abbreviations, [--opt=value], [choices], [type=int],
      the mutually exclusive group), and [main], where a usage error or
      [--help] is the [SystemExit] argparse raises. [render] writes a
      namespace back as its canonical command line.

    Each command file ends with a Module of concrete runs ([Scenario],
    [SpecScenario], [ContentScenario], [CliScenario]) on the
    spec's example data. These runs are evaluated by [vm_compute] and
    instantiate the theorems.

    ** Theorems

    - [cmd_list] (ListCmd): every run, completed or raising, leaves a ledger
      that ends in a line feed and has distinct ids (C1). Without
      [--articles] a second run writes nothing and reports 0 (C2). Without
      [--rescrape] the old ledger is a prefix of the new (C3). Every record
      written is before the cutoff (C4). At most [max(N,1)] records are
      written under [--articles N] (C5). At most [max(P,1)] requests are
      sent under [--pages P] (C14). C1, C3, C4 and C5 are corollaries of
      one loop specification, [cmd_list_log]. C2 is proved by replaying the
      first run: the server is a function, so the pages are the same, and
      every id is already known.
    - [cmd_content] (ContentCmd): its outcome does not depend on the server
      (C6). The download loop never raises and requests each pending stub
      once, in order (C7). The pending list is the stubs without a content
      file (C8). [--rescrape] empties the content directory (C10). A
      missing ledger does no work (C11).
    - Liveness of [content] (ContentCmd, Section [convergence]): over runs
      repeated against the API's successive states ([content_runs]), the
      content file of each article is afterwards the one it had, or the
      pretty-printed first answer the API gave ([first_answer]), or absent
      when no run got one; so a failed fetch is retried by the next run,
      a downloaded article is never fetched again, and once every id has
      been answered nothing is pending (C19). It rests on the exact effect
      of one run on the content files ([content_run_files]).
    - Refinement (ListSpec): when the server answers every page and no
      stub makes the id and date checks raise, [cmd_list] completes and
      writes exactly the articles of [spec_collect], in order, and reports
      their number (C15). Against any server, [list --rescrape] leaves a
      ledger that is absent or holds only records of stubs the server
      lists for the category ([rebuilt]), unless it raised before the
      ledger was deleted, when the ledger is as it was (C18).
    - Ledger: the ledger's two readers, [load_existing_ids] for [list] and
      [load_stubs] for [content], read back exactly what [list] appends, in
      order (C17).
    - Cli: no accepted command line has both [--pages] and [--articles]
      (C12), every accepted category is valid (C13), and [main] exits before
      any request when both are given (C9). Conversely every valid
      namespace is what [parse_args] returns on its rendering (C16).
    - Findings are [Example]s on concrete runs, such as
      [load_existing_ids_type_error], [articles_rerun_collects_more],
      [bad_date_aborts], [no_trailing_newline] and [stub_without_id_aborts].

    ** Modelling choices

    - Characters are bytes ([Ascii.ascii]). Text is the UTF-8 encoding the
      program writes. [str.strip] and [int()] are modelled for ASCII
      whitespace and ASCII digits. Unicode spaces and digits are not
      modelled; Thai digits, for example, are accepted by [int()].
    - JSON numbers with a fraction or an exponent (Python [float]) are not
      modelled. The concrete parser rejects them, and [pyval] has no float.
    - The remote API is a function from a request to a response or a
      connection failure. So a theorem about two runs assumes that the
      upstream does not change, as the spec does. Query encoding, redirects
      and timeouts of [requests] are not modelled.
    - [time.sleep] and [print] are events of the trace. The [tqdm] progress
      bar draws on the terminal only and is not modelled. Neither are
      argparse's help text and error output: [--help] and a usage error are
      the exceptions [SystemExit 0] and [SystemExit 2].
    - The file system is a map from path strings to contents plus a set of
      directories. [pathlib] joins with ["/"]; normalisation of [".."] in
      names is not modelled. Opening a file checks its parent only: where
      the parent is missing, or is a file, the model raises
      [FileNotFoundError]; Python raises [NotADirectoryError] when some
      ancestor is a file. The program never distinguishes the two (the
      [except] of line 168 catches every exception, and [list] lets both
      propagate), so no outcome the theorems describe depends on it.
    - Writing a content file (lines 166-167) is one step. In Python,
      [open("w")] creates the file before [json.dump] writes it, so a dump
      that raised would leave a partial file. [json.dump] of a value
      [json.loads] returned does not raise on the model's byte strings,
      so the two agree on every run the model has.

    ** Not claimed

    - Termination of the loops of the program is not stated separately:
      every loop runs over a finite list ([range(1, total_page + 1)], a
      page's items, the pending stubs, the ledger's lines, argv), so each
      is a structural [Fixpoint] and Rocq's totality is the argument.
    - Properties of the model's libraries are lemmas, not claims about
      the program: the JSON round trips of [CJson], and
      [cj_loads_fuel_enough], which shows the parser's fuel is never what
      makes it fail. CPython's [json] raises [RecursionError] on nesting
      deeper than the interpreter's recursion limit; the model has no such
      limit. No text the program writes comes near it.
    - The shape of the file system (a file is no directory and its parent
      is one) is kept by the modelled [open], [mkdir] and [unlink]
      themselves, whatever the program does, so it is no property of the
      program and is not stated.

    ** Fuel and recursion

    No loop of the program needs fuel. The page loop runs over the list
    [range(1, totalPage + 1)], and the article and download loops run over
    lists, all structurally. The argparse model recurses on the tail of
    the token list; an option that waits for its value is kept in the
    parser state. Only the JSON parser of [CJson] takes fuel: the length of
    its input plus one. Each nested call reads at least one character
    before it recurses, so a parse that succeeds needs no more fuel than
    the characters it read ([parse_fuel]); [cj_loads_fuel_enough] turns
    this into the statement that any fuel above the length gives the same
    answer. *)

From stdpp Require Export base list gmap strings.
From Stdlib Require Export ZArith Lia.
From Stdlib Require Import Ascii String.

(** stdpp makes [String.append] [simpl never]; the models compute with
    literal prefixes, so let [simpl] and [cbn] unfold it on a constructor. *)
Arguments String.append : simpl nomatch.

Declare Scope py_scope.
Delimit Scope py_scope with py.

(** ** Results of computations that may raise *)

(** [Ok a] is a normal return, [Err e] an exception that propagates. *)
Inductive result (E A : Type) : Type :=
| Ok (a : A)
| Err (e : E).
Arguments Ok {E A} a.
Arguments Err {E A} e.

Definition res_bind {E A B} (r : result E A) (k : A -> result E B) : result E B :=
  match r with
  | Ok a => k a
  | Err e => Err e
  end.

Definition res_map {E A B} (f : A -> B) (r : result E A) : result E B :=
  match r with
  | Ok a => Ok (f a)
  | Err e => Err e
  end.

Notation "'let?' x ':=' c 'in' k" := (res_bind c (fun x => k))
  (at level 10, x pattern, c at level 100, k at level 200,
   format "'[' 'let?'  x  ':='  c  'in' ']' '/' k") : py_scope.

Definition is_ok {E A} (r : result E A) : bool :=
  match r with Ok _ => true | Err _ => false end.

#[export] Instance result_eq_dec {E A} `{EqDecision E} `{EqDecision A} :
  EqDecision (result E A).
Proof. solve_decision. Defined.

Create HintDb scrape.
Create Rewrite HintDb scrape_rw.

(** ** Tactics *)

(** Case on the first [res_bind] or [match] on a result in the goal. *)
Ltac case_res :=
  match goal with
  | |- context [res_bind ?c _] => destruct c eqn:?; simpl
  | |- context [match ?c with Ok _ => _ | Err _ => _ end] => destruct c eqn:?; simpl
  end.

(** ** Lemmas on results *)

Lemma res_bind_Ok {E A B} (c : result E A) (k : A -> result E B) b :
  res_bind c k = Ok b <-> exists a, c = Ok a /\ k a = Ok b.
Proof. destruct c; simpl; naive_solver. Qed.

Lemma res_bind_Err {E A B} (c : result E A) (k : A -> result E B) e :
  res_bind c k = Err e <-> c = Err e \/ exists a, c = Ok a /\ k a = Err e.
Proof. destruct c; simpl; naive_solver. Qed.

Lemma res_bind_assoc {E A B C} (c : result E A) (f : A -> result E B) (g : B -> result E C) :
  res_bind (res_bind c f) g = res_bind c (fun a => res_bind (f a) g).
Proof. by destruct c. Qed.

#[export] Hint Rewrite @res_bind_assoc : scrape_rw.

(** ** Lemmas on lists shared by the components *)

Lemma NoDup_snoc {A} (l : list A) x : NoDup (l ++ [x]) <-> NoDup l /\ x ∉ l.
Proof.
  rewrite NoDup_app. split.
  - intros (? & Hd & _). split; [done|]. intros Hx. by apply (Hd x); [|left].
  - intros [? Hx]. split_and!; [done| |apply NoDup_singleton].
    intros y Hy Hy'%list_elem_of_singleton. by subst.
Qed.

Lemma list_to_set_snoc `{Countable A} (l : list A) x :
  list_to_set (l ++ [x]) = ({[x]} ∪ list_to_set l : gset A).
Proof. rewrite list_to_set_app_L. set_solver. Qed.

#[export] Hint Rewrite @list_to_set_snoc : scrape_rw.

Lemma Forall2_Forall_fst {A B} (P : A -> B -> Prop) (Q : A -> Prop) l k :
  Forall2 P l k -> (forall a b, P a b -> Q a) -> Forall Q l.
Proof. induction 1; intros HPQ; constructor; eauto. Qed.

(** [[f(x) for x in l]] where [f] may raise: the first exception, or all
    the results. *)
Fixpoint res_mapM {E A B} (f : A -> result E B) (l : list A) : result E (list B) :=
  match l with
  | [] => Ok []
  | x :: l' => let? y := f x in let? ys := res_mapM f l' in Ok (y :: ys)
  end%py.
