(* ===== verification/Text.v ===== *)
(** * Text: Python string handling used by [scrape.py]

    Strings are byte strings ([Ascii.ascii]): the UTF-8 text the program
    reads and writes. This file models the string built-ins the code uses:
    - [str.strip] ([py_strip]), applied to every ledger line
      ([line.strip()], lines 40 and 149);
    - iteration over a text file opened with [open("r")]: universal-newline
      translation followed by splitting after each ["\n"] ([text_lines]);
    - [str(n)] of an int ([z_to_str]) and [int(s)] of a str
      ([int_of_str], base 10 with underscores between digits);
    - [repr(s)] of a str ([repr_str]), which [str()] of a list or dict uses.
    The lemmas relate these functions to concatenation: this is what shows
    that appending a record to the ledger appends one line to what is read
    back. *)

From S2P Require Import Prelude.
From Stdlib Require Import Ascii String DecimalString.
Local Open Scope string_scope.
Local Open Scope nat_scope.

(** ** Characters *)

(** Line feed (10), carriage return (13), double quote (34), single
    quote (39) and backslash (92), written by their bits. *)
Definition LF : ascii := Ascii false true false true false false false false.
Definition CR : ascii := Ascii true false true true false false false false.
Definition DQ : ascii := Ascii false true false false false true false false.
Definition SQ : ascii := Ascii true true true false false true false false.
Definition BSL : ascii := Ascii false false true true true false true false.

Definition char (c : ascii) : string := String c EmptyString.

(** [str.isspace] on one character: ASCII [\t \n \v \f \r], the
    separators [\x1c]-[\x1f] and the space. *)
Definition is_py_space (c : ascii) : bool :=
  let n := nat_of_ascii c in
  (9 <=? n) && (n <=? 13) || (28 <=? n) && (n <=? 32).

Definition is_digit (c : ascii) : bool :=
  let n := nat_of_ascii c in (48 <=? n) && (n <=? 57).

Definition digit_val (c : ascii) : Z := Z.of_nat (nat_of_ascii c - 48).

(** ** [str.strip] *)

Fixpoint lstrip (s : string) : string :=
  match s with
  | EmptyString => EmptyString
  | String c r => if is_py_space c then lstrip r else s
  end.

Fixpoint rstrip (s : string) : string :=
  match s with
  | EmptyString => EmptyString
  | String c r =>
      let r' := rstrip r in
      if is_py_space c && String.eqb r' EmptyString then EmptyString else String c r'
  end.

Definition py_strip (s : string) : string := rstrip (lstrip s).

(** ** Line iteration of a text file (universal newlines) *)

(** Reading in text mode with [newline=None] turns ["\r\n"] and ["\r"]
    into ["\n"]. *)
Fixpoint nl_translate (s : string) : string :=
  match s with
  | EmptyString => EmptyString
  | String c r =>
      if Ascii.eqb c CR then
        match r with
        | String c2 r2 =>
            if Ascii.eqb c2 LF then String LF (nl_translate r2)
            else String LF (nl_translate r)
        | EmptyString => String LF EmptyString
        end
      else String c (nl_translate r)
  end.

(** Iteration yields each line with its ["\n"], the last one without it
    when the file does not end in a newline. *)
Fixpoint lines_of (s : string) : list string :=
  match s with
  | EmptyString => []
  | String c r =>
      if Ascii.eqb c LF then char LF :: lines_of r
      else match lines_of r with
           | [] => [char c]
           | l :: ls => String c l :: ls
           end
  end.

(** [for line in f] over a file with contents [s]. *)
Definition text_lines (s : string) : list string := lines_of (nl_translate s).

(** ** Integers and text *)

(** [str(n)] for an int. *)
Definition z_to_str (z : Z) : string := NilZero.string_of_int (Z.to_int z).

(** The digits of a base-10 literal: digits with single underscores
    between them. [after] says the previous character was a digit. *)
Fixpoint int_digits (s : string) (acc : Z) (after : bool) : option Z :=
  match s with
  | EmptyString => if after then Some acc else None
  | String c r =>
      if is_digit c then int_digits r (10 * acc + digit_val c)%Z true
      else if Ascii.eqb c "_" && after then int_digits r acc false
      else None
  end.

(** [int(s)] for a str, in base 10: surrounding whitespace, an optional
    sign, then the digits. [None] is the [ValueError] case. *)
Definition int_of_str (s : string) : option Z :=
  match py_strip s with
  | String c r =>
      if Ascii.eqb c "-" then option_map Z.opp (int_digits r 0%Z false)
      else if Ascii.eqb c "+" then int_digits r 0%Z false
      else int_digits (String c r) 0%Z false
  | EmptyString => None
  end.

(** ** [repr] of a str *)

Definition hex_digit (n : nat) : ascii :=
  if n <? 10 then ascii_of_nat (48 + n) else ascii_of_nat (87 + n).

Fixpoint repr_body (q : ascii) (s : string) : string :=
  match s with
  | EmptyString => EmptyString
  | String c r =>
      let n := nat_of_ascii c in
      let e :=
        if Ascii.eqb c BSL then String BSL (char BSL)
        else if Ascii.eqb c q then String BSL (char q)
        else if n =? 9 then String BSL "t"
        else if n =? 10 then String BSL "n"
        else if n =? 13 then String BSL "r"
        else if (n <? 32) || (n =? 127) then
          String BSL (String "x" (String (hex_digit (n / 16)) (char (hex_digit (n mod 16)))))
        else char c in
      e ++ repr_body q r
  end.

Fixpoint has_char (c : ascii) (s : string) : bool :=
  match s with
  | EmptyString => false
  | String d r => Ascii.eqb c d || has_char c r
  end.

(** [repr(s)]: single quotes, unless [s] has a single quote and no double
    quote. *)
Definition repr_str (s : string) : string :=
  let q := if has_char SQ s && negb (has_char DQ s) then DQ else SQ in
  String q (repr_body q s ++ char q).

(** ** Lemmas *)

Lemma append_cons c (a b : string) : String c a ++ b = String c (a ++ b).
Proof. reflexivity. Qed.

Lemma str_app_assoc (a b c : string) : a ++ (b ++ c) = (a ++ b) ++ c.
Proof. induction a as [|d a IH]; [done|]. by rewrite !append_cons, IH. Qed.

Lemma str_app_nil_r (a : string) : a ++ EmptyString = a.
Proof. induction a as [|d a IH]; [done|]. by rewrite append_cons, IH. Qed.

Lemma str_length_app (a b : string) : String.length (a ++ b) = String.length a + String.length b.
Proof. induction a as [|d a IH]; [done|]. rewrite append_cons. cbn [String.length]. by rewrite IH. Qed.

#[export] Hint Rewrite str_app_nil_r str_length_app : scrape_rw.

Lemma lines_of_cons c r :
  lines_of (String c r) =
  if Ascii.eqb c LF then char LF :: lines_of r
  else match lines_of r with [] => [char c] | l :: ls => String c l :: ls end.
Proof. reflexivity. Qed.

Lemma has_char_cons c d r : has_char c (String d r) = Ascii.eqb c d || has_char c r.
Proof. reflexivity. Qed.

Lemma nl_translate_cons_other c r :
  Ascii.eqb c CR = false -> nl_translate (String c r) = String c (nl_translate r).
Proof. intros H. cbn [nl_translate]. by rewrite H. Qed.

Lemma rstrip_cons c r :
  rstrip (String c r) =
  if is_py_space c && String.eqb (rstrip r) EmptyString then EmptyString else String c (rstrip r).
Proof. reflexivity. Qed.

Lemma lines_of_app_nl (a b : string) :
  lines_of (a ++ String LF b) = (lines_of (a ++ char LF) ++ lines_of b)%list.
Proof.
  induction a as [|c a IH]; [done|].
  rewrite !append_cons, !lines_of_cons, IH. destruct (Ascii.eqb c LF); [done|].
  destruct (lines_of (a ++ char LF)) eqn:E; [|done].
  exfalso. clear -E. induction a as [|d a IHa]; [discriminate|].
  rewrite append_cons, lines_of_cons in E.
  destruct (Ascii.eqb d LF); [discriminate|destruct (lines_of _); discriminate].
Qed.

(** A line without a line feed followed by one is read as one line. *)
Lemma lines_of_line (a : string) :
  has_char LF a = false -> lines_of (a ++ char LF) = [a ++ char LF].
Proof.
  induction a as [|c a IH]; [done|].
  rewrite has_char_cons. intros [Hc Ha]%orb_false_iff.
  rewrite append_cons, lines_of_cons, Ascii.eqb_sym, Hc, IH; done.
Qed.

Lemma nl_translate_app (a b : string) :
  has_char CR a = false -> nl_translate (a ++ b) = nl_translate a ++ nl_translate b.
Proof.
  induction a as [|c a IH]; [done|].
  rewrite has_char_cons. intros [Hc Ha]%orb_false_iff. rewrite Ascii.eqb_sym in Hc.
  rewrite append_cons, !nl_translate_cons_other, IH; done.
Qed.

Lemma nl_translate_id (a : string) :
  has_char CR a = false -> nl_translate a = a.
Proof.
  induction a as [|c a IH]; [done|].
  rewrite has_char_cons. intros [Hc Ha]%orb_false_iff. rewrite Ascii.eqb_sym in Hc.
  rewrite nl_translate_cons_other, IH; done.
Qed.

Lemma has_char_app c a b : has_char c (a ++ b) = has_char c a || has_char c b.
Proof.
  induction a as [|d a IH]; [done|].
  by rewrite append_cons, !has_char_cons, IH, orb_assoc.
Qed.

Lemma rstrip_app_space (a : string) c :
  is_py_space c = true -> rstrip (a ++ char c) = rstrip a.
Proof.
  intros Hc. induction a as [|d a IH].
  - change (rstrip (String c EmptyString) = EmptyString). rewrite rstrip_cons. by rewrite Hc.
  - by rewrite append_cons, !rstrip_cons, IH.
Qed.

Example special_chars :
  map nat_of_ascii [LF; CR; DQ; SQ; BSL] = [10; 13; 34; 39; 92].
Proof. reflexivity. Qed.

Example z_to_str_ex : z_to_str (-1203)%Z = "-1203" /\ z_to_str 0%Z = "0".
Proof. split; reflexivity. Qed.

Example int_of_str_ex :
  int_of_str " 1_000 " = Some 1000%Z /\ int_of_str "-07" = Some (-7)%Z /\
  int_of_str "1__0" = None /\ int_of_str "_1" = None /\ int_of_str "" = None.
Proof. repeat split; reflexivity. Qed.

Lemma lstrip_app_space (a : string) c :
  is_py_space c = true ->
  lstrip (a ++ char c) = if String.eqb (lstrip a) EmptyString then EmptyString else lstrip a ++ char c.
Proof.
  intros Hc. induction a as [|d a IH].
  - change (lstrip (String c EmptyString) = EmptyString). cbn [lstrip]. by rewrite Hc.
  - rewrite append_cons. cbn [lstrip]. destruct (is_py_space d); [exact IH|done].
Qed.

(** Stripping ignores a trailing space, such as the line feed of a line. *)
Lemma py_strip_app_space (a : string) c :
  is_py_space c = true -> py_strip (a ++ char c) = py_strip a.
Proof.
  intros Hc. unfold py_strip. rewrite lstrip_app_space by done.
  destruct (String.eqb_spec (lstrip a) EmptyString) as [->|_]; [done|].
  by apply rstrip_app_space.
Qed.

(** ** Appending after a line feed *)

Lemma nl_translate_cons_cr_lf r :
  nl_translate (String CR (String LF r)) = String LF (nl_translate r).
Proof. reflexivity. Qed.

Lemma nl_translate_cons_cr_other r :
  match r with String c _ => Ascii.eqb c LF = false | EmptyString => False end ->
  nl_translate (String CR r) = String LF (nl_translate r).
Proof. destruct r as [|c r]; [done|]. intros H. cbn [nl_translate]. by rewrite H. Qed.

(** Strong induction on the length of a string. *)
Lemma string_len_ind (P : string -> Prop) :
  (forall s, (forall t, String.length t < String.length s -> P t) -> P s) -> forall s, P s.
Proof.
  intros H s. remember (String.length s) as n eqn:E. revert s E.
  induction n as [n IH] using (well_founded_induction lt_wf). intros s ->.
  apply H. intros t Ht. by apply (IH (String.length t)).
Qed.

Lemma nl_translate_app_lf (a b : string) :
  nl_translate (a ++ String LF b) = nl_translate (a ++ char LF) ++ nl_translate b.
Proof.
  revert a. apply string_len_ind. intros [|c a] IH; [reflexivity|].
  rewrite !append_cons. destruct (Ascii.eqb c CR) eqn:Hc.
  - apply Ascii.eqb_eq in Hc as ->. destruct a as [|c2 a'].
    + reflexivity.
    + rewrite !append_cons. destruct (Ascii.eqb c2 LF) eqn:H2.
      * apply Ascii.eqb_eq in H2 as ->. rewrite !nl_translate_cons_cr_lf, IH; [done|].
        cbn. lia.
      * rewrite !nl_translate_cons_cr_other by done. rewrite <-!append_cons, IH; [done|].
        cbn. lia.
  - rewrite !nl_translate_cons_other by done. rewrite IH; [done|]. cbn. lia.
Qed.

Lemma nl_translate_snoc_lf (a : string) : exists y, nl_translate (a ++ char LF) = y ++ char LF.
Proof.
  revert a. apply string_len_ind. intros [|c a] IH; [by exists EmptyString|].
  rewrite append_cons. destruct (Ascii.eqb c CR) eqn:Hc.
  - apply Ascii.eqb_eq in Hc as ->. destruct a as [|c2 a'].
    + by exists EmptyString.
    + rewrite append_cons. destruct (Ascii.eqb c2 LF) eqn:H2.
      * apply Ascii.eqb_eq in H2 as ->. rewrite nl_translate_cons_cr_lf.
        destruct (IH a') as [y Hy]; [cbn; lia|]. exists (String LF y). by rewrite Hy.
      * rewrite nl_translate_cons_cr_other by done. rewrite <-append_cons.
        destruct (IH (String c2 a')) as [y Hy]; [cbn; lia|]. exists (String LF y). by rewrite Hy.
  - rewrite nl_translate_cons_other by done.
    destruct (IH a) as [y Hy]; [cbn; lia|]. exists (String c y). by rewrite Hy.
Qed.

(** The lines of a text that follows a line feed come after the lines
    before it. *)
Lemma text_lines_app_lf (a b : string) :
  text_lines (a ++ String LF b) = (text_lines (a ++ char LF) ++ text_lines b)%list.
Proof.
  unfold text_lines. rewrite nl_translate_app_lf.
  destruct (nl_translate_snoc_lf a) as [y ->].
  rewrite <-str_app_assoc. change (char LF ++ nl_translate b) with (String LF (nl_translate b)).
  by rewrite lines_of_app_nl.
Qed.

(** The text is empty or ends with a line feed. *)
Fixpoint ends_nl (s : string) : bool :=
  match s with
  | EmptyString => true
  | String c EmptyString => Ascii.eqb c LF
  | String _ r => ends_nl r
  end.

Lemma ends_nl_spec s : ends_nl s = true <-> s = EmptyString \/ exists s', s = s' ++ char LF.
Proof.
  induction s as [|c r IH]; [naive_solver|]. split.
  - destruct r as [|c' r'].
    + cbn. intros ->%Ascii.eqb_eq. right. by exists EmptyString.
    + change (ends_nl (String c (String c' r'))) with (ends_nl (String c' r')).
      intros [[=]|[s' Hs']]%IH. right. exists (String c s'). by rewrite Hs'.
  - intros [[=]|[s' Hs']]. destruct s' as [|d s'].
    + injection Hs' as -> ->. reflexivity.
    + rewrite append_cons in Hs'. injection Hs' as -> ->.
      destruct s' as [|e s'']; [reflexivity|].
      change (ends_nl (String d (String e s'' ++ char LF))) with (ends_nl (String e s'' ++ char LF)).
      apply IH. right. by exists (String e s'').
Qed.

Lemma ends_nl_app_line a s : ends_nl (a ++ s ++ char LF) = true.
Proof. apply ends_nl_spec. right. exists (a ++ s). by rewrite str_app_assoc. Qed.
