(* ===== verification/PyObj.v ===== *)
(** * PyObj: the Python objects and exceptions of [scrape.py]

    [pyval] is the type of the objects [json.loads] returns: [None], bools,
    ints, strs, lists and dicts with str keys. (Python floats are not
    modelled; see the header of [Prelude].) A dict is a list of pairs in
    insertion order with distinct keys ([py_wf]), as a Python dict is.

    [exn] lists the exceptions the program can raise or catch. The
    functions below are the built-ins the code applies to decoded JSON,
    with the exceptions CPython raises for each other type of argument:
    - [py_getitem o k] is [o[k]] with a str key (lines 45, 75, 93, 94, 158,
      162);
    - [py_dict_get o k d] is [o.get(k, d)] (lines 76, 98);
    - [py_int o] is [int(o)] (lines 45, 94);
    - [py_truthy o] is the truth value of [o] (line 99: [if pub_str:]);
    - [py_iter o] is the sequence [for x in o] visits (line 93);
    - [py_add_int o n] is [o + n] for an int [n] (line 86: [total_page + 1]);
    - [py_str o] is [str(o)], as an f-string formats [o] (lines 77, 158,
      163, 169). *)

From S2P Require Import Prelude Text.
From Stdlib Require Import Ascii String.
Local Open Scope string_scope.

(** ** Values *)

Inductive pyval : Type :=
| PNone
| PBool (b : bool)
| PInt (z : Z)
| PStr (s : string)
| PList (l : list pyval)
| PDict (kvs : list (string * pyval)).

(** Induction with hypotheses for the elements of lists and dicts. *)
Section pyval_ind_nested.
Variable P : pyval -> Prop.
Hypothesis HNone : P PNone.
Hypothesis HBool : forall b, P (PBool b).
Hypothesis HInt : forall z, P (PInt z).
Hypothesis HStr : forall s, P (PStr s).
Hypothesis HList : forall l, Forall P l -> P (PList l).
Hypothesis HDict : forall kvs, Forall (fun kv => P kv.2) kvs -> P (PDict kvs).

Fixpoint pyval_ind_nested (v : pyval) : P v :=
  match v with
  | PNone => HNone
  | PBool b => HBool b
  | PInt z => HInt z
  | PStr s => HStr s
  | PList l =>
      HList l ((fix go (l : list pyval) : Forall P l :=
                  match l with
                  | [] => List.Forall_nil P
                  | x :: l' => @List.Forall_cons _ P x l' (pyval_ind_nested x) (go l')
                  end) l)
  | PDict kvs =>
      HDict kvs ((fix go (kvs : list (string * pyval)) : Forall (fun kv => P kv.2) kvs :=
                    match kvs with
                    | [] => List.Forall_nil _
                    | kv :: kvs' =>
                        @List.Forall_cons _ (fun kv => P kv.2) kv kvs'
                          (pyval_ind_nested kv.2) (go kvs')
                    end) kvs)
  end.
End pyval_ind_nested.

(** A dict has distinct keys, at every depth. *)
Fixpoint py_wfb (v : pyval) : bool :=
  match v with
  | PList l => forallb py_wfb l
  | PDict kvs => bool_decide (NoDup kvs.*1) && forallb (fun kv => py_wfb kv.2) kvs
  | _ => true
  end.

Definition py_wf (v : pyval) : Prop := py_wfb v = true.

(** ** Exceptions *)

Inductive exn : Type :=
| JSONDecodeError (msg : string)
| KeyError (key : string)
| TypeError (msg : string)
| ValueError (msg : string)
| AttributeError (msg : string)
| ParserError (msg : string)
| HTTPError (status : Z)
| ConnectionError
| FileNotFoundError (path : string)
| FileExistsError (path : string)
| IsADirectoryError (path : string)
| NotADirectoryError (path : string)
| SystemExit (code : Z).

#[export] Instance exn_eq_dec : EqDecision exn.
Proof. solve_decision. Defined.

(** [except ValueError] also catches its subclasses [JSONDecodeError] and
    dateutil's [ParserError]. *)
Definition is_value_error (e : exn) : bool :=
  match e with
  | ValueError _ | JSONDecodeError _ | ParserError _ => true
  | _ => false
  end.

Definition is_json_decode_error (e : exn) : bool :=
  match e with JSONDecodeError _ => true | _ => false end.

Definition is_key_error (e : exn) : bool :=
  match e with KeyError _ => true | _ => false end.

(** ** Built-ins *)

Definition py_type_name (v : pyval) : string :=
  match v with
  | PNone => "NoneType"
  | PBool _ => "bool"
  | PInt _ => "int"
  | PStr _ => "str"
  | PList _ => "list"
  | PDict _ => "dict"
  end.

Definition quoted (s : string) : string := String SQ (s ++ char SQ).

(** The value of the first binding of [k]: a dict has one. *)
Fixpoint assoc_lookup (k : string) (kvs : list (string * pyval)) : option pyval :=
  match kvs with
  | [] => None
  | (k', v) :: kvs' => if String.eqb k k' then Some v else assoc_lookup k kvs'
  end.

(** [d[k] = v] on a dict: an existing key keeps its place. *)
Fixpoint dict_set (k : string) (v : pyval) (kvs : list (string * pyval))
    : list (string * pyval) :=
  match kvs with
  | [] => [(k, v)]
  | (k', v') :: kvs' =>
      if String.eqb k k' then (k', v) :: kvs' else (k', v') :: dict_set k v kvs'
  end.

(** [o[k]] for a str key [k]. *)
Definition py_getitem (o : pyval) (k : string) : result exn pyval :=
  match o with
  | PDict kvs =>
      match assoc_lookup k kvs with
      | Some v => Ok v
      | None => Err (KeyError k)
      end
  | PList _ => Err (TypeError "list indices must be integers or slices, not str")
  | PStr _ => Err (TypeError "string indices must be integers, not 'str'")
  | _ => Err (TypeError (quoted (py_type_name o) ++ " object is not subscriptable"))
  end.

(** [o.get(k, d)]: only dicts have [get]. *)
Definition py_dict_get (o : pyval) (k : string) (d : pyval) : result exn pyval :=
  match o with
  | PDict kvs =>
      match assoc_lookup k kvs with
      | Some v => Ok v
      | None => Ok d
      end
  | _ => Err (AttributeError (quoted (py_type_name o) ++ " object has no attribute 'get'"))
  end.

(** [int(o)]. *)
Definition py_int (o : pyval) : result exn Z :=
  match o with
  | PInt z => Ok z
  | PBool b => Ok (if b then 1 else 0)%Z
  | PStr s =>
      match int_of_str s with
      | Some z => Ok z
      | None => Err (ValueError ("invalid literal for int() with base 10: " ++ repr_str s))
      end
  | _ => Err (TypeError ("int() argument must be a string, a bytes-like object or a real number, not "
                           ++ quoted (py_type_name o)))
  end.

(** The truth value of [o]. *)
Definition py_truthy (o : pyval) : bool :=
  match o with
  | PNone => false
  | PBool b => b
  | PInt z => negb (Z.eqb z 0)
  | PStr s => negb (String.eqb s EmptyString)
  | PList l => negb (bool_decide (l = []))
  | PDict kvs => negb (bool_decide (kvs = []))
  end.

Fixpoint str_chars (s : string) : list pyval :=
  match s with
  | EmptyString => []
  | String c r => PStr (char c) :: str_chars r
  end.

(** The elements [for x in o] visits: a dict yields its keys, a str its
    characters. *)
Definition py_iter (o : pyval) : result exn (list pyval) :=
  match o with
  | PList l => Ok l
  | PDict kvs => Ok (map (fun kv => PStr kv.1) kvs)
  | PStr s => Ok (str_chars s)
  | _ => Err (TypeError (quoted (py_type_name o) ++ " object is not iterable"))
  end.

(** [o + n] for an int [n]: bools are ints. *)
Definition py_add_int (o : pyval) (n : Z) : result exn Z :=
  match o with
  | PInt z => Ok (z + n)%Z
  | PBool b => Ok ((if b then 1 else 0) + n)%Z
  | PStr _ => Err (TypeError ("can only concatenate str (not " ++ String DQ ("int" ++ char DQ) ++ ") to str"))
  | PList _ => Err (TypeError ("can only concatenate list (not " ++ String DQ ("int" ++ char DQ) ++ ") to list"))
  | _ => Err (TypeError ("unsupported operand type(s) for +: " ++ quoted (py_type_name o) ++ " and 'int'"))
  end.

(** [repr(o)]. *)
Fixpoint py_repr (o : pyval) : string :=
  match o with
  | PNone => "None"
  | PBool true => "True"
  | PBool false => "False"
  | PInt z => z_to_str z
  | PStr s => repr_str s
  | PList l => "[" ++ String.concat ", " (map py_repr l) ++ "]"
  | PDict kvs =>
      "{" ++ String.concat ", " (map (fun kv => repr_str kv.1 ++ ": " ++ py_repr kv.2) kvs) ++ "}"
  end.

(** [str(o)]: a str is itself, everything else its [repr]. *)
Definition py_str (o : pyval) : string :=
  match o with
  | PStr s => s
  | _ => py_repr o
  end.

(** [str(e)] of an exception, as the except clause of [cmd_content] prints
    it. The messages of [requests] are shortened. *)
Definition exn_str (e : exn) : string :=
  match e with
  | JSONDecodeError m | TypeError m | ValueError m | AttributeError m | ParserError m => m
  | KeyError k => repr_str k
  | HTTPError st => z_to_str st ++ " Error"
  | ConnectionError => "Connection aborted."
  | FileNotFoundError p => "[Errno 2] No such file or directory: " ++ repr_str p
  | FileExistsError p => "[Errno 17] File exists: " ++ repr_str p
  | IsADirectoryError p => "[Errno 21] Is a directory: " ++ repr_str p
  | NotADirectoryError p => "[Errno 20] Not a directory: " ++ repr_str p
  | SystemExit c => z_to_str c
  end.

(** ** Lemmas *)

Lemma assoc_lookup_wf k kvs v :
  Forall (fun kv => py_wf kv.2) kvs -> assoc_lookup k kvs = Some v -> py_wf v.
Proof.
  induction 1 as [|[k' v'] kvs' Hv Hall IH]; simpl; [done|].
  destruct (String.eqb k k'); [by intros [= <-]|exact IH].
Qed.

Lemma py_wf_dict kvs :
  py_wf (PDict kvs) <-> NoDup kvs.*1 /\ Forall (fun kv => py_wf kv.2) kvs.
Proof.
  unfold py_wf; simpl. by rewrite andb_true_iff, bool_decide_eq_true, forallb_forall, List.Forall_forall.
Qed.

Lemma py_wf_list l : py_wf (PList l) <-> Forall py_wf l.
Proof. unfold py_wf; simpl. by rewrite forallb_forall, List.Forall_forall. Qed.

(** Subscription of a well-formed object gives a well-formed object. *)
Lemma py_getitem_wf o k v : py_wf o -> py_getitem o k = Ok v -> py_wf v.
Proof.
  destruct o as [| | | | |kvs]; simpl; try discriminate.
  intros [_ Hall]%py_wf_dict. destruct (assoc_lookup k kvs) eqn:E; [|discriminate].
  intros [= <-]. by eapply assoc_lookup_wf.
Qed.

Lemma str_chars_wf s : Forall py_wf (str_chars s).
Proof. induction s; simpl; constructor; done. Qed.

(** Iteration over a well-formed object visits well-formed objects. *)
Lemma py_iter_wf o l : py_wf o -> py_iter o = Ok l -> Forall py_wf l.
Proof.
  destruct o as [| | | |l'|kvs]; simpl; try discriminate.
  - intros _ [= <-]. apply str_chars_wf.
  - intros Hwf%py_wf_list [= <-]. done.
  - intros _ [= <-]. apply Forall_forall. intros x (kv & -> & _)%list_elem_of_fmap. done.
Qed.

Lemma dict_set_keys_elem x k v kvs :
  x ∈ (dict_set k v kvs).*1 <-> x = k \/ x ∈ kvs.*1.
Proof.
  induction kvs as [|[k' v'] kvs IH]; cbn [dict_set].
  - set_solver.
  - destruct (String.eqb_spec k k') as [->|Hne]; rewrite !fmap_cons, !elem_of_cons; simpl;
      [|rewrite IH]; naive_solver.
Qed.

(** [d[k] = v] keeps the keys distinct. *)
Lemma dict_set_nodup k v kvs : NoDup kvs.*1 -> NoDup (dict_set k v kvs).*1.
Proof.
  induction kvs as [|[k' v'] kvs IH]; cbn [dict_set].
  - intros _. apply NoDup_singleton.
  - rewrite fmap_cons, NoDup_cons. simpl. intros [Hk' Hnd].
    destruct (String.eqb_spec k k') as [->|Hne]; rewrite fmap_cons, NoDup_cons; simpl.
    + done.
    + rewrite dict_set_keys_elem. naive_solver.
Qed.

Lemma dict_set_wf k v kvs :
  py_wf v -> py_wf (PDict kvs) -> py_wf (PDict (dict_set k v kvs)).
Proof.
  rewrite !py_wf_dict. intros Hv [Hnd Hall]. split; [by apply dict_set_nodup|].
  clear Hnd. induction Hall as [|[k' v'] kvs Hv' Hall IH]; simpl.
  - by constructor.
  - destruct (String.eqb k k'); constructor; done.
Qed.

Example py_getitem_ex :
  py_getitem (PDict [("id", PInt 7)]) "id" = Ok (PInt 7) /\
  py_getitem (PDict [("x", PInt 7)]) "id" = Err (KeyError "id") /\
  py_int (PStr " 42") = Ok 42%Z /\ is_ok (py_int PNone) = false.
Proof. repeat split; reflexivity. Qed.

(** Setting a fresh key appends it. *)
Lemma dict_set_fresh k v kvs : k ∉ kvs.*1 -> dict_set k v kvs = (kvs ++ [(k, v)])%list.
Proof.
  induction kvs as [|[k' v'] kvs IH]; [done|]. cbn [dict_set].
  rewrite fmap_cons, not_elem_of_cons. simpl. intros [Hne Hk].
  destruct (String.eqb_spec k k'); [done|]. by rewrite IH.
Qed.
