(* ===== verification/JsonLib.v ===== *)
(** * JsonLib: the interface of Python's [json] module

    [scrape.py] calls three functions of the standard [json] module:
    - [json.loads(line)] on each ledger line (lines 44, 153) and, through
      [resp.json()], on each response body (line 31);
    - [json.dumps(article, ensure_ascii=False)] for each ledger record
      (line 108);
    - [json.dump(content, f, ensure_ascii=False, indent=2)] for each content
      file (line 167).
    The module is a library, so it is an interface here: the class [JsonLib]
    has the three functions and [JsonLibLaws] has the properties of them
    the program relies on. The ledger and the commands are proved against
    these laws. [CJson] gives a concrete implementation, a printer and a
    parser of JSON text, and proves the laws for it. *)

From S2P Require Import Prelude Text PyObj.
From Stdlib Require Import Ascii String.

Class JsonLib := {
  json_loads : string -> result exn pyval;
  json_dumps : pyval -> string;
  json_dump_indent : pyval -> string
}.

(** What the program needs of [json]:
    - what [loads] returns is a dict with distinct keys, at every depth;
    - [loads] fails only with [JSONDecodeError] (a [ValueError]);
    - [loads] reads back what [dumps] printed;
    - [dumps] prints one line: no line feed, no carriage return, nothing
      to strip, and not empty. *)
Class JsonLibLaws `{JsonLib} : Prop := {
  loads_wf : forall s v, json_loads s = Ok v -> py_wf v;
  loads_err : forall s e, json_loads s = Err e -> is_json_decode_error e = true;
  loads_dumps : forall v, py_wf v -> json_loads (json_dumps v) = Ok v;
  dumps_no_lf : forall v, has_char LF (json_dumps v) = false;
  dumps_no_cr : forall v, has_char CR (json_dumps v) = false;
  dumps_stripped : forall v, py_strip (json_dumps v) = json_dumps v;
  dumps_nonempty : forall v, json_dumps v <> EmptyString
}.

Section laws.
Context `{JsonLibLaws}.

(** A ledger record [json.dumps(a) + "\n"]: *)
Definition record_line (a : pyval) : string := json_dumps a ++ char LF.

(** read back, it is one line; *)
Lemma record_line_lines a : text_lines (record_line a) = [record_line a].
Proof.
  unfold text_lines, record_line.
  rewrite nl_translate_id.
  - apply lines_of_line, dumps_no_lf.
  - rewrite has_char_app, dumps_no_cr. reflexivity.
Qed.

(** stripped, it is the dump; *)
Lemma record_line_strip a : py_strip (record_line a) = json_dumps a.
Proof. unfold record_line. rewrite py_strip_app_space by reflexivity. apply dumps_stripped. Qed.

(** and decoded, it is the record. *)
Lemma record_line_loads a : py_wf a -> json_loads (py_strip (record_line a)) = Ok a.
Proof. intros. rewrite record_line_strip. by apply loads_dumps. Qed.

Lemma record_line_no_cr a : has_char CR (record_line a) = false.
Proof. unfold record_line. by rewrite has_char_app, dumps_no_cr. Qed.
End laws.
