(* ===== verification/CJson.v ===== *)
(** * CJson: a concrete model of [json.loads] and [json.dumps]

    This file is an implementation of the [JsonLib] interface that follows
    CPython's [json] module on the values of [pyval]:
    - [cj_dumps] is [json.dumps(v, ensure_ascii=False)]: separators [", "]
      and [": "]; in strings, the double quote and the backslash are
      escaped, and so are the
      control characters below 0x20, as [\n \r \t \b \f] or [\u00xx] with
      lowercase hex digits; other bytes are written as they are;
    - [cj_dump_indent] is the text [json.dump(v, f, ensure_ascii=False,
      indent=2)] writes: one element per line, two spaces per level, and
      [","] as item separator;
    - [cj_loads] is [json.loads] in its default strict mode: whitespace
      around tokens, [\uXXXX] escapes decoded to UTF-8 (surrogate pairs
      combined), raw control characters in strings refused, dict keys set
      in order so that the last duplicate wins, and ["Extra data"] after
      the value refused.
    Numbers with a fraction or an exponent are floats in Python and are not
    modelled: the parser refuses them, like the [NaN] and [Infinity]
    literals. The parser takes the input length plus one as fuel
    ([cj_loads_fuel] is the same call with any fuel).
    [cj_loads_dumps] proves that this fuel is enough to read back every
    printed value, and [cj_loads_fuel_enough] that it is enough for every
    input: any fuel of at least the length gives the same answer. *)

From S2P Require Import Prelude Text PyObj JsonLib.
From Stdlib Require Import Ascii String DecimalString.
From Stdlib Require DecimalPos DecimalFacts.
Local Open Scope string_scope.
Local Open Scope nat_scope.

(** ** Printing *)

Definition esc_char (c : ascii) : string :=
  let n := nat_of_ascii c in
  if Ascii.eqb c DQ then String BSL (char DQ)
  else if Ascii.eqb c BSL then String BSL (char BSL)
  else if n =? 10 then String BSL "n"
  else if n =? 13 then String BSL "r"
  else if n =? 9 then String BSL "t"
  else if n =? 8 then String BSL "b"
  else if n =? 12 then String BSL "f"
  else if n <? 32 then
    String BSL ("u00" ++ String (hex_digit (n / 16)) (char (hex_digit (n mod 16))))
  else char c.

Fixpoint esc (s : string) : string :=
  match s with
  | EmptyString => EmptyString
  | String c r => esc_char c ++ esc r
  end.

Definition quote_json (s : string) : string := String DQ (esc s ++ char DQ).

Fixpoint cj_dumps (v : pyval) : string :=
  match v with
  | PNone => "null"
  | PBool true => "true"
  | PBool false => "false"
  | PInt z => z_to_str z
  | PStr s => quote_json s
  | PList l => "[" ++ String.concat ", " (map cj_dumps l) ++ "]"
  | PDict kvs =>
      "{" ++ String.concat ", " (map (fun kv => quote_json kv.1 ++ ": " ++ cj_dumps kv.2) kvs)
      ++ "}"
  end.

Fixpoint spaces (n : nat) : string :=
  match n with 0 => EmptyString | S n' => String " " (spaces n') end.

(** A new line indented to level [lvl]. *)
Definition nl_indent (lvl : nat) : string := String LF (spaces (2 * lvl)).

Fixpoint dump_indent (lvl : nat) (v : pyval) : string :=
  match v with
  | PList [] => "[]"
  | PDict [] => "{}"
  | PList l =>
      "[" ++ nl_indent (S lvl)
      ++ String.concat ("," ++ nl_indent (S lvl)) (map (dump_indent (S lvl)) l)
      ++ nl_indent lvl ++ "]"
  | PDict kvs =>
      "{" ++ nl_indent (S lvl)
      ++ String.concat ("," ++ nl_indent (S lvl))
           (map (fun kv => quote_json kv.1 ++ ": " ++ dump_indent (S lvl) kv.2) kvs)
      ++ nl_indent lvl ++ "}"
  | _ => cj_dumps v
  end.

Definition cj_dump_indent (v : pyval) : string := dump_indent 0 v.

(** ** Parsing *)

Definition json_ws (c : ascii) : bool :=
  let n := nat_of_ascii c in (n =? 32) || (n =? 9) || (n =? 10) || (n =? 13).

Fixpoint skip_ws (s : string) : string :=
  match s with
  | String c r => if json_ws c then skip_ws r else s
  | EmptyString => EmptyString
  end.

(** [s] begins with [lit]; what follows. *)
Fixpoint expect (lit s : string) : option string :=
  match lit, s with
  | EmptyString, _ => Some s
  | String a l, String b r => if Ascii.eqb a b then expect l r else None
  | _, _ => None
  end.

Fixpoint span_digits (s : string) : string * string :=
  match s with
  | String c r =>
      if is_digit c then let '(a, b) := span_digits r in (String c a, b) else (EmptyString, s)
  | EmptyString => (EmptyString, EmptyString)
  end.

(** What may follow an int: a fraction or an exponent would make a float. *)
Definition int_end_ok (s : string) : bool :=
  match s with
  | String c _ => negb (Ascii.eqb c "." || Ascii.eqb c "e" || Ascii.eqb c "E")
  | EmptyString => true
  end.

(** An optional minus sign, then 0 or a nonzero digit followed by digits,
    with no fraction and no exponent. *)
Definition parse_number (s : string) : option (pyval * string) :=
  let '(neg, s1) :=
    match s with
    | String c r => if Ascii.eqb c "-" then (true, r) else (false, s)
    | EmptyString => (false, s)
    end in
  let '(digs, rest) := span_digits s1 in
  match digs, NilEmpty.uint_of_string digs with
  | String c r, Some d =>
      if (Ascii.eqb c "0" && negb (String.eqb r EmptyString)) || negb (int_end_ok rest) then None
      else let n := Z.of_uint d in Some (PInt (if neg then Z.opp n else n), rest)
  | _, _ => None
  end.

Definition hex_val (c : ascii) : option N :=
  let n := N_of_ascii c in
  if (48 <=? n)%N && (n <=? 57)%N then Some (n - 48)%N
  else if (97 <=? n)%N && (n <=? 102)%N then Some (n - 87)%N
  else if (65 <=? n)%N && (n <=? 70)%N then Some (n - 55)%N
  else None.

Definition hex4 (a b c d : ascii) : option N :=
  match hex_val a, hex_val b, hex_val c, hex_val d with
  | Some x, Some y, Some z, Some w => Some (((x * 16 + y) * 16 + z) * 16 + w)%N
  | _, _, _, _ => None
  end.

(** The UTF-8 bytes of a code point (a lone surrogate is encoded like any
    other code point below 0x10000). *)
Definition utf8_encode (cp : N) : string :=
  let byte (n : N) := ascii_of_N n in
  if (cp <? 128)%N then char (byte cp)
  else if (cp <? 2048)%N then
    String (byte (192 + cp / 64)%N) (char (byte (128 + cp mod 64)%N))
  else if (cp <? 65536)%N then
    String (byte (224 + cp / 4096)%N)
      (String (byte (128 + (cp / 64) mod 64)%N) (char (byte (128 + cp mod 64)%N)))
  else
    String (byte (240 + cp / 262144)%N)
      (String (byte (128 + (cp / 4096) mod 64)%N)
        (String (byte (128 + (cp / 64) mod 64)%N) (char (byte (128 + cp mod 64)%N)))).

Definition prepend (a : string) (o : option (string * string)) : option (string * string) :=
  match o with
  | Some (d, r) => Some (a ++ d, r)
  | None => None
  end.

(** The body of a string literal after its opening quote: the decoded
    bytes and what follows the closing quote. *)
Fixpoint parse_str_body (s : string) : option (string * string) :=
  match s with
  | EmptyString => None
  | String c r =>
      if Ascii.eqb c DQ then Some (EmptyString, r)
      else if Ascii.eqb c BSL then
        match r with
        | String e r' =>
            if Ascii.eqb e DQ then prepend (char DQ) (parse_str_body r')
            else if Ascii.eqb e BSL then prepend (char BSL) (parse_str_body r')
            else if Ascii.eqb e "/" then prepend "/" (parse_str_body r')
            else if Ascii.eqb e "b" then prepend (char (ascii_of_nat 8)) (parse_str_body r')
            else if Ascii.eqb e "f" then prepend (char (ascii_of_nat 12)) (parse_str_body r')
            else if Ascii.eqb e "n" then prepend (char LF) (parse_str_body r')
            else if Ascii.eqb e "r" then prepend (char CR) (parse_str_body r')
            else if Ascii.eqb e "t" then prepend (char (ascii_of_nat 9)) (parse_str_body r')
            else if Ascii.eqb e "u" then
              match r' with
              | String h1 (String h2 (String h3 (String h4 r''))) =>
                  match hex4 h1 h2 h3 h4 with
                  | Some cp =>
                      if (55296 <=? cp)%N && (cp <=? 56319)%N then
                        match r'' with
                        | String b1 (String u1 (String g1 (String g2 (String g3 (String g4 r3))))) =>
                            if Ascii.eqb b1 BSL && Ascii.eqb u1 "u" then
                              match hex4 g1 g2 g3 g4 with
                              | Some cp2 =>
                                  if (56320 <=? cp2)%N && (cp2 <=? 57343)%N then
                                    prepend (utf8_encode (65536 + (cp - 55296) * 1024 + (cp2 - 56320))%N)
                                      (parse_str_body r3)
                                  else prepend (utf8_encode cp) (parse_str_body r'')
                              | None => None
                              end
                            else prepend (utf8_encode cp) (parse_str_body r'')
                        | _ => prepend (utf8_encode cp) (parse_str_body r'')
                        end
                      else prepend (utf8_encode cp) (parse_str_body r'')
                  | None => None
                  end
              | _ => None
              end
            else None
        | EmptyString => None
        end
      else if nat_of_ascii c <? 32 then None
      else prepend (char c) (parse_str_body r)
  end.

Fixpoint parse_value (fuel : nat) (s : string) : option (pyval * string) :=
  match fuel with
  | O => None
  | S f =>
      match s with
      | EmptyString => None
      | String c r =>
          if Ascii.eqb c "n" then option_map (fun r' => (PNone, r')) (expect "ull" r)
          else if Ascii.eqb c "t" then option_map (fun r' => (PBool true, r')) (expect "rue" r)
          else if Ascii.eqb c "f" then option_map (fun r' => (PBool false, r')) (expect "alse" r)
          else if Ascii.eqb c DQ then
            option_map (fun '(str, r') => (PStr str, r')) (parse_str_body r)
          else if Ascii.eqb c "[" then
            match skip_ws r with
            | String c1 r1 =>
                if Ascii.eqb c1 "]" then Some (PList [], r1)
                else parse_elems f (String c1 r1) []
            | EmptyString => None
            end
          else if Ascii.eqb c "{" then
            match skip_ws r with
            | String c1 r1 =>
                if Ascii.eqb c1 "}" then Some (PDict [], r1)
                else parse_members f (String c1 r1) []
            | EmptyString => None
            end
          else if Ascii.eqb c "-" || is_digit c then parse_number s
          else None
      end
  end
with parse_elems (fuel : nat) (s : string) (acc : list pyval) : option (pyval * string) :=
  match fuel with
  | O => None
  | S f =>
      match parse_value f s with
      | Some (v, r) =>
          match skip_ws r with
          | String c r' =>
              if Ascii.eqb c "," then parse_elems f (skip_ws r') (acc ++ [v])
              else if Ascii.eqb c "]" then Some (PList (acc ++ [v]), r')
              else None
          | EmptyString => None
          end
      | None => None
      end
  end
with parse_members (fuel : nat) (s : string) (acc : list (string * pyval))
    : option (pyval * string) :=
  match fuel with
  | O => None
  | S f =>
      match s with
      | String c r =>
          if Ascii.eqb c DQ then
            match parse_str_body r with
            | Some (k, r1) =>
                match skip_ws r1 with
                | String c1 r2 =>
                    if Ascii.eqb c1 ":" then
                      match parse_value f (skip_ws r2) with
                      | Some (v, r3) =>
                          match skip_ws r3 with
                          | String c3 r4 =>
                              if Ascii.eqb c3 "," then parse_members f (skip_ws r4) (dict_set k v acc)
                              else if Ascii.eqb c3 "}" then Some (PDict (dict_set k v acc), r4)
                              else None
                          | EmptyString => None
                          end
                      | None => None
                      end
                    else None
                | EmptyString => None
                end
            | None => None
            end
          else None
      | EmptyString => None
      end
  end.

(** [json.loads] with [fuel] nested parser calls. *)
Definition cj_loads_fuel (fuel : nat) (s : string) : result exn pyval :=
  match parse_value fuel (skip_ws s) with
  | Some (v, r) =>
      if String.eqb (skip_ws r) EmptyString then Ok v else Err (JSONDecodeError "Extra data")
  | None => Err (JSONDecodeError "Expecting value")
  end.

Definition cj_loads (s : string) : result exn pyval := cj_loads_fuel (String.length s + 1) s.

#[export] Instance CJson : JsonLib := {|
  json_loads := cj_loads;
  json_dumps := cj_dumps;
  json_dump_indent := cj_dump_indent
|}.

(** ** Examples *)

Definition q (s : string) : string := String DQ (s ++ char DQ).

Example cj_dumps_ex :
  cj_dumps (PDict [("id", PInt 12); ("tags", PList [PStr "a"; PNone])]) =
  "{" ++ q "id" ++ ": 12, " ++ q "tags" ++ ": [" ++ q "a" ++ ", null]}".
Proof. reflexivity. Qed.

Example cj_loads_ex :
  cj_loads (" {" ++ q "id" ++ ":-3 , " ++ q "id" ++ " : [true,{}], " ++ q "x" ++ ":" ++ q "A" ++ "} ")
  = Ok (PDict [("id", PList [PBool true; PDict []]); ("x", PStr "A")]).
Proof. vm_compute. reflexivity. Qed.

Example cj_loads_rejects :
  is_ok (cj_loads "01") = false /\ is_ok (cj_loads "1.5") = false /\
  is_ok (cj_loads "[1,]") = false /\ is_ok (cj_loads "") = false.
Proof. vm_compute. repeat split. Qed.

Example cj_dump_indent_ex :
  cj_dump_indent (PDict [("a", PList [PInt 1]); ("b", PDict [])]) =
  "{" ++ nl_indent 1 ++ q "a" ++ ": [" ++ nl_indent 2 ++ "1" ++ nl_indent 1 ++ "]," ++ nl_indent 1
  ++ q "b" ++ ": {}" ++ nl_indent 0 ++ "}".
Proof. reflexivity. Qed.

(** ** Round trip of strings *)

(** Each byte, escaped, is read back as itself: checked for all 256 bytes. *)
Lemma esc_char_parse c t :
  parse_str_body (esc_char c ++ t) = prepend (char c) (parse_str_body t).
Proof. destruct c as [[] [] [] [] [] [] [] []]; reflexivity. Qed.

Lemma esc_parse s t : parse_str_body (esc s ++ String DQ t) = Some (s, t).
Proof.
  induction s as [|c s IH]; [reflexivity|].
  cbn [esc]. rewrite <-str_app_assoc, esc_char_parse, IH. reflexivity.
Qed.

Lemma esc_char_no_lf c : has_char LF (esc_char c) = false.
Proof. destruct c as [[] [] [] [] [] [] [] []]; reflexivity. Qed.

Lemma esc_char_no_cr c : has_char CR (esc_char c) = false.
Proof. destruct c as [[] [] [] [] [] [] [] []]; reflexivity. Qed.

(** ** Round trip of integers *)

(** What follows a value in a dump: nothing, a comma, or a closing bracket. *)
Definition follow_ok (rest : string) : Prop :=
  match rest with
  | EmptyString => True
  | String c _ => c = ","%char \/ c = "]"%char \/ c = "}"%char
  end.

Fixpoint all_digits (s : string) : bool :=
  match s with
  | EmptyString => true
  | String c r => is_digit c && all_digits r
  end.

Lemma string_of_uint_digits d : all_digits (NilEmpty.string_of_uint d) = true.
Proof. induction d; cbn; auto. Qed.

Lemma span_digits_app s rest :
  all_digits s = true -> follow_ok rest -> span_digits (s ++ rest) = (s, rest).
Proof.
  induction s as [|c s IH]; cbn [all_digits].
  - intros _. destruct rest as [|c r]; [done|]. by intros [->|[->| ->]].
  - intros [Hc Hs]%andb_true_iff Hr. rewrite append_cons. cbn [span_digits].
    by rewrite Hc, IH.
Qed.

Lemma int_end_ok_follow rest : follow_ok rest -> int_end_ok rest = true.
Proof. destruct rest as [|c r]; [done|]. by intros [->|[->| ->]]. Qed.

(** The decimal digits of a positive number do not start with 0. *)
Lemma pos_to_uint_head p :
  exists c r, NilEmpty.string_of_uint (Pos.to_uint p) = String c r /\ Ascii.eqb c "0" = false.
Proof.
  assert (Hn : Decimal.unorm (Pos.to_uint p) = Pos.to_uint p).
  { rewrite <-DecimalPos.Unsigned.to_of, DecimalPos.Unsigned.of_to. reflexivity. }
  pose proof (DecimalPos.Unsigned.to_uint_nonzero p) as Hz.
  pose proof (DecimalPos.Unsigned.to_uint_nonnil p) as Hnil.
  destruct (Pos.to_uint p) as [|u|u|u|u|u|u|u|u|u|u];
    try (by do 2 eexists; split; reflexivity); [done|].
  exfalso. unfold Decimal.unorm in Hn. cbn [Decimal.nzhead] in Hn.
  destruct (Decimal.nzhead u) eqn:E; by apply (DecimalFacts.nzhead_nonzero u u); congruence.
Qed.

Lemma z_to_str_pos p : z_to_str (Zpos p) = NilEmpty.string_of_uint (Pos.to_uint p).
Proof.
  unfold z_to_str. cbn [Z.to_int NilZero.string_of_int].
  pose proof (DecimalPos.Unsigned.to_uint_nonnil p).
  unfold NilZero.string_of_uint. by destruct (Pos.to_uint p).
Qed.

Lemma z_to_str_neg p : z_to_str (Zneg p) = String "-" (NilEmpty.string_of_uint (Pos.to_uint p)).
Proof.
  unfold z_to_str. cbn [Z.to_int NilZero.string_of_int].
  pose proof (DecimalPos.Unsigned.to_uint_nonnil p).
  unfold NilZero.string_of_uint. by destruct (Pos.to_uint p).
Qed.

Lemma parse_pos_digits p rest :
  follow_ok rest ->
  let s := NilEmpty.string_of_uint (Pos.to_uint p) in
  span_digits (s ++ rest) = (s, rest) /\ NilEmpty.uint_of_string s = Some (Pos.to_uint p) /\
  Z.of_uint (Pos.to_uint p) = Zpos p.
Proof.
  intros Hr s. split_and!.
  - apply span_digits_app; [apply string_of_uint_digits|done].
  - apply NilEmpty.usu.
  - unfold Z.of_uint. by rewrite DecimalPos.Unsigned.of_to.
Qed.

(** [str(z)] is read back as the int [z]. *)
Lemma parse_number_z z rest : follow_ok rest -> parse_number (z_to_str z ++ rest) = Some (PInt z, rest).
Proof.
  intros Hr. pose proof (int_end_ok_follow rest Hr) as He.
  destruct z as [|p|p].
  - change (z_to_str 0) with "0".
    pose proof (span_digits_app "0" rest eq_refl Hr) as Hs.
    change ("0" ++ rest) with (String "0" rest) in Hs.
    unfold parse_number. change ("0" ++ rest) with (String "0" rest). cbn -[span_digits]. rewrite Hs. cbn. by rewrite He.
  - rewrite z_to_str_pos. destruct (parse_pos_digits p rest Hr) as (Hs & Hu & Hz).
    destruct (pos_to_uint_head p) as (c & r & Hcr & Hc).
    unfold parse_number. rewrite Hcr in *. rewrite append_cons.
    assert (Hd : Ascii.eqb c "-" = false) by (destruct c as [[] [] [] [] [] [] [] []]; done).
    rewrite Hd, <-append_cons, Hs, Hu, Hc, He. cbn. by rewrite Hz.
  - rewrite z_to_str_neg. destruct (parse_pos_digits p rest Hr) as (Hs & Hu & Hz).
    destruct (pos_to_uint_head p) as (c & r & Hcr & Hc).
    unfold parse_number. rewrite append_cons. cbn [Ascii.eqb Bool.eqb]. rewrite Hs, Hcr in *.
    rewrite Hu, Hc, He. cbn. by rewrite Hz.
Qed.

(** ** Round trip of values *)

(** The fuel the parser needs: one per value and one per element. *)
Fixpoint py_size (v : pyval) : nat :=
  match v with
  | PList l => S (sum_list_with (fun x => S (py_size x)) l)
  | PDict kvs => S (sum_list_with (fun kv => S (py_size kv.2)) kvs)
  | _ => 1
  end.

(** A character that may start a dump. *)
Definition head_ok (c : ascii) : Prop := json_ws c = false /\ c <> "]"%char /\ c <> "}"%char.

Lemma digit_head_ok c : c = "-"%char \/ is_digit c = true -> head_ok c.
Proof.
  unfold head_ok. destruct c as [[] [] [] [] [] [] [] []];
    intros [H|H]; try discriminate; repeat split; discriminate.
Qed.

Lemma z_to_str_head z : exists c r, z_to_str z = String c r /\ head_ok c.
Proof.
  destruct z as [|p|p].
  - exists "0"%char, EmptyString. split; [done|]. apply digit_head_ok. by right.
  - rewrite z_to_str_pos. pose proof (string_of_uint_digits (Pos.to_uint p)) as Hd.
    destruct (pos_to_uint_head p) as (c & r & Hcr & _). rewrite Hcr in *.
    exists c, r. split; [done|]. apply digit_head_ok. right. by apply andb_true_iff in Hd as [? _].
  - rewrite z_to_str_neg. eexists _, _. split; [done|]. apply digit_head_ok. by left.
Qed.

Lemma cj_dumps_head v : exists c r, cj_dumps v = String c r /\ head_ok c.
Proof.
  destruct v as [|[]| | | |]; try apply z_to_str_head;
    (eexists _, _; split; [reflexivity|repeat split; discriminate]).
Qed.

Lemma skip_ws_head c r : json_ws c = false -> skip_ws (String c r) = String c r.
Proof. intros H. cbn [skip_ws]. by rewrite H. Qed.

Lemma skip_ws_space r : skip_ws (String " " r) = skip_ws r.
Proof. reflexivity. Qed.

Lemma skip_ws_dumps v t : skip_ws (cj_dumps v ++ t) = cj_dumps v ++ t.
Proof.
  destruct (cj_dumps_head v) as (c & r & -> & Hw & _). rewrite append_cons.
  by apply skip_ws_head.
Qed.

Lemma concat_cons_app sep x xs t : exists t', String.concat sep (x :: xs) ++ t = x ++ t'.
Proof.
  destruct xs as [|y ys]; [by exists t|].
  exists (sep ++ String.concat sep (y :: ys) ++ t).
  change (String.concat sep (x :: y :: ys)) with (x ++ sep ++ String.concat sep (y :: ys)).
  by rewrite !str_app_assoc.
Qed.

Lemma concat_two sep x y ys :
  String.concat sep (x :: y :: ys) = x ++ sep ++ String.concat sep (y :: ys).
Proof. reflexivity. Qed.

(** The property proved of every value: with enough fuel and a proper
    follower, the dump is read back. *)
Definition roundtrips (v : pyval) : Prop :=
  forall n rest, py_wf v -> py_size v <= n -> follow_ok rest ->
  parse_value n (cj_dumps v ++ rest) = Some (v, rest).

Lemma parse_elems_dumps l acc n rest :
  l <> [] -> Forall roundtrips l -> Forall py_wf l ->
  sum_list_with (fun x => S (py_size x)) l <= n -> follow_ok rest ->
  parse_elems n (String.concat ", " (map cj_dumps l) ++ String "]" rest) acc =
  Some (PList (acc ++ l), rest).
Proof.
  revert acc n. induction l as [|x l IH]; intros acc n Hne Hrt Hwf Hn Hr; [done|].
  apply Forall_cons in Hrt as [Hx Hrt]. apply Forall_cons in Hwf as [Hwx Hwf].
  cbn [sum_list_with] in Hn. destruct n as [|f]; [lia|]. cbn [parse_elems].
  destruct l as [|y l'].
  - cbn [map String.concat]. rewrite Hx by (done || lia || (right; left; done)).
    rewrite skip_ws_head by done. cbn. done.
  - cbn [map]. rewrite concat_two, <-!str_app_assoc. cbn [String.append].
    rewrite Hx by (done || lia || (left; done)).
    rewrite skip_ws_head by done. cbn -[String.concat skip_ws].
    rewrite skip_ws_space. cbn [map] in IH.
    destruct (concat_cons_app ", " (cj_dumps y) (map cj_dumps l') (String "]" rest)) as [t' Ht].
    rewrite Ht, skip_ws_dumps, <-Ht, IH by (done || (cbn in Hn |- *; lia)).
    by rewrite <-app_assoc.
Qed.

Definition member_text (kv : string * pyval) : string :=
  quote_json kv.1 ++ ": " ++ cj_dumps kv.2.

Lemma cj_dumps_dict kvs :
  cj_dumps (PDict kvs) = "{" ++ String.concat ", " (map member_text kvs) ++ "}".
Proof. reflexivity. Qed.

Lemma member_text_app k v t :
  member_text (k, v) ++ t =
  String DQ (esc k ++ String DQ (String ":" (String " " (cj_dumps v ++ t)))).
Proof.
  unfold member_text, quote_json. cbn [fst snd]. rewrite <-!str_app_assoc. cbn [String.append].
  rewrite <-!str_app_assoc. reflexivity.
Qed.

Lemma parse_members_dumps kvs acc n rest :
  kvs <> [] -> Forall (fun kv => roundtrips kv.2) kvs -> Forall (fun kv => py_wf kv.2) kvs ->
  NoDup (acc.*1 ++ kvs.*1) ->
  sum_list_with (fun kv => S (py_size kv.2)) kvs <= n -> follow_ok rest ->
  parse_members n (String.concat ", " (map member_text kvs) ++ String "}" rest) acc =
  Some (PDict (acc ++ kvs), rest).
Proof.
  revert acc n. induction kvs as [|[k v] kvs IH]; intros acc n Hne Hrt Hwf Hnd Hn Hr; [done|].
  apply Forall_cons in Hrt as [Hv Hrt]. apply Forall_cons in Hwf as [Hwv Hwf].
  cbn [sum_list_with fst snd] in Hn, Hv, Hwv. destruct n as [|f]; [lia|].
  rewrite fmap_cons in Hnd. cbn [fst] in Hnd.
  assert (Hk : k ∉ acc.*1).
  { intros Hin. apply NoDup_app in Hnd as (_ & Hd & _). apply (Hd k Hin). left. }
  assert (Hnd' : NoDup ((acc ++ [(k, v)]).*1 ++ kvs.*1)%list).
  { by rewrite fmap_app, <-app_assoc. }
  destruct kvs as [|kv' kvs'].
  - cbn [map String.concat]. rewrite member_text_app. cbn [parse_members Ascii.eqb Bool.eqb].
    rewrite esc_parse, skip_ws_head by done. cbn -[skip_ws parse_value].
    rewrite skip_ws_space, skip_ws_dumps, Hv by (done || lia || (right; right; done)).
    rewrite skip_ws_head by done. cbn. by rewrite dict_set_fresh.
  - cbn [map]. rewrite concat_two, <-!str_app_assoc, member_text_app.
    cbn [parse_members Ascii.eqb Bool.eqb].
    rewrite esc_parse, skip_ws_head by done. cbn -[skip_ws parse_value String.concat member_text].
    rewrite skip_ws_space, skip_ws_dumps. cbn [String.append].
    rewrite Hv by (done || lia || (left; done)).
    rewrite skip_ws_head by done. cbn -[String.concat skip_ws member_text].
    rewrite skip_ws_space. cbn [map] in IH.
    destruct (concat_cons_app ", " (member_text kv') (map member_text kvs') (String "}" rest))
      as [t' Ht].
    destruct kv' as [k' v']. rewrite Ht, member_text_app. rewrite skip_ws_head by done.
    rewrite <-member_text_app, <-Ht, dict_set_fresh by done.
    rewrite IH by (done || (cbn in Hn |- *; lia)).
    by rewrite <-app_assoc.
Qed.

(** The branches of [parse_value] on the first character. *)
Lemma parse_value_number f c r :
  c = "-"%char \/ is_digit c = true -> parse_value (S f) (String c r) = parse_number (String c r).
Proof. destruct c as [[] [] [] [] [] [] [] []]; intros [H|H]; done. Qed.

Lemma parse_value_str f r :
  parse_value (S f) (String DQ r) = option_map (fun '(str, r') => (PStr str, r')) (parse_str_body r).
Proof. reflexivity. Qed.

Lemma parse_value_list f r :
  parse_value (S f) (String "[" r) =
  match skip_ws r with
  | String c1 r1 => if Ascii.eqb c1 "]" then Some (PList [], r1) else parse_elems f (String c1 r1) []
  | EmptyString => None
  end.
Proof. reflexivity. Qed.

Lemma parse_value_dict f r :
  parse_value (S f) (String "{" r) =
  match skip_ws r with
  | String c1 r1 => if Ascii.eqb c1 "}" then Some (PDict [], r1) else parse_members f (String c1 r1) []
  | EmptyString => None
  end.
Proof. reflexivity. Qed.

Lemma cj_roundtrips v : roundtrips v.
Proof.
  induction v as [|b|z|s|l IH|kvs IH] using pyval_ind_nested;
    intros n rest Hwf Hn Hr; destruct n as [|f]; cbn [py_size] in Hn; try lia.
  - reflexivity.
  - by destruct b.
  - destruct (z_to_str_head z) as (c & r & Hcr & _).
    assert (Hc : c = "-"%char \/ is_digit c = true).
    { destruct z as [|p|p]; [by injection Hcr as <-; right| |by injection Hcr as <-; left].
      rewrite z_to_str_pos in Hcr. pose proof (string_of_uint_digits (Pos.to_uint p)) as Hd.
      rewrite Hcr in Hd. right. by apply andb_true_iff in Hd as [? _]. }
    cbn [cj_dumps]. rewrite Hcr, append_cons, parse_value_number, <-append_cons, <-Hcr by done.
    by apply parse_number_z.
  - cbn [cj_dumps]. unfold quote_json. rewrite append_cons, <-str_app_assoc, parse_value_str.
    change (char DQ ++ rest) with (String DQ rest). rewrite esc_parse. reflexivity.
  - apply py_wf_list in Hwf. cbn [cj_dumps]. rewrite <-!str_app_assoc.
    change ("[" ++ ?x) with (String "[" x). rewrite parse_value_list.
    destruct l as [|x l'].
    + reflexivity.
    + destruct (concat_cons_app ", " (cj_dumps x) (map cj_dumps l') (String "]" rest)) as [t' Ht].
      change ("]" ++ rest) with (String "]" rest).
      cbn [map] in Ht |- *. rewrite Ht, skip_ws_dumps.
      destruct (cj_dumps_head x) as (c & r & Hcr & Hw & Hb & _).
      rewrite Hcr, append_cons.
      assert (Hcb : Ascii.eqb c "]" = false) by (by apply Ascii.eqb_neq).
      rewrite Hcb, <-append_cons, <-Hcr, <-Ht.
      change (cj_dumps x :: map cj_dumps l') with (map cj_dumps (x :: l')).
      rewrite <-(app_nil_l (x :: l')). apply parse_elems_dumps; done || lia.
  - apply py_wf_dict in Hwf as [Hnd Hwf]. rewrite cj_dumps_dict, <-!str_app_assoc.
    change ("{" ++ ?x) with (String "{" x). rewrite parse_value_dict.
    destruct kvs as [|[k v] kvs'].
    + reflexivity.
    + destruct (concat_cons_app ", " (member_text (k, v)) (map member_text kvs') (String "}" rest))
        as [t' Ht].
      change ("}" ++ rest) with (String "}" rest).
      cbn [map] in Ht |- *. rewrite Ht, member_text_app, skip_ws_head by done.
      change (Ascii.eqb DQ "}") with false. cbv iota.
      rewrite <-member_text_app, <-Ht.
      change (member_text (k, v) :: map member_text kvs') with (map member_text ((k, v) :: kvs')).
      rewrite <-(app_nil_l ((k, v) :: kvs')). apply parse_members_dumps; done || lia.
Qed.

(** ** The fuel is enough *)

Lemma concat_size {A} (g : A -> string) (sz : A -> nat) (l : list A) :
  Forall (fun x => sz x <= String.length (g x)) l ->
  S (sum_list_with (fun x => S (sz x)) l) <= String.length (String.concat ", " (map g l)) + 2.
Proof.
  induction 1 as [|x l Hx Hl IH]; [cbn; lia|].
  destruct l as [|y l']; [cbn [map String.concat sum_list_with] in *; lia|].
  cbn [map] in *. rewrite concat_two, !str_length_app. cbn [sum_list_with] in *.
  change (String.length ", ") with 2. lia.
Qed.

Lemma py_size_dumps v : py_size v <= String.length (cj_dumps v).
Proof.
  induction v as [| | | |l IH|kvs IH] using pyval_ind_nested;
    try (destruct (cj_dumps_head (PNone)) as (c & r & -> & _); cbn; lia);
    try (match goal with |- py_size ?v <= _ =>
           destruct (cj_dumps_head v) as (c & r & -> & _); cbn; lia end).
  - cbn [cj_dumps py_size]. rewrite !str_length_app. cbn [String.length].
    pose proof (concat_size cj_dumps py_size l IH). lia.
  - rewrite cj_dumps_dict, !str_length_app. cbn [py_size String.length].
    assert (Hm : Forall (fun kv => py_size kv.2 <= String.length (member_text kv)) kvs).
    { eapply Forall_impl; [exact IH|]. intros [k v] Hv. unfold member_text.
      rewrite !str_length_app. cbn in *. lia. }
    pose proof (concat_size member_text (fun kv => py_size kv.2) kvs Hm). lia.
Qed.

(** [json.loads(json.dumps(v)) == v] for every well-formed value. *)
Theorem cj_loads_dumps v : py_wf v -> cj_loads (cj_dumps v) = Ok v.
Proof.
  intros Hwf. unfold cj_loads, cj_loads_fuel.
  replace (skip_ws (cj_dumps v)) with (cj_dumps v ++ EmptyString)
    by (by rewrite <-(str_app_nil_r (cj_dumps v)) at 2; rewrite skip_ws_dumps).
  rewrite cj_roundtrips; [done|done| |done]. pose proof (py_size_dumps v). lia.
Qed.

(** ** What the parser returns is well formed *)

Lemma parse_number_int s v r : parse_number s = Some (v, r) -> exists z, v = PInt z.
Proof.
  unfold parse_number. repeat case_match; intros Hs; simplify_eq; by eexists.
Qed.

Lemma py_wf_empty_dict : py_wf (PDict []).
Proof. apply py_wf_dict. split; constructor. Qed.

Lemma parse_wf n :
  (forall s v r, parse_value n s = Some (v, r) -> py_wf v) /\
  (forall s acc v r, Forall py_wf acc -> parse_elems n s acc = Some (v, r) -> py_wf v) /\
  (forall s acc v r, py_wf (PDict acc) -> parse_members n s acc = Some (v, r) -> py_wf v).
Proof.
  induction n as [|f (IHv & IHe & IHm)]; [done|]. split_and!.
  - intros [|c s] v r H; [done|]. cbn [parse_value] in H. unfold option_map in H.
    repeat (case_match; simplify_eq/=); try done.
    all: first [ by destruct (parse_number_int _ _ _ H) as [z ->]
               | exact (IHe _ _ _ _ (List.Forall_nil _) H)
               | exact (IHm _ _ _ _ py_wf_empty_dict H) ].
  - intros s acc v r Hacc H. cbn [parse_elems] in H.
    destruct (parse_value f s) as [[v' r']|] eqn:Hv; [|done].
    apply IHv in Hv. repeat (case_match; simplify_eq/=); try done.
    + eapply IHe; [|done]. apply Forall_app. by split; [|constructor].
    + apply py_wf_list, Forall_app. by split; [|constructor].
  - intros s acc v r Hacc H. cbn [parse_members] in H.
    repeat (case_match; simplify_eq/=); try done.
    + eapply IHm; [|done]. apply dict_set_wf; [by eapply IHv|done].
    + apply dict_set_wf; [by eapply IHv|done].
Qed.

Lemma cj_loads_wf s v : cj_loads s = Ok v -> py_wf v.
Proof.
  unfold cj_loads, cj_loads_fuel. destruct (parse_value _ _) as [[v' r]|] eqn:H; [|done].
  case_match; [|done]. intros [= <-]. exact (proj1 (parse_wf _) _ _ _ H).
Qed.

Lemma cj_loads_err s e : cj_loads s = Err e -> is_json_decode_error e = true.
Proof. unfold cj_loads, cj_loads_fuel. repeat case_match; intros [= <-]; done. Qed.

(** ** The fuel is never what makes [json.loads] fail

    Each parser call consumes at least one character before it recurses
    into a nested value or the next element, so a successful parse of the
    text [s] up to the rest [r] needs no more fuel than the characters it
    read, [length s - length r]; with more fuel it gives the same answer. *)

Lemma skip_ws_len s : String.length (skip_ws s) <= String.length s.
Proof. induction s as [|c s IH]; cbn; [lia|]. destruct (json_ws c); cbn; lia. Qed.

Lemma expect_len lit s r : expect lit s = Some r -> String.length r + String.length lit = String.length s.
Proof.
  revert s. induction lit as [|a lit IH]; intros [|b s] H; simplify_eq/=; try (cbn; lia).
  destruct (Ascii.eqb a b); [apply IH in H; cbn; lia|done].
Qed.

Lemma span_digits_len s a b : span_digits s = (a, b) -> String.length a + String.length b = String.length s.
Proof.
  revert a b. induction s as [|c s IH]; intros a b H; cbn in *; simplify_eq; [done|].
  destruct (is_digit c); [|simplify_eq/=; lia].
  destruct (span_digits s) as [a' b'] eqn:E. simplify_eq/=. rewrite <-(IH _ _ eq_refl). lia.
Qed.

Lemma parse_number_len s v r : parse_number s = Some (v, r) -> String.length r < String.length s.
Proof.
  unfold parse_number. intros H. repeat (case_match; simplify_eq/=);
    match goal with E : span_digits _ = _ |- _ => apply span_digits_len in E; cbn in *; lia end.
Qed.

Local Ltac step Hp H := eapply Hp; [|exact H]; cbn; lia.

Lemma parse_str_body_len s d r : parse_str_body s = Some (d, r) -> String.length r < String.length s.
Proof.
  revert d r. induction s as [s IH] using string_len_ind. intros d r H.
  assert (Hp : forall a t, String.length t < String.length s ->
                 prepend a (parse_str_body t) = Some (d, r) -> String.length r < String.length s).
  { intros a t Ht. unfold prepend. destruct (parse_str_body t) as [[d' r']|] eqn:E; [|done].
    intros [= _ <-]. pose proof (IH t Ht _ _ E). lia. }
  destruct s as [|c s']; [done|]. cbn [parse_str_body] in H.
  destruct (Ascii.eqb c DQ); [simplify_eq/=; lia|].
  destruct (Ascii.eqb c BSL).
  - destruct s' as [|e r']; [done|].
    repeat (destruct (Ascii.eqb e _); [step Hp H|]).
    destruct (Ascii.eqb e "u"); [|done].
    destruct r' as [|h1 [|h2 [|h3 [|h4 r'']]]]; try done.
    destruct (hex4 h1 h2 h3 h4); [|done].
    destruct (_ && _); [|step Hp H].
    destruct r'' as [|b1 [|u1 [|g1 [|g2 [|g3 [|g4 r3]]]]]]; try step Hp H.
    destruct (_ && _); [|step Hp H].
    destruct (hex4 g1 g2 g3 g4); [|done].
    destruct (_ && _); step Hp H.
  - destruct (nat_of_ascii c <? 32); [done|step Hp H].
Qed.

(** What a call with [n] units of fuel returns it returns with any fuel
    of at least the number of characters it read. *)
Definition fuel_ok_v (n : nat) : Prop := forall s v r, parse_value n s = Some (v, r) ->
  String.length r < String.length s /\
  forall m, String.length s - String.length r <= m -> parse_value m s = Some (v, r).
Definition fuel_ok_e (n : nat) : Prop := forall s acc v r, parse_elems n s acc = Some (v, r) ->
  String.length r < String.length s /\
  forall m, String.length s - String.length r <= m -> parse_elems m s acc = Some (v, r).
Definition fuel_ok_m (n : nat) : Prop := forall s acc v r, parse_members n s acc = Some (v, r) ->
  String.length r < String.length s /\
  forall m, String.length s - String.length r <= m -> parse_members m s acc = Some (v, r).

(** A call with one more unit of fuel: enough to show for the fuel
    [S m], since every call reads at least one character. *)
Lemma fuel_succ {A} (call : nat -> option (A * string)) s v r :
  call 0 = None ->
  String.length r < String.length s ->
  (forall m, String.length s - String.length r <= S m -> call (S m) = Some (v, r)) ->
  String.length r < String.length s /\
  forall m, String.length s - String.length r <= m -> call m = Some (v, r).
Proof. intros H0 Hl Hs. split; [done|]. intros [|m] Hle; [lia|]. by apply Hs. Qed.

Local Ltac lit_case :=
  destruct (expect _ _) eqn:E; [|done]; simplify_eq;
  split; [apply expect_len in E; cbn; lia|done].

Lemma fuel_value_step f : fuel_ok_e f -> fuel_ok_m f -> fuel_ok_v (S f).
Proof.
  intros He Hm [|c s] v r H; [done|].
  pose proof (skip_ws_len s) as Hsk. cbn [parse_value] in H.
  enough (Hb : String.length r < String.length (String c s) /\
            forall m, String.length (String c s) - String.length r <= S m ->
              parse_value (S m) (String c s) = Some (v, r))
    by (destruct Hb; by apply (fuel_succ (fun n => parse_value n (String c s)))).
  cbn [parse_value]. unfold option_map in *.
  destruct (Ascii.eqb c "n"); [lit_case|]. destruct (Ascii.eqb c "t"); [lit_case|].
  destruct (Ascii.eqb c "f"); [lit_case|].
  destruct (Ascii.eqb c DQ).
  { destruct (parse_str_body s) as [[str r']|] eqn:E; [|done]. simplify_eq.
    split; [apply parse_str_body_len in E; cbn; lia|done]. }
  destruct (Ascii.eqb c "[").
  { destruct (skip_ws s) as [|c1 r1] eqn:E; [done|]. cbn in Hsk.
    destruct (Ascii.eqb c1 "]"); [simplify_eq; split; [cbn; lia|done]|].
    apply He in H as [Hl Hf]. cbn in Hl |- *. split; [lia|]. intros m Hle. apply Hf. cbn. lia. }
  destruct (Ascii.eqb c "{").
  { destruct (skip_ws s) as [|c1 r1] eqn:E; [done|]. cbn in Hsk.
    destruct (Ascii.eqb c1 "}"); [simplify_eq; split; [cbn; lia|done]|].
    apply Hm in H as [Hl Hf]. cbn in Hl |- *. split; [lia|]. intros m Hle. apply Hf. cbn. lia. }
  destruct (_ || _); [|done]. split; [exact (parse_number_len _ _ _ H)|done].
Qed.


Lemma fuel_elems_step f : fuel_ok_v f -> fuel_ok_e f -> fuel_ok_e (S f).
Proof.
  intros Hv He s acc v r H. cbn [parse_elems] in H.
  enough (Hb : String.length r < String.length s /\
            forall m, String.length s - String.length r <= S m -> parse_elems (S m) s acc = Some (v, r))
    by (destruct Hb; by apply (fuel_succ (fun n => parse_elems n s acc))).
  destruct (parse_value f s) as [[v1 r1]|] eqn:E1; [|done]. apply Hv in E1 as [Hl1 Hf1].
  pose proof (skip_ws_len r1) as Hsk.
  destruct (skip_ws r1) as [|c r'] eqn:E2; [done|]. cbn in Hsk.
  destruct (Ascii.eqb c ",") eqn:E3.
  - apply He in H as [Hl Hf]. pose proof (skip_ws_len r'). split; [lia|].
    intros m Hle. cbn [parse_elems]. rewrite Hf1 by lia. rewrite E2, E3. apply Hf. lia.
  - destruct (Ascii.eqb c "]") eqn:E4; [|done]. simplify_eq. split; [lia|].
    intros m Hle. cbn [parse_elems]. rewrite Hf1 by lia. by rewrite E2, E3, E4.
Qed.

Lemma fuel_members_step f : fuel_ok_v f -> fuel_ok_m f -> fuel_ok_m (S f).
Proof.
  intros Hv Hm [|c r0] acc v r H; [done|]. cbn [parse_members] in H.
  enough (Hb : String.length r < String.length (String c r0) /\
            forall m, String.length (String c r0) - String.length r <= S m ->
              parse_members (S m) (String c r0) acc = Some (v, r))
    by (destruct Hb; by apply (fuel_succ (fun n => parse_members n (String c r0) acc))).
  destruct (Ascii.eqb c DQ) eqn:Ec; [|done].
  destruct (parse_str_body r0) as [[k r1]|] eqn:Ek; [|done]. apply parse_str_body_len in Ek as Hk.
  pose proof (skip_ws_len r1) as Hs1. destruct (skip_ws r1) as [|c1 r2] eqn:E1; [done|]. cbn in Hs1.
  destruct (Ascii.eqb c1 ":") eqn:Ecol; [|done].
  destruct (parse_value f (skip_ws r2)) as [[v1 r3]|] eqn:Ev; [|done]. apply Hv in Ev as [Hl3 Hf3].
  pose proof (skip_ws_len r2) as Hs2. pose proof (skip_ws_len r3) as Hs3.
  destruct (skip_ws r3) as [|c3 r4] eqn:E3; [done|]. cbn in Hs3.
  destruct (Ascii.eqb c3 ",") eqn:Ecom.
  - apply Hm in H as [Hl Hf]. pose proof (skip_ws_len r4). split; [cbn; lia|].
    intros m Hle. cbn [parse_members]. rewrite Ec, Ek, E1, Ecol, Hf3 by (cbn in *; lia).
    rewrite E3, Ecom. apply Hf. cbn in *; lia.
  - destruct (Ascii.eqb c3 "}") eqn:Ecl; [|done]. simplify_eq. split; [cbn; lia|].
    intros m Hle. cbn [parse_members]. rewrite Ec, Ek, E1, Ecol, Hf3 by (cbn in *; lia).
    by rewrite E3, Ecom, Ecl.
Qed.

Lemma parse_fuel n : fuel_ok_v n /\ fuel_ok_e n /\ fuel_ok_m n.
Proof.
  induction n as [|f (Hv & He & Hm)]; [split_and!; done|].
  split_and!; [apply fuel_value_step|apply fuel_elems_step|apply fuel_members_step]; done.
Qed.

(** Any two amounts of fuel of at least the input's length give the same
    answer. *)
Lemma parse_value_stable n m s :
  String.length s <= n -> String.length s <= m -> parse_value n s = parse_value m s.
Proof.
  assert (Hup : forall n' m', String.length s <= m' -> forall x,
             parse_value n' s = Some x -> parse_value m' s = Some x).
  { intros n' m' Hm' [v r] E. destruct (proj1 (parse_fuel n') _ _ _ E) as [_ Hf]. apply Hf. lia. }
  intros Hn Hm. destruct (parse_value n s) as [x|] eqn:E; [symmetry; eauto|].
  destruct (parse_value m s) as [y|] eqn:E'; [|done]. apply (Hup m n Hn) in E'. congruence.
Qed.

(** The fuel of [cj_loads] is never what makes it fail: with any fuel of
    at least the length of the text, the parser gives the answer
    [cj_loads] gives, so [cj_loads] is the unbounded recursive-descent
    parser on every input, nesting included. *)
Lemma cj_loads_fuel_enough s n : String.length s <= n -> cj_loads_fuel n s = cj_loads s.
Proof.
  intros Hn. unfold cj_loads, cj_loads_fuel. pose proof (skip_ws_len s).
  by rewrite (parse_value_stable n (String.length s + 1) (skip_ws s)) by lia.
Qed.

(** Less fuel than nesting depth does make the parser fail. *)
Example cj_loads_fuel_short :
  cj_loads_fuel 3 "[[[1]]]" = Err (JSONDecodeError "Expecting value") /\
  cj_loads "[[[1]]]" = Ok (PList [PList [PList [PInt 1]]]).
Proof. split; vm_compute; reflexivity. Qed.

(** ** A dump is one line with nothing to strip *)

Lemma concat_no_char d sep xs :
  has_char d sep = false -> Forall (fun x => has_char d x = false) xs ->
  has_char d (String.concat sep xs) = false.
Proof.
  intros Hs. induction 1 as [|x xs Hx Hxs IH]; [done|].
  destruct xs as [|y ys]; [done|]. by rewrite concat_two, !has_char_app, Hx, Hs, IH.
Qed.

Lemma all_digits_no_char d s : is_digit d = false -> all_digits s = true -> has_char d s = false.
Proof.
  intros Hd. induction s as [|c s IH]; [done|]. cbn [all_digits has_char].
  intros [Hc Hs]%andb_true_iff. rewrite IH by done.
  destruct (Ascii.eqb_spec d c); [congruence|done].
Qed.

(** A character that escaping never writes and that is not in the
    literals of a dump is not in any dump. *)
Section no_char.
Variable d : ascii.
Hypothesis Hesc : forall c, has_char d (esc_char c) = false.
Hypothesis Hdigit : is_digit d = false.
Hypothesis Hlit : forallb (fun s => negb (has_char d s))
                    ["null"; "true"; "false"; "-"; "["; "]"; "{"; "}"; ", "; ": "; char DQ] = true.

Lemma lit_no_char s :
  In s ["null"; "true"; "false"; "-"; "["; "]"; "{"; "}"; ", "; ": "; char DQ] ->
  has_char d s = false.
Proof. intros Hin. apply negb_true_iff. exact (proj1 (forallb_forall _ _) Hlit s Hin). Qed.

Lemma esc_no_char s : has_char d (esc s) = false.
Proof. induction s as [|c s IH]; [done|]. cbn [esc]. by rewrite has_char_app, Hesc, IH. Qed.

Lemma quote_no_char s : has_char d (quote_json s) = false.
Proof.
  pose proof (lit_no_char (char DQ) ltac:(simpl; tauto)) as H.
  unfold quote_json. rewrite has_char_cons, has_char_app, esc_no_char, H.
  cbn [has_char char] in H. rewrite orb_false_r in H. by rewrite H.
Qed.

Lemma z_to_str_no_char z : has_char d (z_to_str z) = false.
Proof.
  destruct z as [|p|p].
  - by apply all_digits_no_char.
  - rewrite z_to_str_pos. apply all_digits_no_char; [done|apply string_of_uint_digits].
  - rewrite z_to_str_neg. change (String "-" ?x) with ("-" ++ x).
    rewrite has_char_app, (lit_no_char "-") by (simpl; tauto).
    apply all_digits_no_char; [done|apply string_of_uint_digits].
Qed.

Lemma dumps_no_char v : has_char d (cj_dumps v) = false.
Proof.
  induction v as [|[]|z|s|l IH|kvs IH] using pyval_ind_nested.
  - apply lit_no_char. simpl; tauto.
  - apply lit_no_char. simpl; tauto.
  - apply lit_no_char. simpl; tauto.
  - apply z_to_str_no_char.
  - apply quote_no_char.
  - cbn [cj_dumps]. rewrite !has_char_app, (lit_no_char "["), (lit_no_char "]") by (simpl; tauto).
    rewrite concat_no_char; [done|apply lit_no_char; simpl; tauto|by apply Forall_fmap].
  - rewrite cj_dumps_dict, !has_char_app, (lit_no_char "{"), (lit_no_char "}") by (simpl; tauto).
    rewrite concat_no_char; [done|apply lit_no_char; simpl; tauto|].
    apply Forall_fmap. eapply Forall_impl; [exact IH|]. intros [k v] Hv. cbn [fst snd] in Hv |- *.
    unfold compose, member_text. cbn [fst snd]. rewrite !has_char_app, quote_no_char, (lit_no_char ": ") by (simpl; tauto).
    done.
Qed.
End no_char.

Lemma cj_dumps_no_lf v : has_char LF (cj_dumps v) = false.
Proof. apply dumps_no_char; [apply esc_char_no_lf|done|done]. Qed.

Lemma cj_dumps_no_cr v : has_char CR (cj_dumps v) = false.
Proof. apply dumps_no_char; [apply esc_char_no_cr|done|done]. Qed.

Definition dump_head_char (c : ascii) : bool :=
  Ascii.eqb c "n" || Ascii.eqb c "t" || Ascii.eqb c "f" || Ascii.eqb c "-" || is_digit c
  || Ascii.eqb c DQ || Ascii.eqb c "[" || Ascii.eqb c "{".

Definition dump_last_char (c : ascii) : bool :=
  Ascii.eqb c "l" || Ascii.eqb c "e" || is_digit c || Ascii.eqb c DQ
  || Ascii.eqb c "]" || Ascii.eqb c "}".

Lemma dump_head_not_space c : dump_head_char c = true -> is_py_space c = false.
Proof. destruct c as [[] [] [] [] [] [] [] []]; done. Qed.

Lemma dump_last_not_space c : dump_last_char c = true -> is_py_space c = false.
Proof. destruct c as [[] [] [] [] [] [] [] []]; done. Qed.

Lemma str_snoc s : s <> EmptyString -> exists a c, s = a ++ char c.
Proof.
  induction s as [|d s IH]; [done|]. intros _. destruct s as [|d' s'].
  - by exists EmptyString, d.
  - destruct IH as (a & c & Hac); [done|]. exists (String d a), c. by rewrite Hac.
Qed.

Lemma all_digits_app a b : all_digits (a ++ b) = all_digits a && all_digits b.
Proof.
  induction a as [|c a IH]; [done|]. rewrite append_cons. cbn [all_digits].
  by rewrite IH, andb_assoc.
Qed.

Lemma digits_last s :
  s <> EmptyString -> all_digits s = true -> exists a c, s = a ++ char c /\ is_digit c = true.
Proof.
  intros Hne Hd. destruct (str_snoc s Hne) as (a & c & ->). exists a, c. split; [done|].
  rewrite all_digits_app in Hd. cbn in Hd. by apply andb_true_iff in Hd as [_ [? _]%andb_true_iff].
Qed.

Lemma z_to_str_ends z : exists a c, z_to_str z = a ++ char c /\ dump_last_char c = true.
Proof.
  assert (Hpos : forall p, exists a c, NilEmpty.string_of_uint (Pos.to_uint p) = a ++ char c /\
                                      dump_last_char c = true).
  { intros p. destruct (pos_to_uint_head p) as (c0 & r0 & Hcr & _).
    destruct (digits_last (NilEmpty.string_of_uint (Pos.to_uint p))) as (a & c & Hac & Hc);
      [by rewrite Hcr|apply string_of_uint_digits|].
    exists a, c. split; [done|]. unfold dump_last_char. by rewrite Hc, !orb_true_r. }
  destruct z as [|p|p].
  - by exists EmptyString, "0"%char.
  - rewrite z_to_str_pos. apply Hpos.
  - rewrite z_to_str_neg. destruct (Hpos p) as (a & c & Hac & Hc).
    exists (String "-" a), c. by rewrite Hac.
Qed.

Lemma cj_dumps_first v : exists c r, cj_dumps v = String c r /\ dump_head_char c = true.
Proof.
  destruct v as [|[]|z| | |]; try (eexists _, _; split; reflexivity).
  destruct (z_to_str_head z) as (c & r & Hcr & _).
  assert (Hc : c = "-"%char \/ is_digit c = true).
  { destruct z as [|p|p]; [by injection Hcr as <-; right| |by injection Hcr as <-; left].
    rewrite z_to_str_pos in Hcr. pose proof (string_of_uint_digits (Pos.to_uint p)) as Hd.
    rewrite Hcr in Hd. right. by apply andb_true_iff in Hd as [? _]. }
  exists c, r. split; [done|]. unfold dump_head_char.
  destruct Hc as [-> | Hd]; [done|]. by rewrite Hd, !orb_true_r.
Qed.

Lemma cj_dumps_last v : exists a c, cj_dumps v = a ++ char c /\ dump_last_char c = true.
Proof.
  destruct v as [|[]|z|s|l|kvs].
  - by exists "nul", "l"%char.
  - by exists "tru", "e"%char.
  - by exists "fals", "e"%char.
  - apply z_to_str_ends.
  - exists (String DQ (esc s)), DQ. split; [|done]. reflexivity.
  - exists ("[" ++ String.concat ", " (map cj_dumps l)), "]"%char. split; [|done].
    cbn [cj_dumps]. by rewrite str_app_assoc.
  - exists ("{" ++ String.concat ", " (map member_text kvs)), "}"%char. split; [|done].
    rewrite cj_dumps_dict. by rewrite str_app_assoc.
Qed.

Lemma rstrip_last a c : is_py_space c = false -> rstrip (a ++ char c) = a ++ char c.
Proof.
  intros Hc. induction a as [|d a IH].
  - change (rstrip (String c EmptyString) = String c EmptyString). rewrite rstrip_cons. by rewrite Hc.
  - rewrite append_cons, rstrip_cons, IH.
    destruct (is_py_space d); [|done]. by destruct a.
Qed.

Lemma cj_dumps_stripped v : py_strip (cj_dumps v) = cj_dumps v.
Proof.
  unfold py_strip. destruct (cj_dumps_first v) as (c & r & Hcr & Hc).
  rewrite Hcr. cbn [lstrip]. rewrite dump_head_not_space by done. rewrite <-Hcr.
  destruct (cj_dumps_last v) as (a & d & -> & Hd). apply rstrip_last, dump_last_not_space, Hd.
Qed.

Lemma cj_dumps_nonempty v : cj_dumps v <> EmptyString.
Proof. by destruct (cj_dumps_first v) as (c & r & -> & _). Qed.

(** ** [int(str(n)) == n] *)

Lemma int_digits_acc u acc :
  int_digits (NilEmpty.string_of_uint u) (Zpos acc) true = Some (Zpos (Pos.of_uint_acc u acc)).
Proof.
  revert acc. induction u as [|u IH|u IH|u IH|u IH|u IH|u IH|u IH|u IH|u IH|u IH]; intros acc; [done|..];
    cbn [NilEmpty.string_of_uint int_digits Pos.of_uint_acc]; cbv [is_digit digit_val]; cbn -[int_digits Pos.of_uint_acc Z.mul Z.add];
    rewrite <-IH; f_equal; simpl; lia.
Qed.

Lemma int_digits_0 u : int_digits (NilEmpty.string_of_uint u) 0 true = Some (Z.of_N (Pos.of_uint u)).
Proof.
  induction u as [|u IH|u IH|u IH|u IH|u IH|u IH|u IH|u IH|u IH|u IH]; [done|apply IH|..];
    exact (int_digits_acc u _).
Qed.

Lemma int_digits_start u : u <> Decimal.Nil ->
  int_digits (NilEmpty.string_of_uint u) 0 false = int_digits (NilEmpty.string_of_uint u) 0 true.
Proof. by destruct u. Qed.

Lemma int_digits_pos p : int_digits (NilEmpty.string_of_uint (Pos.to_uint p)) 0 false = Some (Zpos p).
Proof.
  rewrite int_digits_start by apply DecimalPos.Unsigned.to_uint_nonnil.
  by rewrite int_digits_0, DecimalPos.Unsigned.of_to.
Qed.

Lemma digit_not_sign c : is_digit c = true -> Ascii.eqb c "-" = false /\ Ascii.eqb c "+" = false.
Proof. destruct c as [[] [] [] [] [] [] [] []]; by vm_compute. Qed.

Lemma int_of_str_z_to_str z : int_of_str (z_to_str z) = Some z.
Proof.
  unfold int_of_str. replace (py_strip (z_to_str z)) with (z_to_str z) by exact (eq_sym (cj_dumps_stripped (PInt z))).
  destruct z as [|p|p]; [done| |].
  - rewrite z_to_str_pos. pose proof (int_digits_pos p) as Hp. pose proof (string_of_uint_digits (Pos.to_uint p)) as Hd.
    destruct (NilEmpty.string_of_uint (Pos.to_uint p)) as [|c r]; [done|].
    cbn [all_digits] in Hd. apply andb_true_iff in Hd as [Hc _]. destruct (digit_not_sign c Hc) as [-> ->]. done.
  - rewrite z_to_str_neg. cbn [Ascii.eqb Bool.eqb]. by rewrite int_digits_pos.
Qed.


(** The concrete codec satisfies the laws the program relies on. *)
#[export] Instance CJson_laws : JsonLibLaws := {|
  loads_wf := cj_loads_wf;
  loads_err := cj_loads_err;
  loads_dumps := cj_loads_dumps;
  dumps_no_lf := cj_dumps_no_lf;
  dumps_no_cr := cj_dumps_no_cr;
  dumps_stripped := cj_dumps_stripped;
  dumps_nonempty := cj_dumps_nonempty
|}.
