(* ===== verification/DateTime.v ===== *)
(** * DateTime: datetimes, [dateutil.parser.parse] and [parse_date]

    A Python [datetime] is modelled by its wall-clock time, in microseconds
    since 1970-01-01 00:00 (proleptic Gregorian calendar), and its UTC
    offset in seconds when it is aware ([dt_tz = Some off]) or nothing when
    it is naive. Comparing two aware datetimes compares the instants
    [wall - off]. Comparing a naive with an aware one raises [TypeError]
    ([dt_ge]).

    [dateutil.parser.parse] is a library. It is the interface [DateUtil]
    here, and the program's theorems hold for every implementation of it.
    [parse_date] (lines 51-56) is the program's wrapper: a naive result is
    made aware in UTC. [IsoDate] is a concrete implementation for the ISO
    8601 forms the news API and the command line use
    ([YYYY-MM-DD], optionally [THH:MM[:SS[.ffffff]]] and [Z] or [+HH:MM]),
    so that the scenarios can be evaluated. *)

From S2P Require Import Prelude Text PyObj.
From Stdlib Require Import Ascii String.
Local Open Scope string_scope.
Local Open Scope py_scope.

Record datetime := mk_datetime {
  dt_wall : Z;
  dt_tz : option Z
}.

#[export] Instance datetime_eq_dec : EqDecision datetime.
Proof. solve_decision. Defined.

Definition dt_is_aware (d : datetime) : bool := if dt_tz d then true else false.

(** The instant of an aware datetime, in microseconds since the epoch. *)
Definition dt_utc (d : datetime) : Z :=
  match dt_tz d with
  | Some off => dt_wall d - off * 1000000
  | None => dt_wall d
  end%Z.

(** [a >= b]. *)
Definition dt_ge (a b : datetime) : result exn bool :=
  if Bool.eqb (dt_is_aware a) (dt_is_aware b) then Ok (dt_utc b <=? dt_utc a)%Z
  else Err (TypeError "can't compare offset-naive and offset-aware datetimes").

Class DateUtil := {
  dateutil_parse : string -> result exn datetime
}.

Section parse_date.
Context `{DateUtil}.

(** [parse_date(date_str)]: [dateutil_parser.parse] raises [TypeError] on
    an argument that is not a str; [dt.replace(tzinfo=timezone.utc)]
    keeps the wall clock. *)
Definition parse_date (date_str : pyval) : result exn datetime :=
  match date_str with
  | PStr s =>
      let? dt := dateutil_parse s in
      match dt_tz dt with
      | None => Ok {| dt_wall := dt_wall dt; dt_tz := Some 0%Z |}
      | Some _ => Ok dt
      end
  | o => Err (TypeError ("Parser must be a string or character stream, not " ++ py_type_name o))
  end.

(** What [parse_date] returns is aware. *)
Lemma parse_date_aware o d : parse_date o = Ok d -> dt_is_aware d = true.
Proof.
  destruct o; cbn [parse_date]; try discriminate.
  destruct (dateutil_parse s) as [dt|]; cbn [res_bind]; [|discriminate].
  destruct (dt_tz dt) eqn:E; intros [= <-]; unfold dt_is_aware; cbn; [by rewrite E|done].
Qed.

(** So comparing two results of [parse_date] never raises, and is the
    comparison of their instants. *)
Lemma dt_ge_parsed o1 o2 d1 d2 :
  parse_date o1 = Ok d1 -> parse_date o2 = Ok d2 -> dt_ge d1 d2 = Ok (dt_utc d2 <=? dt_utc d1)%Z.
Proof.
  intros H1 H2. unfold dt_ge.
  by rewrite (parse_date_aware _ _ H1), (parse_date_aware _ _ H2).
Qed.
End parse_date.

(** ** A concrete [dateutil] for ISO 8601 dates *)
Module IsoDate.

(** Days from 1970-01-01 to a date of the proleptic Gregorian calendar. *)
Definition days_from_civil (y m d : Z) : Z :=
  let y' := if (m <=? 2)%Z then (y - 1)%Z else y in
  let era := (y' / 400)%Z in
  let yoe := (y' - era * 400)%Z in
  let doy := ((153 * (if (2 <? m)%Z then m - 3 else m + 9) + 2) / 5 + d - 1)%Z in
  let doe := (yoe * 365 + yoe / 4 - yoe / 100 + doy)%Z in
  (era * 146097 + doe - 719468)%Z.

Fixpoint take_digits (n : nat) (s : string) (acc : Z) : option (Z * string) :=
  match n with
  | O => Some (acc, s)
  | S n' =>
      match s with
      | String c r => if is_digit c then take_digits n' r (10 * acc + digit_val c)%Z else None
      | EmptyString => None
      end
  end.

Definition expect_char (c : ascii) (s : string) : option string :=
  match s with
  | String d r => if Ascii.eqb c d then Some r else None
  | EmptyString => None
  end.

Definition obind {A B} (o : option A) (f : A -> option B) : option B :=
  match o with Some a => f a | None => None end.

(** Fractional seconds: up to six digits, as microseconds. *)
Fixpoint frac (n : nat) (s : string) (acc : Z) (scale : Z) : Z * string :=
  match n, s with
  | S n', String c r => if is_digit c then frac n' r (acc + digit_val c * (scale / 10))%Z (scale / 10)%Z
                        else (acc, s)
  | _, _ => (acc, s)
  end.

Definition parse_tz (s : string) : option (option Z) :=
  match s with
  | EmptyString => Some None
  | String c r =>
      if Ascii.eqb c "Z" then (if String.eqb r EmptyString then Some (Some 0%Z) else None)
      else if Ascii.eqb c "+" || Ascii.eqb c "-" then
        obind (take_digits 2 r 0) (fun '(hh, r1) =>
        obind (expect_char ":" r1) (fun r2 =>
        obind (take_digits 2 r2 0) (fun '(mm, r3) =>
          if String.eqb r3 EmptyString then
            let off := (hh * 3600 + mm * 60)%Z in
            Some (Some (if Ascii.eqb c "-" then Z.opp off else off))
          else None)))
      else None
  end.

Definition parse_time (s : string) : option (Z * string) :=
  obind (take_digits 2 s 0) (fun '(hh, r1) =>
  obind (expect_char ":" r1) (fun r2 =>
  obind (take_digits 2 r2 0) (fun '(mi, r3) =>
    let base := (hh * 3600 + mi * 60)%Z in
    match r3 with
    | String c r4 =>
        if Ascii.eqb c ":" then
          obind (take_digits 2 r4 0) (fun '(ss, r5) =>
            match r5 with
            | String c' r6 =>
                if Ascii.eqb c' "." then
                  let '(us, r7) := frac 6 r6 0 1000000 in Some ((base + ss) * 1000000 + us, r7)%Z
                else Some ((base + ss) * 1000000, r5)%Z
            | EmptyString => Some ((base + ss) * 1000000, r5)%Z
            end)
        else Some (base * 1000000, r3)%Z
    | EmptyString => Some (base * 1000000, r3)%Z
    end))).

Definition iso_parse (s : string) : result exn datetime :=
  let r :=
    obind (take_digits 4 s 0) (fun '(y, r1) =>
    obind (expect_char "-" r1) (fun r2 =>
    obind (take_digits 2 r2 0) (fun '(m, r3) =>
    obind (expect_char "-" r3) (fun r4 =>
    obind (take_digits 2 r4 0) (fun '(d, r5) =>
      let day := (days_from_civil y m d * 86400 * 1000000)%Z in
      match r5 with
      | EmptyString => Some {| dt_wall := day; dt_tz := None |}
      | String c r6 =>
          if Ascii.eqb c "T" || Ascii.eqb c " " then
            obind (parse_time r6) (fun '(t, r7) =>
            obind (parse_tz r7) (fun tz => Some {| dt_wall := day + t; dt_tz := tz |}))%Z
          else None
      end))))) in
  match r with
  | Some d => Ok d
  | None => Err (ParserError ("Unknown string format: " ++ s))
  end.

#[export] Instance iso_dateutil : DateUtil := {| dateutil_parse := iso_parse |}.

Example days_ex : days_from_civil 1970 1 1 = 0%Z /\ days_from_civil 2026 1 1 = 20454%Z.
Proof. split; reflexivity. Qed.

Example parse_date_ex :
  parse_date (PStr "2026-01-01") = Ok {| dt_wall := 20454 * 86400 * 1000000; dt_tz := Some 0 |}%Z /\
  parse_date (PStr "2025-12-31T17:00:00.5+07:00") =
    Ok {| dt_wall := (20453 * 86400 + 17 * 3600) * 1000000 + 500000; dt_tz := Some 25200 |}%Z.
Proof. split; reflexivity. Qed.
End IsoDate.
