(* ===== verification/World.v ===== *)
(** * World: the machine [scrape.py] runs on, and its effects

    The program's effects are the file system under the working directory,
    HTTP requests to the news API, [time.sleep] and [print]. A [world] holds
    - [w_files]: the contents of each regular file, by path;
    - [w_dirs]: the directories (the working directory itself is [""] and
      always exists);
    - [w_trace]: the requests, sleeps and printed lines so far, in order.
    The remote API is a [server]: a function from a request to a response,
    or [None] for a connection failure. It is an argument of every
    computation and never changes, because the program does not change the
    upstream.

    [M A] is a computation that returns an [A] or raises an [exn], and
    changes the world either way: a Python exception leaves the effects done
    before it. [let* x := c in k] is its bind, in [py_scope].

    The operations model the calls of the program:
    - [path_exists] is [Path.exists()];
    - [unlink] is [Path.unlink()];
    - [mkdir_parents] is [Path.mkdir(parents=True, exist_ok=True)];
    - [open_append] and [append_to] are [open("a")] and [f.write];
    - [read_text] is reading a file opened with [open("r")];
    - [write_text] is [open("w")] followed by writing the whole text;
    - [glob_json] is [Path.glob("*.json")];
    - [print] and [sleep];
    - [api_get] is [api_get] (lines 27-31).
    The program's constants (lines 11-24) are here too. *)

From S2P Require Import Prelude Text PyObj JsonLib.
From Stdlib Require Import Ascii String.
Local Open Scope string_scope.

(** ** Constants (lines 11-24) *)

Definition API_BASE : string := "https://onecms.thaipbs.or.th/api/news/api-v".

(** [REQUEST_DELAY = 1.0] seconds, in milliseconds. *)
Definition REQUEST_DELAY_MS : Z := 1000.

Definition VALID_CATEGORIES : list string :=
  ["politics"; "social"; "foreign"; "economy"; "crime";
   "disaster"; "region"; "environment"; "sport"; "royal";
   "entertainment"; "lifestyle"; "tech"].

Definition HEADERS : list (string * string) :=
  [("User-Agent", "Mozilla/5.0 (X11; Linux x86_64; rv:122.0) Gecko/20100101 Firefox/122.0")].

(** ** The world *)

Record request := mk_request {
  rq_url : string;
  rq_params : list (string * pyval);
  rq_headers : list (string * string)
}.

Record response := mk_response {
  resp_status : Z;
  resp_body : string
}.

Definition server := request -> option response.

Inductive event :=
| EGet (url : string) (params : list (string * pyval))
| ESleep (ms : Z)
| EPrint (line : string).

Record world := mk_world {
  w_files : gmap string string;
  w_dirs : gset string;
  w_trace : list event
}.

Definition set_files (fs : gmap string string) (w : world) : world :=
  mk_world fs (w_dirs w) (w_trace w).
Definition set_dirs (ds : gset string) (w : world) : world :=
  mk_world (w_files w) ds (w_trace w).
Definition record (e : event) (w : world) : world :=
  mk_world (w_files w) (w_dirs w) (w_trace w ++ [e]).

(** ** The monad *)

Definition M (A : Type) : Type := server -> world -> result exn A * world.

Definition mret {A} (a : A) : M A := fun _ w => (Ok a, w).

Definition mbind {A B} (m : M A) (k : A -> M B) : M B :=
  fun srv w =>
    match m srv w with
    | (Ok a, w') => k a srv w'
    | (Err e, w') => (Err e, w')
    end.

Definition raise {A} (e : exn) : M A := fun _ w => (Err e, w).

(** A pure computation that may raise. *)
Definition lift {A} (r : result exn A) : M A := fun _ w => (r, w).

(** [try: m except <caught>: h]: the handler runs on the exceptions
    [caught] accepts, the others propagate. *)
Definition try_except {A} (m : M A) (caught : exn -> bool) (h : exn -> M A) : M A :=
  fun srv w =>
    match m srv w with
    | (Err e, w') => if caught e then h e srv w' else (Err e, w')
    | r => r
    end.

Notation "'let*' x ':=' c 'in' k" := (mbind c (fun x => k))
  (at level 10, x pattern, c at level 100, k at level 200,
   format "'[' 'let*'  x  ':='  c  'in' ']' '/' k") : py_scope.
Notation "c ;; k" := (mbind c (fun _ => k))
  (at level 100, right associativity) : py_scope.

Local Open Scope py_scope.

(** [for x in xs: body(x)]. *)
Fixpoint for_each {A} (xs : list A) (body : A -> M unit) : M unit :=
  match xs with
  | [] => mret tt
  | x :: xs' => body x ;; for_each xs' body
  end.

(** ** Paths *)

(** [p / name]. *)
Definition path_join (p name : string) : string := p ++ "/" ++ name.

Fixpoint last_slash_split (s : string) : option (string * string) :=
  match s with
  | EmptyString => None
  | String c r =>
      match last_slash_split r with
      | Some (a, b) => Some (String c a, b)
      | None => if Ascii.eqb c "/" then Some (EmptyString, r) else None
      end
  end.

(** [p.parent]: [""] (the working directory) for a name without a slash. *)
Definition parent (p : string) : string :=
  match last_slash_split p with
  | Some (a, _) => a
  | None => EmptyString
  end.

(** The ancestors of [p] and [p] itself, outermost first. *)
Fixpoint path_prefixes_acc (s acc : string) : list string :=
  match s with
  | EmptyString => [acc]
  | String c r =>
      if Ascii.eqb c "/" then acc :: path_prefixes_acc r (acc ++ "/")
      else path_prefixes_acc r (acc ++ char c)
  end.
Definition path_prefixes (p : string) : list string := path_prefixes_acc p EmptyString.

Definition is_dir (w : world) (p : string) : bool :=
  String.eqb p EmptyString || bool_decide (p ∈ w_dirs w).

Definition is_file (w : world) (p : string) : bool :=
  bool_decide (is_Some (w_files w !! p)).

(** ** File-system operations *)

Definition print (line : string) : M unit := fun _ w => (Ok tt, record (EPrint line) w).

Definition sleep (ms : Z) : M unit := fun _ w => (Ok tt, record (ESleep ms) w).

Definition path_exists (p : string) : M bool :=
  fun _ w => (Ok (is_file w p || is_dir w p), w).

Definition unlink (p : string) : M unit :=
  fun _ w =>
    if is_file w p then (Ok tt, set_files (delete p (w_files w)) w)
    else if is_dir w p then (Err (IsADirectoryError p), w)
    else (Err (FileNotFoundError p), w).

(** Each missing ancestor is created in turn; one that is a file stops the
    creation ([FileExistsError] for the target itself, [NotADirectoryError]
    for an ancestor). *)
Fixpoint mkdir_each (p : string) (ps : list string) (w : world) : result exn unit * world :=
  match ps with
  | [] => (Ok tt, w)
  | q :: ps' =>
      if is_file w q then
        (Err (if String.eqb q p then FileExistsError p else NotADirectoryError p), w)
      else mkdir_each p ps' (set_dirs ({[q]} ∪ w_dirs w) w)
  end.

Definition mkdir_parents (p : string) : M unit :=
  fun _ w => mkdir_each p (path_prefixes p) w.

(** Opening for writing needs the parent directory and a path that is not
    a directory. *)
Definition check_writable (w : world) (p : string) : option exn :=
  if is_dir w p then Some (IsADirectoryError p)
  else if negb (is_dir w (parent p)) then Some (FileNotFoundError p)
  else None.

(** [open(p, "a")]: creates the file when it is missing. *)
Definition open_append (p : string) : M unit :=
  fun _ w =>
    match check_writable w p with
    | Some e => (Err e, w)
    | None =>
        match w_files w !! p with
        | Some _ => (Ok tt, w)
        | None => (Ok tt, set_files (<[p := EmptyString]> (w_files w)) w)
        end
    end.

(** [f.write(s)] on a file opened with [open_append]. *)
Definition append_to (p s : string) : M unit :=
  fun _ w =>
    let old := default EmptyString (w_files w !! p) in
    (Ok tt, set_files (<[p := old ++ s]> (w_files w)) w).

(** [open(p, "w")] and one write of [s]. *)
Definition write_text (p s : string) : M unit :=
  fun _ w =>
    match check_writable w p with
    | Some e => (Err e, w)
    | None => (Ok tt, set_files (<[p := s]> (w_files w)) w)
    end.

(** The whole text of a file opened with [open("r")]. *)
Definition read_text (p : string) : M string :=
  fun _ w =>
    match w_files w !! p with
    | Some s => (Ok s, w)
    | None => (Err (if is_dir w p then IsADirectoryError p else FileNotFoundError p), w)
    end.

Definition ends_with (suffix s : string) : bool :=
  let n := String.length s in
  let k := String.length suffix in
  (k <=? n)%nat && String.eqb (substring (n - k) k s) suffix.

Fixpoint strip_prefix (pre s : string) : option string :=
  match pre, s with
  | EmptyString, _ => Some s
  | String a pre', String b s' => if Ascii.eqb a b then strip_prefix pre' s' else None
  | _, _ => None
  end.

(** An entry [d/name] of [d] whose name has no slash and ends with
    [.json]. *)
Definition json_entry (d p : string) : bool :=
  match strip_prefix (d ++ "/") p with
  | Some name => negb (has_char "/" name) && ends_with ".json" name
  | None => false
  end.

(** [d.glob("*.json")]: the matching files, then the matching directories
    (the order of the real listing is the order of the directory entries,
    which the program does not rely on). *)
Definition glob_json (d : string) : M (list string) :=
  fun _ w =>
    (Ok (filter (json_entry d) (map fst (map_to_list (w_files w)))
         ++ filter (json_entry d) (elements (w_dirs w)))%list, w).

(** ** [api_get] (lines 27-31) *)
Section api.
Context `{JsonLib}.

(** The request is recorded, then [resp.raise_for_status()] raises on a
    status from 400 to 599, and [resp.json()] decodes the body. *)
Definition api_get (endpoint : string) (params : list (string * pyval)) : M pyval :=
  fun srv w =>
    let url := API_BASE ++ "/" ++ endpoint in
    let w' := record (EGet url params) w in
    match srv (mk_request url params HEADERS) with
    | None => (Err ConnectionError, w')
    | Some resp =>
        if (400 <=? resp_status resp)%Z && (resp_status resp <? 600)%Z
        then (Err (HTTPError (resp_status resp)), w')
        else (json_loads (resp_body resp), w')
    end.
End api.

(** ** Running computations *)

Lemma mbind_ok {A B} (m : M A) (k : A -> M B) srv w a w' :
  m srv w = (Ok a, w') -> mbind m k srv w = k a srv w'.
Proof. intros H. unfold mbind. by rewrite H. Qed.

Lemma mbind_err {A B} (m : M A) (k : A -> M B) srv w e w' :
  m srv w = (Err e, w') -> mbind m k srv w = (Err e, w').
Proof. intros H. unfold mbind. by rewrite H. Qed.

Example paths_ex :
  parent "data/politics/list.jsonl" = "data/politics" /\
  path_prefixes "data/politics" = ["data"; "data/politics"] /\
  json_entry "data/x/content" "data/x/content/12.json" = true /\
  json_entry "data/x/content" "data/x/content/a/12.json" = false /\
  json_entry "data/x/content" "data/x/content/12.jsonl" = false.
Proof. repeat split; reflexivity. Qed.

(** ** Verification conditions

    [vrf m srv w Q]: running [m] against [srv] from [w] ends in a result
    and a world related by [Q]. The result is a value or an exception, so
    one postcondition speaks of both, and a theorem about a run that raises
    is a theorem about the world the exception leaves. *)
Definition vrf {A} (m : M A) (srv : server) (w : world) (Q : result exn A -> world -> Prop) : Prop :=
  Q (m srv w).1 (m srv w).2.

Section vrf_rules.
Context (srv : server) (w : world).

Lemma vrf_ret {A} (a : A) Q : Q (Ok a) w -> vrf (mret a) srv w Q.
Proof. done. Qed.

Lemma vrf_bind {A B} (m : M A) (k : A -> M B) Q :
  vrf m srv w (fun r w' => match r with Ok a => vrf (k a) srv w' Q | Err e => Q (Err e) w' end) ->
  vrf (mbind m k) srv w Q.
Proof. unfold vrf, mbind. by destruct (m srv w) as [[a|e] w']. Qed.

(** The rule of consequence through a bind: an intermediate condition
    [R] on what [m] leaves. *)
Lemma vrf_bind_post {A B} (m : M A) (k : A -> M B) (R : result exn A -> world -> Prop) Q :
  vrf m srv w R ->
  (forall a w', R (Ok a) w' -> vrf (k a) srv w' Q) ->
  (forall e w', R (Err e) w' -> Q (Err e) w') ->
  vrf (mbind m k) srv w Q.
Proof. unfold vrf, mbind. destruct (m srv w) as [[a|e] w']; simpl; auto. Qed.

Lemma vrf_mono {A} (m : M A) (Q Q' : result exn A -> world -> Prop) :
  (forall r w', Q r w' -> Q' r w') -> vrf m srv w Q -> vrf m srv w Q'.
Proof. unfold vrf. auto. Qed.

Lemma vrf_lift {A} (r : result exn A) Q : Q r w -> vrf (lift r) srv w Q.
Proof. done. Qed.

Lemma vrf_raise {A} e (Q : result exn A -> world -> Prop) : Q (Err e) w -> vrf (raise e) srv w Q.
Proof. done. Qed.

Lemma vrf_print s Q : Q (Ok tt) (record (EPrint s) w) -> vrf (print s) srv w Q.
Proof. done. Qed.

Lemma vrf_sleep ms Q : Q (Ok tt) (record (ESleep ms) w) -> vrf (sleep ms) srv w Q.
Proof. done. Qed.

Lemma vrf_path_exists p Q : Q (Ok (is_file w p || is_dir w p)) w -> vrf (path_exists p) srv w Q.
Proof. done. Qed.

Lemma vrf_append_to p s Q :
  Q (Ok tt) (set_files (<[p := default EmptyString (w_files w !! p) ++ s]> (w_files w)) w) ->
  vrf (append_to p s) srv w Q.
Proof. done. Qed.

Lemma vrf_unlink p Q :
  (is_file w p = true -> Q (Ok tt) (set_files (delete p (w_files w)) w)) ->
  (forall e, Q (Err e) w) -> vrf (unlink p) srv w Q.
Proof. unfold vrf, unlink. destruct (is_file w p), (is_dir w p); simpl; auto. Qed.

Lemma vrf_read_text p Q :
  (forall s, w_files w !! p = Some s -> Q (Ok s) w) -> (forall e, Q (Err e) w) ->
  vrf (read_text p) srv w Q.
Proof. unfold vrf, read_text. destruct (w_files w !! p); simpl; auto. Qed.

(** [open(p, "a")] creates [p] empty when it is missing, and changes no
    other file. *)
Lemma vrf_open_append p Q :
  (forall w', w_files w' = (if w_files w !! p then w_files w else <[p := EmptyString]> (w_files w)) ->
     Q (Ok tt) w') ->
  (forall e, Q (Err e) w) -> vrf (open_append p) srv w Q.
Proof.
  unfold vrf, open_append. intros Hok Herr. destruct (check_writable w p); [apply Herr|].
  destruct (w_files w !! p) eqn:E; simpl; apply Hok; by rewrite ?E.
Qed.
End vrf_rules.

Lemma is_file_false w p : is_file w p = false -> w_files w !! p = None.
Proof. unfold is_file. case_bool_decide as Hs; [done|]. intros _. by apply eq_None_not_Some. Qed.

Lemma is_file_true w p : is_file w p = true -> is_Some (w_files w !! p).
Proof. unfold is_file. by case_bool_decide. Qed.

(** [mkdir] changes directories only. *)
Lemma mkdir_each_files p ps w : w_files (mkdir_each p ps w).2 = w_files w.
Proof.
  revert w. induction ps as [|q ps IH]; intros w; simpl; [done|].
  destruct (is_file w q); [done|]. by rewrite IH.
Qed.

Lemma vrf_mkdir_parents srv w p Q :
  (forall r w', w_files w' = w_files w -> Q r w') -> vrf (mkdir_parents p) srv w Q.
Proof. intros H. apply H, mkdir_each_files. Qed.

Section vrf_api.
Context `{JsonLibLaws}.

(** [api_get] records its request, and what it returns is a decoded JSON
    document, well formed. *)
Lemma vrf_api_get srv w endpoint params Q :
  (forall v, py_wf v -> Q (Ok v) (record (EGet (API_BASE ++ "/" ++ endpoint) params) w)) ->
  (forall e, Q (Err e) (record (EGet (API_BASE ++ "/" ++ endpoint) params) w)) ->
  vrf (api_get endpoint params) srv w Q.
Proof.
  intros Hok Herr. unfold vrf, api_get.
  destruct (srv _) as [resp|]; [|apply Herr].
  case_match; [apply Herr|]. simpl.
  destruct (json_loads _) eqn:E; [apply Hok; by eapply loads_wf|apply Herr].
Qed.
End vrf_api.

(** ** Computations that do not talk to the server *)
Definition srv_free {A} (m : M A) : Prop := forall s1 s2 w, m s1 w = m s2 w.

Lemma srv_free_bind {A B} (m : M A) (k : A -> M B) :
  srv_free m -> (forall a, srv_free (k a)) -> srv_free (mbind m k).
Proof. intros Hm Hk s1 s2 w. unfold mbind. rewrite (Hm s1 s2 w). destruct (m s2 w) as [[a|e] w']; [apply Hk|done]. Qed.

Lemma srv_free_ret {A} (a : A) : srv_free (mret a).
Proof. done. Qed.
Lemma srv_free_lift {A} (r : result exn A) : srv_free (lift r).
Proof. done. Qed.
Lemma srv_free_print s : srv_free (print s).
Proof. done. Qed.
Lemma srv_free_path_exists p : srv_free (path_exists p).
Proof. done. Qed.
Lemma srv_free_unlink p : srv_free (unlink p).
Proof. done. Qed.
Lemma srv_free_mkdir_parents p : srv_free (mkdir_parents p).
Proof. done. Qed.
Lemma srv_free_read_text p : srv_free (read_text p).
Proof. done. Qed.
Lemma srv_free_glob_json d : srv_free (glob_json d).
Proof. done. Qed.

Create HintDb srv_free.
#[export] Hint Resolve srv_free_bind srv_free_ret srv_free_lift srv_free_print srv_free_path_exists
  srv_free_unlink srv_free_mkdir_parents srv_free_read_text srv_free_glob_json : srv_free.

(** Through a bind on a computation that does not talk to the server, two
    servers give the same result when the continuations do. *)
Lemma mbind_srv_free {A B} (m : M A) (k : A -> M B) s1 s2 w :
  srv_free m ->
  (forall a w', m s1 w = (Ok a, w') -> (k a s1 w').1 = (k a s2 w').1) ->
  (mbind m k s1 w).1 = (mbind m k s2 w).1.
Proof.
  intros Hm Hk. unfold mbind. rewrite <-(Hm s1 s2 w).
  destruct (m s1 w) as [[a|e] w'] eqn:E; auto.
Qed.

(** The requests of a trace, in order. *)
Definition requests (tr : list event) : list (string * list (string * pyval)) :=
  omap (fun e => match e with EGet u ps => Some (u, ps) | _ => None end) tr.

(** The requests and the sleeps of a trace, in order. *)
Definition net_events (tr : list event) : list event :=
  List.filter (fun e => match e with EPrint _ => false | _ => true end) tr.

Lemma net_events_app l1 l2 : net_events (l1 ++ l2) = (net_events l1 ++ net_events l2)%list.
Proof. apply List.filter_app. Qed.

Lemma net_events_prints pr : Forall (fun e => exists s, e = EPrint s) pr -> net_events pr = [].
Proof. induction 1 as [|e pr [s ->] _ IH]; simpl; done. Qed.

(** ** Computations that change one file only

    [touches_only p0 m]: [m] changes no file but [p0] and no directory. *)
Definition touches_only {A} (p0 : string) (m : M A) : Prop :=
  forall srv w, (forall p, p <> p0 -> w_files (m srv w).2 !! p = w_files w !! p) /\ w_dirs (m srv w).2 = w_dirs w.

Section touches.
Context (p0 : string).

Lemma touches_bind {A B} (m : M A) (k : A -> M B) :
  touches_only p0 m -> (forall a, touches_only p0 (k a)) -> touches_only p0 (mbind m k).
Proof.
  intros Hm Hk srv w. unfold mbind. destruct (Hm srv w) as [Hf Hd].
  destruct (m srv w) as [[a|e] w']; simpl in *; [|done].
  destruct (Hk a srv w') as [Hf' Hd']. split; [|congruence]. intros p Hp. rewrite Hf', Hf; done.
Qed.

Lemma touches_ret {A} (a : A) : touches_only p0 (mret a).
Proof. done. Qed.
Lemma touches_lift {A} (r : result exn A) : touches_only p0 (lift r).
Proof. done. Qed.
Lemma touches_print s : touches_only p0 (print s).
Proof. done. Qed.
Lemma touches_sleep ms : touches_only p0 (sleep ms).
Proof. done. Qed.
Lemma touches_path_exists p : touches_only p0 (path_exists p).
Proof. done. Qed.
Lemma touches_read_text p : touches_only p0 (read_text p).
Proof. intros srv w. unfold read_text. by destruct (w_files w !! p). Qed.
Lemma touches_append_to s : touches_only p0 (append_to p0 s).
Proof. intros srv w. split; [|done]. intros p Hp. simpl. by rewrite lookup_insert_ne. Qed.
Lemma touches_open_append : touches_only p0 (open_append p0).
Proof.
  intros srv w. unfold open_append. destruct (check_writable w p0); [done|].
  destruct (w_files w !! p0); [done|]. split; [|done]. intros p Hp. simpl. by rewrite lookup_insert_ne.
Qed.
Lemma touches_api_get `{JsonLib} e ps : touches_only p0 (api_get e ps).
Proof.
  intros srv w. unfold api_get. destruct (srv _) as [resp|]; [|done]. by case_match.
Qed.
End touches.

Create HintDb touches.
#[export] Hint Resolve touches_bind touches_ret touches_lift touches_print touches_sleep
  touches_path_exists touches_read_text touches_append_to touches_open_append touches_api_get : touches.

(** ** Counting requests

    [reqs_le n m]: [m] only extends the trace, by events that hold at most
    [n] requests, whatever it returns. *)
Definition reqs_le {A} (n : nat) (m : M A) : Prop :=
  forall srv w, exists tr, w_trace (m srv w).2 = (w_trace w ++ tr)%list /\ List.length (requests tr) <= n.

Lemma requests_app tr1 tr2 : requests (tr1 ++ tr2) = (requests tr1 ++ requests tr2)%list.
Proof. apply omap_app. Qed.

Lemma reqs_mono {A} n n' (m : M A) : reqs_le n m -> n <= n' -> reqs_le n' m.
Proof. intros Hm Hn srv w. destruct (Hm srv w) as (tr & Ht & Hl). exists tr. split; [done|lia]. Qed.

Lemma reqs_bind {A B} n k (m : M A) (f : A -> M B) :
  reqs_le n m -> (forall a, reqs_le k (f a)) -> reqs_le (n + k) (mbind m f).
Proof.
  intros Hm Hf srv w. unfold mbind. destruct (Hm srv w) as (tr & Ht & Hl).
  destruct (m srv w) as [[a|e] w']; simpl in *.
  - destruct (Hf a srv w') as (tr' & Ht' & Hl'). exists (tr ++ tr')%list.
    rewrite Ht', Ht, app_assoc, requests_app, length_app. split; [done|lia].
  - exists tr. split; [done|lia].
Qed.

(** The common case, a computation that sends no request. *)
Lemma reqs_bind0 {A B} (m : M A) (f : A -> M B) :
  reqs_le 0 m -> (forall a, reqs_le 0 (f a)) -> reqs_le 0 (mbind m f).
Proof. apply (reqs_bind 0 0). Qed.

Lemma reqs_pure {A} (m : M A) : (forall srv w, w_trace (m srv w).2 = w_trace w) -> reqs_le 0 m.
Proof. intros Hm srv w. exists []. by rewrite Hm, app_nil_r. Qed.

Lemma reqs_ret {A} (a : A) : reqs_le 0 (mret a).
Proof. by apply reqs_pure. Qed.
Lemma reqs_lift {A} (r : result exn A) : reqs_le 0 (lift r).
Proof. by apply reqs_pure. Qed.
Lemma reqs_print s : reqs_le 0 (print s).
Proof. intros srv w. by exists [EPrint s]. Qed.
Lemma reqs_sleep ms : reqs_le 0 (sleep ms).
Proof. intros srv w. by exists [ESleep ms]. Qed.
Lemma reqs_path_exists p : reqs_le 0 (path_exists p).
Proof. by apply reqs_pure. Qed.
Lemma reqs_read_text p : reqs_le 0 (read_text p).
Proof. apply reqs_pure. intros srv w. unfold read_text. by destruct (w_files w !! p). Qed.
Lemma reqs_unlink p : reqs_le 0 (unlink p).
Proof. apply reqs_pure. intros srv w. unfold unlink. by repeat case_match. Qed.
Lemma reqs_append_to p s : reqs_le 0 (append_to p s).
Proof. by apply reqs_pure. Qed.
Lemma reqs_open_append p : reqs_le 0 (open_append p).
Proof. apply reqs_pure. intros srv w. unfold open_append. by repeat case_match. Qed.
Lemma reqs_mkdir_parents p : reqs_le 0 (mkdir_parents p).
Proof.
  apply reqs_pure. intros srv w. unfold mkdir_parents. generalize (path_prefixes p).
  intros ps. revert w. induction ps as [|q ps IH]; intros w; simpl; [done|].
  destruct (is_file w q); [done|]. by rewrite IH.
Qed.
Lemma reqs_api_get `{JsonLib} e ps : reqs_le 1 (api_get e ps).
Proof. intros srv w. exists [EGet (API_BASE ++ "/" ++ e) ps]. unfold api_get. split; [by repeat case_match|done]. Qed.

Create HintDb reqs.
#[export] Hint Resolve reqs_bind0 reqs_ret reqs_lift reqs_print reqs_sleep reqs_path_exists
  reqs_read_text reqs_unlink reqs_append_to reqs_open_append reqs_mkdir_parents : reqs.

Lemma api_get_wf `{JsonLibLaws} e ps srv w v w' : api_get e ps srv w = (Ok v, w') -> py_wf v.
Proof.
  intros Hv. pose proof (vrf_api_get srv w e ps (fun r _ => forall v, r = Ok v -> py_wf v)) as Hw.
  unfold vrf in Hw. rewrite Hv in Hw. apply (Hw (fun v Hv _ _ => ltac:(by simplify_eq)) (fun _ _ => ltac:(done)) v eq_refl).
Qed.

(** [api_get] answers the same whatever the world, and only records its
    request. *)
Lemma api_get_uniform `{JsonLib} e ps srv :
  exists r, forall w, api_get e ps srv w = (r, record (EGet (API_BASE ++ "/" ++ e) ps) w).
Proof.
  unfold api_get. destruct (srv _) as [resp|]; [|by eexists]. case_match; by eexists.
Qed.

Lemma mbind_Ok_inv {A B} (m : M A) (k : A -> M B) srv w b w' :
  mbind m k srv w = (Ok b, w') -> exists a wm, m srv w = (Ok a, wm) /\ k a srv wm = (Ok b, w').
Proof. unfold mbind. destruct (m srv w) as [[a|e] wm]; [eauto|done]. Qed.

(** A bind whose first computation is known. *)
Lemma mbind_det {A B} (m : M A) (k : A -> M B) srv w r w1 :
  m srv w = (r, w1) -> mbind m k srv w = match r with Ok a => k a srv w1 | Err e => (Err e, w1) end.
Proof. intros H. unfold mbind. by rewrite H. Qed.

Lemma mbind_lift {A B} (r : result exn A) (k : A -> M B) srv w :
  mbind (lift r) k srv w = match r with Ok a => k a srv w | Err e => (Err e, w) end.
Proof. done. Qed.

Lemma mbind_print {B} s (k : unit -> M B) srv w : mbind (print s) k srv w = k tt srv (record (EPrint s) w).
Proof. done. Qed.

Lemma mbind_ret {A B} (a : A) (k : A -> M B) srv w : mbind (mret a) k srv w = k a srv w.
Proof. done. Qed.

(** [open(p, "a")] on an existing file that can be written. *)
Lemma open_append_existing p c srv w :
  check_writable w p = None -> w_files w !! p = Some c -> open_append p srv w = (Ok tt, w).
Proof. intros Hc Hf. unfold open_append. by rewrite Hc, Hf. Qed.

Lemma open_append_Ok p srv w w' :
  open_append p srv w = (Ok tt, w') ->
  check_writable w p = None /\ w_dirs w' = w_dirs w /\
  w_files w' = (if w_files w !! p then w_files w else <[p := EmptyString]> (w_files w)).
Proof.
  unfold open_append. destruct (check_writable w p); [done|].
  destruct (w_files w !! p); intros [= <-]; done.
Qed.

(** A path is the last of its own prefixes. *)
Lemma path_prefixes_acc_self s acc : (acc ++ s) ∈ path_prefixes_acc s acc.
Proof.
  revert acc. induction s as [|c s IH]; intros acc; simpl.
  - rewrite str_app_nil_r. by left.
  - destruct (Ascii.eqb c "/") eqn:E.
    + apply Ascii.eqb_eq in E as ->. right. specialize (IH (acc ++ "/")). by rewrite <-str_app_assoc in IH.
    + specialize (IH (acc ++ char c)). by rewrite <-str_app_assoc in IH.
Qed.

Lemma path_prefixes_self p : p ∈ path_prefixes p.
Proof. apply (path_prefixes_acc_self p EmptyString). Qed.

(** [mkdir(parents=True, exist_ok=True)] where no prefix is a file
    completes and creates every prefix. *)
Lemma mkdir_each_run p ps w :
  (forall q, q ∈ ps -> is_file w q = false) ->
  mkdir_each p ps w = (Ok tt, set_dirs (list_to_set ps ∪ w_dirs w) w).
Proof.
  revert w. induction ps as [|q ps IH]; intros w Hps; simpl.
  - destruct w as [fs ds tr]. unfold set_dirs. simpl. f_equal. f_equal. apply leibniz_equiv. set_solver.
  - rewrite (Hps q (list_elem_of_here _ _)). rewrite IH by (intros q' Hq'; apply Hps; by right).
    destruct w as [fs ds tr]. unfold set_dirs. simpl. f_equal. f_equal. apply leibniz_equiv. set_solver.
Qed.

(** [open(p, "a")] where [p] can be written: the file holds what it held,
    or nothing. *)
Lemma open_append_run p srv w :
  check_writable w p = None ->
  exists w', open_append p srv w = (Ok tt, w') /\ w_files w' !! p = Some (default EmptyString (w_files w !! p)) /\
    w_dirs w' = w_dirs w.
Proof.
  intros Hc. unfold open_append. rewrite Hc. destruct (w_files w !! p) as [c|] eqn:E.
  - by exists w.
  - eexists. split; [done|]. simpl. by rewrite lookup_insert_eq.
Qed.

(** Creating directories that all exist already changes nothing. *)
Lemma mkdir_each_noop p ps w :
  (forall q, q ∈ ps -> q ∈ w_dirs w /\ is_file w q = false) -> mkdir_each p ps w = (Ok tt, w).
Proof.
  revert w. induction ps as [|q ps IH]; intros w Hps; simpl; [done|].
  destruct (Hps q (list_elem_of_here _ _)) as [Hq ->].
  replace (set_dirs ({[q]} ∪ w_dirs w) w) with w.
  - apply IH. intros q' Hq'. apply Hps. by right.
  - destruct w as [fs ds tr]. unfold set_dirs. simpl in *. f_equal. set_solver.
Qed.

(** A [mkdir] that completes has found no file among the directories it
    creates, and has created them all. *)
Lemma mkdir_each_ok p ps w w' :
  mkdir_each p ps w = (Ok tt, w') ->
  w_files w' = w_files w /\ (forall q, q ∈ ps -> is_file w q = false) /\ w_dirs w ⊆ w_dirs w' /\
  (forall q, q ∈ ps -> q ∈ w_dirs w').
Proof.
  revert w. induction ps as [|q ps IH]; intros w; simpl.
  - intros [= <-]. split_and!; [done| |done|]; intros q Hq; by apply not_elem_of_nil in Hq.
  - destruct (is_file w q) eqn:Hf; [done|]. intros (Hfs & Hps & Hsub & Hin)%IH. simpl in *.
    split_and!; [done| |set_solver|].
    + intros q' [->|Hq']%elem_of_cons; [done|]. unfold is_file in *. by rewrite <-(Hps q' Hq').
    + intros q' [->|Hq']%elem_of_cons; [set_solver|auto].
Qed.

(** A name without a slash joined to [p] has [p] as its parent. *)
Lemma last_slash_split_none s : has_char "/" s = false -> last_slash_split s = None.
Proof.
  induction s as [|c s IH]; [done|]. cbn [has_char last_slash_split].
  intros [Hc Hs]%orb_false_iff. rewrite IH by done.
  destruct (Ascii.eqb_spec c "/") as [->|]; [done|]. by destruct (Ascii.eqb c "/").
Qed.

Lemma last_slash_split_join p n : has_char "/" n = false -> last_slash_split (path_join p n) = Some (p, n).
Proof.
  intros Hn. unfold path_join. induction p as [|c p IH].
  - cbn. by rewrite last_slash_split_none.
  - cbn [append last_slash_split]. cbn in IH. by rewrite IH.
Qed.

Lemma parent_join p n : has_char "/" n = false -> parent (path_join p n) = p.
Proof. intros Hn. unfold parent. by rewrite last_slash_split_join. Qed.

(** The prefixes of a path are no longer than the path. *)
Lemma path_prefixes_acc_len s acc q :
  q ∈ path_prefixes_acc s acc -> String.length q <= String.length acc + String.length s.
Proof.
  revert acc. induction s as [|c s IH]; intros acc; cbn [path_prefixes_acc String.length].
  - intros ->%list_elem_of_singleton. lia.
  - destruct (Ascii.eqb c "/").
    + intros [->|Hq]%elem_of_cons; [lia|]. apply IH in Hq. rewrite str_length_app in Hq. cbn in Hq. lia.
    + intros Hq. apply IH in Hq. rewrite str_length_app in Hq. cbn in Hq. lia.
Qed.

Lemma path_prefixes_len p q : q ∈ path_prefixes p -> String.length q <= String.length p.
Proof. apply path_prefixes_acc_len. Qed.

(** Recording an event changes no file and no directory. *)
Lemma is_dir_record e w p : is_dir (record e w) p = is_dir w p.
Proof. done. Qed.

Lemma is_file_record e w p : is_file (record e w) p = is_file w p.
Proof. done. Qed.

Lemma check_writable_dirs v v' p : w_dirs v = w_dirs v' -> check_writable v p = check_writable v' p.
Proof. intros Hd. unfold check_writable, is_dir. by rewrite Hd. Qed.

(** The world a run leaves, from its verification condition. *)
Lemma vrf_final {A} (m : M A) srv w (P : world -> Prop) : vrf m srv w (fun _ => P) -> P (m srv w).2.
Proof. done. Qed.

(** One step of a verification condition, by the head of the computation. *)
Ltac vrf_step :=
  lazymatch goal with
  | |- vrf (mbind _ _) _ _ _ => apply vrf_bind
  | |- vrf (mret _) _ _ _ => apply vrf_ret
  | |- vrf (lift _) _ _ _ => apply vrf_lift
  | |- vrf (raise _) _ _ _ => apply vrf_raise
  | |- vrf (print _) _ _ _ => apply vrf_print
  | |- vrf (sleep _) _ _ _ => apply vrf_sleep
  | |- vrf (path_exists _) _ _ _ => apply vrf_path_exists
  | |- vrf (append_to _ _) _ _ _ => apply vrf_append_to
  end; cbv beta.
