(* ===== verification/Ledger.v ===== *)
(** * Ledger: the article list [data/<category>/list.jsonl]

    [load_existing_ids] (lines 34-48) reads the ledger and collects the ids
    of its records. [line_id] is one iteration of its loop: strip the line,
    skip it when it is blank, decode it, and take [int(article["id"])]. The
    [except] clause catches [JSONDecodeError], [KeyError] and [ValueError]:
    such a line adds nothing. Any other exception, such as the [TypeError]
    of a line that is a JSON list or has a [null] id, propagates out of
    [load_existing_ids].

    [record_ids] is the list of ids behind the set, one per line that adds
    one, in file order. Its duplicates are the ledger's duplicate records.
    The lemmas of this file show:
    - the set [load_existing_ids] returns is the set of [record_ids];
    - appending the record [json.dumps(a) + "\n"] to a ledger that ends
      with a line feed appends [int(a["id"])] to [record_ids]
      ([record_ids_snoc], [record_ids_ledger_text]). This is the round
      trip the program relies on: what one run writes, the next run reads
      back as known. *)

From S2P Require Import Prelude Text PyObj JsonLib CJson World.
From Stdlib Require Import Ascii String.
Local Open Scope string_scope.
Local Open Scope py_scope.

(** [Path("data") / category / "list.jsonl"] and its parent. *)
Definition category_dir (category : string) : string := path_join "data" category.
Definition list_path (category : string) : string := path_join (category_dir category) "list.jsonl".

Section ledger.
Context `{JsonLib}.

(** The exceptions of [except (json.JSONDecodeError, KeyError, ValueError)]. *)
Definition skipped_exn (e : exn) : bool :=
  is_json_decode_error e || is_key_error e || is_value_error e.

(** The id one line adds, if any (lines 40-47). *)
Definition line_id (line : string) : result exn (option Z) :=
  let line := py_strip line in
  if String.eqb line EmptyString then Ok None
  else
    match (let? article := json_loads line in
           let? v := py_getitem article "id" in
           py_int v) with
    | Ok i => Ok (Some i)
    | Err e => if skipped_exn e then Ok None else Err e
    end.

(** The loop of lines 39-47 from the set [ids]. *)
Fixpoint ids_of_lines (lines : list string) (ids : gset Z) : result exn (gset Z) :=
  match lines with
  | [] => Ok ids
  | l :: ls =>
      let? o := line_id l in
      ids_of_lines ls (match o with Some i => {[i]} ∪ ids | None => ids end)
  end.

Definition load_existing_ids (list_file : string) : M (gset Z) :=
  let* b := path_exists list_file in
  if negb b then mret ∅
  else
    let* text := read_text list_file in
    lift (ids_of_lines (text_lines text) ∅).

(** The ids of the ledger [content], one per line that adds one. *)
Definition record_ids (content : string) : list Z :=
  omap (fun l => match line_id l with Ok (Some i) => Some i | _ => None end) (text_lines content).

(** The id of a record: the [int(article["id"])] of line 94. *)
Definition article_id (a : pyval) : result exn Z :=
  let? v := py_getitem a "id" in py_int v.

(** The text of the records [arts], in order: what appending them one
    [f.write] at a time adds to a ledger. *)
Fixpoint ledger_text (arts : list pyval) : string :=
  match arts with
  | [] => EmptyString
  | a :: rest => record_line a ++ ledger_text rest
  end.

(** ** Lemmas *)

Lemma ledger_text_snoc arts a : ledger_text (arts ++ [a]) = ledger_text arts ++ record_line a.
Proof.
  induction arts as [|b arts IH]; simpl; [by rewrite str_app_nil_r|].
  by rewrite IH, str_app_assoc.
Qed.

Lemma ids_of_lines_ok lines ids S :
  ids_of_lines lines ids = Ok S ->
  S = ids ∪ list_to_set (omap (fun l => match line_id l with Ok (Some i) => Some i | _ => None end) lines).
Proof.
  revert ids. induction lines as [|l ls IH]; intros ids; simpl.
  - intros [= <-]. apply leibniz_equiv. set_solver.
  - destruct (line_id l) as [[i|]|e]; simpl; [| |discriminate];
      intros ->%IH; apply leibniz_equiv; set_solver.
Qed.

(** [load_existing_ids] changes nothing, and what it returns is the set of
    the ids of the ledger, or of the empty ledger when there is none. *)
Lemma load_existing_ids_ok lf srv w :
  vrf (load_existing_ids lf) srv w (fun r w' =>
    w' = w /\ forall S, r = Ok S -> S = list_to_set (record_ids (default EmptyString (w_files w !! lf)))).
Proof.
  unfold load_existing_ids. vrf_step. vrf_step.
  destruct (is_file w lf) eqn:Ef; simpl.
  - vrf_step. apply vrf_read_text; [|done]. intros s Hs. vrf_step.
    split; [done|]. intros S ->%ids_of_lines_ok. rewrite Hs. apply leibniz_equiv. set_solver.
  - destruct (is_dir w lf); simpl; vrf_step; [apply vrf_read_text; [|done]|].
    + intros s Hs. by rewrite is_file_false in Hs.
    + split; [done|]. intros S [= <-]. by rewrite is_file_false.
Qed.

(** [load_existing_ids] sends no request. *)
Lemma reqs_load_existing_ids lf : reqs_le 0 (load_existing_ids lf).
Proof. unfold load_existing_ids. apply reqs_bind0; [auto with reqs|]. intros b. destruct (negb b); auto with reqs. Qed.
(** A [load_existing_ids] that completes has changed nothing and has read
    the ledger, or the empty text when there is none. *)
Lemma load_existing_ids_Ok lf srv w S w' :
  load_existing_ids lf srv w = (Ok S, w') ->
  w' = w /\ ids_of_lines (text_lines (default EmptyString (w_files w !! lf))) ∅ = Ok S.
Proof.
  unfold load_existing_ids, mbind, path_exists. simpl.
  destruct (is_file w lf) eqn:Ef; simpl.
  - unfold read_text, mbind. destruct (w_files w !! lf) as [c|] eqn:Hc; [|done]. simpl. by intros [= -> ->].
  - rewrite is_file_false by done. destruct (is_dir w lf); simpl; [unfold read_text; by rewrite is_file_false|].
    by intros [= <- <-].
Qed.

Lemma load_existing_ids_file lf srv w c S :
  w_files w !! lf = Some c -> ids_of_lines (text_lines c) ∅ = Ok S ->
  load_existing_ids lf srv w = (Ok S, w).
Proof.
  intros Hc HS. unfold load_existing_ids, mbind, path_exists, is_file. rewrite Hc.
  rewrite bool_decide_eq_true_2 by done. simpl. unfold read_text. rewrite Hc. simpl. unfold lift. by rewrite HS.
Qed.

(** [load_existing_ids] on a ledger that parses, or none. *)
Lemma load_existing_ids_run lf srv w S :
  is_dir w lf = false -> ids_of_lines (text_lines (default EmptyString (w_files w !! lf))) ∅ = Ok S ->
  load_existing_ids lf srv w = (Ok S, w).
Proof.
  intros Hd HS. destruct (w_files w !! lf) as [c|] eqn:Hc; [by eapply load_existing_ids_file|].
  simpl in HS. injection HS as <-.
  unfold load_existing_ids, mbind, path_exists, is_file. rewrite Hc, Hd. by rewrite bool_decide_eq_false_2.
Qed.

Lemma ids_of_lines_app l1 l2 S :
  ids_of_lines (l1 ++ l2) S = (let? S1 := ids_of_lines l1 S in ids_of_lines l2 S1).
Proof.
  revert S. induction l1 as [|l l1 IH]; intros S; simpl; [done|].
  destruct (line_id l) as [o|e]; simpl; [apply IH|done].
Qed.

(** A ledger the program can extend: it ends with a line feed and has no
    two records with the same id. *)
Definition ledger_ok (o : option string) : Prop :=
  match o with None => True | Some c => ends_nl c = true /\ NoDup (record_ids c) end.

Context `{!JsonLibLaws}.

(** The line of a well-formed record with an int id gives that id. *)
Lemma line_id_record a i :
  py_wf a -> article_id a = Ok i -> line_id (record_line a) = Ok (Some i).
Proof.
  intros Hwf Hid. unfold line_id. rewrite record_line_strip.
  destruct (String.eqb_spec (json_dumps a) EmptyString) as [E|_];
    [by apply dumps_nonempty in E|].
  rewrite loads_dumps by done. cbn [res_bind]. unfold article_id in Hid. by rewrite Hid.
Qed.

(** A record appended after a line feed is one more line. *)
Lemma text_lines_record c a :
  ends_nl c = true -> text_lines (c ++ record_line a) = (text_lines c ++ [record_line a])%list.
Proof.
  intros Hc. apply ends_nl_spec in Hc as [->|[c' ->]].
  - change (EmptyString ++ record_line a) with (record_line a). by rewrite record_line_lines.
  - rewrite <-str_app_assoc. change (char LF ++ record_line a) with (String LF (record_line a)).
    by rewrite text_lines_app_lf, record_line_lines.
Qed.

Lemma record_ids_snoc c a i :
  ends_nl c = true -> py_wf a -> article_id a = Ok i ->
  record_ids (c ++ record_line a) = (record_ids c ++ [i])%list.
Proof.
  intros Hc Hwf Hid. unfold record_ids. rewrite text_lines_record, omap_app by done.
  simpl. by rewrite (line_id_record a i).
Qed.

Lemma ends_nl_record c a : ends_nl (c ++ record_line a) = true.
Proof. apply ends_nl_app_line. Qed.

Lemma text_lines_ledger_text c arts :
  ends_nl c = true -> text_lines (c ++ ledger_text arts) = (text_lines c ++ map record_line arts)%list.
Proof.
  revert c. induction arts as [|a arts IH]; intros c Hc; simpl.
  - by rewrite str_app_nil_r, app_nil_r.
  - rewrite str_app_assoc, IH by apply ends_nl_record.
    by rewrite text_lines_record, <-app_assoc.
Qed.

(** A ledger that loads still loads after records are appended to it. *)
Lemma ids_of_lines_ledger_text c arts zs S :
  ends_nl c = true -> Forall2 (fun a i => py_wf a /\ article_id a = Ok i) arts zs ->
  ids_of_lines (text_lines c) ∅ = Ok S -> exists S', ids_of_lines (text_lines (c ++ ledger_text arts)) ∅ = Ok S'.
Proof.
  intros Hc Hf HS. rewrite text_lines_ledger_text, ids_of_lines_app, HS by done. simpl.
  clear HS Hc. revert S. induction Hf as [|a i arts zs [Hwf Hid] _ IH]; intros S; simpl; [eauto|].
  rewrite (line_id_record a i Hwf Hid). simpl. apply IH.
Qed.

(** So the ids of a ledger followed by records are the ledger's ids
    followed by the records' ids, and the result ends with a line feed. *)
Lemma record_ids_ledger_text c arts zs :
  ends_nl c = true -> Forall2 (fun a i => py_wf a /\ article_id a = Ok i) arts zs ->
  record_ids (c ++ ledger_text arts) = (record_ids c ++ zs)%list /\ ends_nl (c ++ ledger_text arts) = true.
Proof.
  intros Hc Hf. revert c Hc. induction Hf as [|a i arts zs [Hwf Hid] _ IH]; intros c Hc; simpl.
  - by rewrite str_app_nil_r, app_nil_r.
  - rewrite str_app_assoc. destruct (IH (c ++ record_line a)) as [-> ->]; [apply ends_nl_record|].
    by rewrite (record_ids_snoc c a i), <-app_assoc.
Qed.
End ledger.

#[export] Hint Resolve reqs_load_existing_ids : reqs.

(** ** A concrete ledger *)
(** A ledger line that is JSON but not an object with an integer id is not
    skipped: [article["id"]] on a list raises [TypeError], which the
    [except] of line 46 does not catch. *)
Example load_existing_ids_type_error :
  load_existing_ids (list_path "politics") (fun _ => None)
    (mk_world {[ list_path "politics" := "[1]" ++ char LF ]} ∅ []) =
  (Err (TypeError "list indices must be integers or slices, not str"),
   mk_world {[ list_path "politics" := "[1]" ++ char LF ]} ∅ []).
Proof. vm_compute. reflexivity. Qed.
