(* ===== verification/ListCmd.v ===== *)
(** * ListCmd: the [list] subcommand, [cmd_list] (lines 59-124)

    [cmd_list] is modelled as the code composes it:
    - [list_file.parent.mkdir(...)] and, for [--rescrape], the deletion of
      an existing ledger (lines 61-66);
    - [load_existing_ids] (line 68) and the cutoff [parse_date(args.before)]
      when [args.before] is a non-empty string (line 70);
    - the first page, [totalPage] and [total] (lines 73-77);
    - [open("a")] on the ledger and the page loop over
      [range(1, total_page + 1)] (lines 85-122): [page_loop] fetches each
      page after the first, after a sleep, and runs the article loop;
    - [article_loop] (lines 93-115): [article_candidate] is the id of line
      94 and the date filter of lines 97-102; the dedup test of line 105;
      the write, the set update and the counter of lines 108-110; and the
      article limit of lines 112-115, checked after the write;
    - the page limit of lines 120-122, checked after the page;
    - the final report (line 124).
    Every [print] is a trace event with the code's text.

    The proofs are organised in Sections: [log] gives the loops their
    specification by the invariant [log_inv]; [cmd_list_thm] derives the
    ledger properties of a whole run from it ([cmd_list_log]); [rerun]
    replays a completed run to prove that a second run writes nothing. *)

From S2P Require Import Prelude Text PyObj JsonLib CJson DateTime World Ledger.
From Stdlib Require Import Ascii String.
Local Open Scope string_scope.
Local Open Scope py_scope.

(** The namespace [args] of [cmd_list]: [--pages] and [--articles] are
    [None] when absent, as in argparse. *)
Record list_args := mk_list_args {
  la_category : string;
  la_pages : option Z;
  la_articles : option Z;
  la_before : option string;
  la_rescrape : bool
}.

(** [range(lo, hi)]. *)
Definition py_range (lo hi : Z) : list Z :=
  map (fun k => lo + Z.of_nat k)%Z (seq 0 (Z.to_nat (hi - lo))).

Definition section_params (category : string) (page : Z) : list (string * pyval) :=
  [("section", PStr category); ("page", PInt page)].

Section list_cmd.
Context `{JsonLib} `{DateUtil}.

(** Lines 97-102: whether the date filter skips [article]. *)
Definition cutoff_skip (before_dt : option datetime) (article : pyval) : result exn bool :=
  match before_dt with
  | None => Ok false
  | Some bdt =>
      let? pub_str := py_dict_get article "publishTime" (PStr "") in
      if py_truthy pub_str then
        let? pub_dt := parse_date pub_str in
        dt_ge pub_dt bdt
      else Ok false
  end.

(** Lines 94-102: the id of [article], unless the date filter skips it.
    The id is computed first, so an article with a bad id raises even
    when the filter would skip it. *)
Definition article_candidate (before_dt : option datetime) (article : pyval)
    : result exn (option Z) :=
  let? aid := article_id article in
  let? skip := cutoff_skip before_dt article in
  if skip then Ok None else Ok (Some aid).

Definition article_limit_msg (al : Z) : string :=
  "Reached article limit (" ++ z_to_str al ++ "). Stopping.".

Definition page_limit_msg (pl : Z) : string :=
  "Reached page limit (" ++ z_to_str pl ++ "). Stopping.".

(** Lines 93-115. The result is the known ids, the counter, and [done]. *)
Fixpoint article_loop (list_file : string) (articles_limit : option Z)
    (before_dt : option datetime) (items : list pyval) (ids : gset Z) (new_count : Z)
    : M (gset Z * Z * bool) :=
  match items with
  | [] => mret (ids, new_count, false)
  | article :: rest =>
      let* cand := lift (article_candidate before_dt article) in
      match cand with
      | None => article_loop list_file articles_limit before_dt rest ids new_count
      | Some aid =>
          if decide (aid ∈ ids) then
            article_loop list_file articles_limit before_dt rest ids new_count
          else
            append_to list_file (record_line article) ;;
            let ids' := {[aid]} ∪ ids in
            let n' := (new_count + 1)%Z in
            match articles_limit with
            | Some al =>
                if (al <=? n')%Z then print (article_limit_msg al) ;; mret (ids', n', true)
                else article_loop list_file articles_limit before_dt rest ids' n'
            | None => article_loop list_file articles_limit before_dt rest ids' n'
            end
      end
  end.

(** Lines 86-122: one page per element of [pages]. *)
Fixpoint page_loop (category list_file : string) (pages_limit articles_limit : option Z)
    (before_dt : option datetime) (first_data : pyval) (pages : list Z)
    (ids : gset Z) (new_count : Z) : M (gset Z * Z) :=
  match pages with
  | [] => mret (ids, new_count)
  | page :: rest =>
      let* data :=
        if Z.eqb page 1 then mret first_data
        else sleep REQUEST_DELAY_MS ;; api_get "section-loadmore" (section_params category page) in
      let* items := lift (let? its := py_getitem data "items" in py_iter its) in
      let* res := article_loop list_file articles_limit before_dt items ids new_count in
      let '(ids', n', done) := res in
      if done then mret (ids', n')
      else
        match pages_limit with
        | Some pl =>
            if (pl <=? page)%Z then print (page_limit_msg pl) ;; mret (ids', n')
            else page_loop category list_file pages_limit articles_limit before_dt first_data rest ids' n'
        | None => page_loop category list_file pages_limit articles_limit before_dt first_data rest ids' n'
        end
  end.

(** Line 70: [parse_date(args.before) if args.before else None]. *)
Definition before_cutoff (before : option string) : result exn (option datetime) :=
  match before with
  | Some s =>
      if String.eqb s EmptyString then Ok None
      else let? d := parse_date (PStr s) in Ok (Some d)
  | None => Ok None
  end.

Definition done_msg (category : string) (n : Z) : string :=
  "Done. Collected " ++ z_to_str n ++ " new articles for '" ++ category ++ "'.".

Definition cmd_list (args : list_args) : M unit :=
  let category := la_category args in
  let list_file := list_path category in
  mkdir_parents (parent list_file) ;;
  (if la_rescrape args then
     let* ex := path_exists list_file in
     if ex then unlink list_file ;; print ("Deleted existing " ++ list_file) else mret tt
   else mret tt) ;;
  let* existing_ids := load_existing_ids list_file in
  let* before_dt := lift (before_cutoff (la_before args)) in
  print ("Fetching page 1 for category '" ++ category ++ "'...") ;;
  let* first_data := api_get "section-loadmore" (section_params category 1) in
  let* total_page := lift (py_getitem first_data "totalPage") in
  let* total_articles := lift (py_dict_get first_data "total" (PInt 0)) in
  print ("Category '" ++ category ++ "': " ++ py_str total_articles ++ " articles across "
         ++ py_str total_page ++ " pages") ;;
  open_append list_file ;;
  let* stop := lift (py_add_int total_page 1) in
  let* res :=
    page_loop category list_file (la_pages args) (la_articles args) before_dt first_data
      (py_range 1 stop) existing_ids 0 in
  print (done_msg category res.2).
End list_cmd.

(** ** The ledger a run appends to

    A run appends records one [f.write] at a time. [log_inv ids n w] says
    that the ledger [lf] of [w] is the ledger [c0] the run started from,
    followed by the records of [arts]: [n] of them, each a well-formed
    article that [article_candidate] accepts, with ids [zs] that are new
    and distinct, and [ids] is the set of the ids of [c0] and [zs]. It is
    the invariant of both loops. *)
Section log.
Context `{JsonLibLaws} `{DateUtil}.
Variables (lf : string) (before_dt : option datetime) (c0 : string).

Definition appended (arts : list pyval) (zs : list Z) : Prop :=
  Forall2 (fun a i => py_wf a /\ article_candidate before_dt a = Ok (Some i)) arts zs.

Definition log_inv (ids : gset Z) (n : Z) (w : world) : Prop :=
  exists arts zs,
    w_files w !! lf = Some (c0 ++ ledger_text arts) /\
    appended arts zs /\
    NoDup (record_ids c0 ++ zs) /\
    ids = list_to_set (record_ids c0 ++ zs) /\
    n = Z.of_nat (List.length arts).

(** [--articles]: [lim_ok] holds while the loop goes on, [lim_bound]
    when it has stopped. *)
Definition lim_ok (al : option Z) (n : Z) : Prop :=
  match al with Some a => n = 0 \/ n < a | None => True end%Z.
Definition lim_bound (al : option Z) (n : Z) : Prop :=
  match al with Some a => n <= Z.max a 1 | None => True end%Z.

Definition run_inv (al : option Z) (w : world) : Prop :=
  exists ids n, log_inv ids n w /\ lim_bound al n.

Definition article_post (al : option Z) (r : result exn (gset Z * Z * bool)) (w : world) : Prop :=
  match r with
  | Ok (ids, n, done) => log_inv ids n w /\ (if done then lim_bound al n else lim_ok al n)
  | Err _ => run_inv al w
  end.

Lemma log_inv_record ids n e w : log_inv ids n (record e w) <-> log_inv ids n w.
Proof. done. Qed.

Lemma lim_ok_bound al n : lim_ok al n -> lim_bound al n.
Proof. destruct al; simpl; lia. Qed.

(** The article limit after one more record. *)
Lemma lim_step (al : Z) n :
  lim_ok (Some al) n -> if (al <=? n + 1)%Z then lim_bound (Some al) (n + 1) else lim_ok (Some al) (n + 1).
Proof. simpl. intros Hn. destruct (Z.leb_spec al (n + 1)); lia. Qed.

Lemma article_candidate_id a i : article_candidate before_dt a = Ok (Some i) -> article_id a = Ok i.
Proof.
  unfold article_candidate. destruct (article_id a); simpl; [|done].
  destruct (cutoff_skip _ _) as [[]|]; simpl; congruence.
Qed.

Lemma article_candidate_cutoff a i :
  article_candidate before_dt a = Ok (Some i) -> cutoff_skip before_dt a = Ok false.
Proof.
  unfold article_candidate. destruct (article_id a); simpl; [|done].
  destruct (cutoff_skip _ _) as [[]|]; simpl; congruence.
Qed.

(** Line 108 on a new id keeps the invariant. *)
Lemma log_inv_append ids n w a i :
  log_inv ids n w -> py_wf a -> article_candidate before_dt a = Ok (Some i) -> i ∉ ids ->
  log_inv ({[i]} ∪ ids) (n + 1)
    (set_files (<[lf := default EmptyString (w_files w !! lf) ++ record_line a]> (w_files w)) w).
Proof.
  intros (arts & zs & Hf & Hap & Hnd & -> & ->) Hwf Hc Hi.
  exists (arts ++ [a])%list, (zs ++ [i])%list. simpl. rewrite Hf, lookup_insert_eq. simpl. split_and!.
  - by rewrite ledger_text_snoc, str_app_assoc.
  - apply Forall2_app; [done|]. by repeat constructor.
  - rewrite app_assoc. apply NoDup_snoc. split; [done|]. by rewrite elem_of_list_to_set in Hi.
  - rewrite app_assoc, list_to_set_snoc. apply leibniz_equiv. set_solver.
  - rewrite length_app. simpl. lia.
Qed.

(** Lines 93-115 keep the invariant, on every path, raising or not. *)
Lemma article_loop_spec al items ids n srv w :
  Forall py_wf items -> log_inv ids n w -> lim_ok al n ->
  vrf (article_loop lf al before_dt items ids n) srv w (article_post al).
Proof.
  revert ids n w. induction items as [|a items IH]; intros ids n w Hwf Hinv Hlim; simpl.
  { apply vrf_ret. by split. }
  apply Forall_cons in Hwf as [Ha Hwf].
  vrf_step. vrf_step. destruct (article_candidate _ a) as [[i|]|e] eqn:Hc; simpl;
    [|by apply IH|exists ids, n; auto using lim_ok_bound].
  destruct (decide (i ∈ ids)); [by apply IH|].
  pose proof (log_inv_append ids n w a i Hinv Ha Hc ltac:(done)) as Hinv'.
  vrf_step. vrf_step. simpl.
  destruct al as [al|]; [|by apply IH].
  pose proof (lim_step al n Hlim) as Hl. destruct (al <=? n + 1)%Z.
  - vrf_step. vrf_step. vrf_step. by split.
  - by apply IH.
Qed.

(** [open(list_file, "a")] (line 85) on the ledger the run started from. *)
Lemma log_inv_start w w' :
  (w_files w !! lf = None /\ c0 = EmptyString) \/
  (w_files w !! lf = Some c0 /\ NoDup (record_ids c0)) ->
  w_files w' = (if w_files w !! lf then w_files w else <[lf := EmptyString]> (w_files w)) ->
  NoDup (record_ids c0) /\ log_inv (list_to_set (record_ids c0)) 0 w'.
Proof.
  intros [[Hn Hc]|[Hs Hnd]] Hw'; rewrite Hn in Hw' || rewrite Hs in Hw'.
  - rewrite Hc. split; [constructor|]. exists [], []. rewrite Hw', lookup_insert_eq, Hc, !app_nil_r.
    split_and!; [done|constructor|constructor|done|done].
  - split; [done|]. exists [], []. rewrite Hw', Hs, str_app_nil_r, !app_nil_r.
    split_and!; [done|constructor|done|done|done].
Qed.

Lemma items_wf d l : py_wf d -> (let? its := py_getitem d "items" in py_iter its) = Ok l -> Forall py_wf l.
Proof.
  intros Hd. destruct (py_getitem d "items") eqn:E; simpl; [|done].
  apply py_iter_wf. by eapply py_getitem_wf.
Qed.

(** Lines 86-122 keep the invariant. *)
Definition page_post (al : option Z) (r : result exn (gset Z * Z)) (w : world) : Prop :=
  match r with
  | Ok (ids, n) => log_inv ids n w /\ lim_bound al n
  | Err _ => run_inv al w
  end.

Lemma page_loop_spec category pl al first_data pages ids n srv w :
  py_wf first_data -> log_inv ids n w -> lim_ok al n ->
  vrf (page_loop category lf pl al before_dt first_data pages ids n) srv w (page_post al).
Proof.
  revert ids n w. induction pages as [|page pages IH]; intros ids n w Hfd Hinv Hlim; simpl.
  { apply vrf_ret. simpl. auto using lim_ok_bound. }
  apply (vrf_bind_post _ _ _ _ (fun r w' => log_inv ids n w' /\ forall d, r = Ok d -> py_wf d)).
  { destruct (page =? 1)%Z; [vrf_step; by split; [|intros ? [= <-]]|].
    vrf_step. vrf_step. simpl. apply vrf_api_get; intros; split; auto; congruence. }
  2: { intros e w' [Hi _]. exists ids, n. auto using lim_ok_bound. }
  intros data w' [Hi Hd]. specialize (Hd data eq_refl).
  vrf_step. vrf_step. destruct (let? its := _ in _) as [items|e] eqn:Hit; simpl;
    [|exists ids, n; auto using lim_ok_bound].
  apply (vrf_bind_post _ _ _ _ (article_post al)); [apply article_loop_spec; eauto using items_wf|..];
    [|by intros].
  intros [[ids' n'] []] w'' [Hi' Hl]; simpl; [apply vrf_ret; by split|].
  destruct pl as [pl|]; [destruct (pl <=? page)%Z|]; [|by apply IH..].
  vrf_step. vrf_step. vrf_step. simpl. auto using lim_ok_bound.
Qed.
End log.

(** ** What a run of [cmd_list] leaves *)
Section cmd_list_thm.
Context `{JsonLibLaws} `{DateUtil}.

(** The ledger a run extends: none after [--rescrape]. *)
Definition start_ledger (args : list_args) (w : world) : string :=
  if la_rescrape args then EmptyString
  else default EmptyString (w_files w !! list_path (la_category args)).

(** Either the run stopped before line 85 with the ledger untouched or
    deleted, or the ledger is the start ledger followed by records that
    [log_inv] describes, within the article limit. *)
Definition list_post (args : list_args) (w w' : world) : Prop :=
  let lf := list_path (la_category args) in
  (w_files w' !! lf = w_files w !! lf \/ (la_rescrape args = true /\ w_files w' !! lf = None)) \/
  exists bdt, before_cutoff (la_before args) = Ok bdt /\
    run_inv lf bdt (start_ledger args w) (la_articles args) w'.

(** Lines 62-66: after the rescrape block, the ledger is the start ledger
    or there is none and the start ledger is empty. *)
Lemma rescrape_block_spec args srv w1 w :
  w_files w1 = w_files w ->
  (la_rescrape args = false -> ledger_ok (w_files w !! list_path (la_category args))) ->
  let lf := list_path (la_category args) in
  let c0 := start_ledger args w in
  vrf (if la_rescrape args then
         let* ex := path_exists lf in
         if ex then unlink lf ;; print ("Deleted existing " ++ lf) else mret tt
       else mret tt) srv w1
    (fun r w2 => (w_files w2 !! lf = w_files w !! lf \/ (la_rescrape args = true /\ w_files w2 !! lf = None)) /\
       (r = Ok tt -> (w_files w2 !! lf = None /\ c0 = EmptyString) \/
                     (w_files w2 !! lf = Some c0 /\ ends_nl c0 = true /\ NoDup (record_ids c0)))).
Proof.
  intros Hw1 Hok lf c0. subst lf c0. unfold start_ledger. destruct (la_rescrape args).
  - set (lf := list_path (la_category args)).
    vrf_step. vrf_step. destruct (is_file w1 lf) eqn:Ef; simpl.
    + vrf_step. apply vrf_unlink; [|intros; split; [left; congruence|done]].
      intros _. vrf_step. simpl. rewrite lookup_delete_eq. auto.
    + destruct (is_dir w1 lf); simpl.
      * vrf_step. apply vrf_unlink; [by rewrite Ef|]. intros. split; [left; congruence|done].
      * vrf_step. simpl. rewrite is_file_false by done. auto.
  - vrf_step. rewrite Hw1. split; [by left|intros _].
    specialize (Hok eq_refl). destruct (w_files w !! _) as [c|]; simpl in *; [right|left]; naive_solver.
Qed.

Theorem cmd_list_log args srv w :
  (la_rescrape args = false -> ledger_ok (w_files w !! list_path (la_category args))) ->
  vrf (cmd_list args) srv w (fun _ => list_post args w).
Proof.
  intros Hok. unfold cmd_list, list_post.
  set (lf := list_path (la_category args)). set (c0 := start_ledger args w).
  apply (vrf_bind_post _ _ _ _ (fun _ w1 => w_files w1 = w_files w)); [by apply vrf_mkdir_parents|..];
    [|intros e w1 Hw1; left; left; by rewrite Hw1].
  intros _ w1 Hw1.
  eapply vrf_bind_post; [by apply rescrape_block_spec|..]; [|intros e w2 [? _]; by left].
  intros [] w2 [Hkeep Hstart]. specialize (Hstart eq_refl).
  eapply vrf_bind_post; [apply load_existing_ids_ok|..]; [|intros e w3 [Hw3 _]; subst w3; by left].
  intros S w3 [Hw3 HS]. subst w3. specialize (HS S eq_refl).
  assert (S = list_to_set (record_ids c0)) as ->.
  { rewrite HS. unfold lf, c0 in *. destruct Hstart as [[-> ->]|[-> _]]; done. }
  vrf_step. vrf_step. destruct (before_cutoff _) as [bdt|e] eqn:Hb; simpl; [|by left].
  vrf_step. vrf_step. vrf_step. apply vrf_api_get; [intros first_data Hfd|by left].
  vrf_step. vrf_step. destruct (py_getitem first_data _) as [tp|e]; simpl; [|by left].
  vrf_step. vrf_step. destruct (py_dict_get first_data _ _) as [ta|e]; simpl; [|by left].
  vrf_step. vrf_step. simpl. apply vrf_bind. apply vrf_open_append; [|by left].
  intros w4 Hw4. simpl in Hw4.
  destruct (log_inv_start lf bdt c0 w2 w4) as [Hnd Hinv]; [naive_solver|done|].
  assert (Hrun : run_inv lf bdt c0 (la_articles args) w4).
  { exists (list_to_set (record_ids c0)), 0%Z. split; [done|]. destruct (la_articles args); simpl; lia. }
  vrf_step. vrf_step. destruct (py_add_int tp 1) as [stop|e]; simpl; [|right; by exists bdt].
  eapply vrf_bind_post; [apply page_loop_spec; [done|done|by destruct (la_articles args); simpl; auto]|..];
    [|intros e w5 ?; right; by exists bdt].
  intros [ids5 n5] w5 [? ?]. vrf_step. right. exists bdt. split; [done|]. by exists ids5, n5.
Qed.

(** What the ledger is after a run, in the three cases of [list_post],
    with [P] on the records the run appended. *)
Definition ledger_after (args : list_args) (w w' : world) (P : list pyval -> Prop) : Prop :=
  let lf := list_path (la_category args) in
  w_files w' !! lf = w_files w !! lf \/ (la_rescrape args = true /\ w_files w' !! lf = None) \/
  exists arts, w_files w' !! lf = Some (start_ledger args w ++ ledger_text arts) /\ P arts.

Lemma list_post_after args w w' (P : list pyval -> Prop) :
  list_post args w w' ->
  (forall bdt arts zs, before_cutoff (la_before args) = Ok bdt -> appended bdt arts zs ->
     NoDup (record_ids (start_ledger args w) ++ zs) ->
     lim_bound (la_articles args) (Z.of_nat (List.length arts)) -> P arts) ->
  ledger_after args w w' P.
Proof.
  intros [[?|?]|(bdt & Hb & ids & n & (arts & zs & Hf & Hap & Hnd & _ & ->) & Hl)] HP;
    [by left|by right; left|].
  right; right. exists arts. split; [done|]. eauto.
Qed.

Lemma appended_ids bdt arts zs :
  appended bdt arts zs -> Forall2 (fun a i => py_wf a /\ article_id a = Ok i) arts zs.
Proof. intros Hap. eapply Forall2_impl; [exact Hap|]. intros a i [? ?%article_candidate_id]. done. Qed.

Lemma start_ledger_ends_nl args w :
  (la_rescrape args = false -> ledger_ok (w_files w !! list_path (la_category args))) ->
  ends_nl (start_ledger args w) = true.
Proof.
  unfold start_ledger. destruct (la_rescrape args); [done|].
  intros Hok. specialize (Hok eq_refl). by destruct (w_files w !! _) as [c|]; [apply Hok|].
Qed.

(** The article filter of lines 97-102, as the spec states it: an article
    with a falsy or missing [publishTime], or one published before the
    cutoff. *)
Definition published_before (bdt : datetime) (a : pyval) : Prop :=
  match py_dict_get a "publishTime" (PStr "") with
  | Ok pub => py_truthy pub = false \/ exists d, parse_date pub = Ok d /\ (dt_utc d < dt_utc bdt)%Z
  | Err _ => False
  end.

Lemma cutoff_skip_false s bdt a :
  parse_date (PStr s) = Ok bdt -> cutoff_skip (Some bdt) a = Ok false -> published_before bdt a.
Proof.
  intros Hb Hs. unfold cutoff_skip, published_before in Hs |- *.
  destruct (py_dict_get a _ _) as [pub|]; simpl in Hs |- *; [|done].
  destruct (py_truthy pub); [|by left]. right.
  destruct (parse_date pub) as [d|] eqn:Hd; simpl in Hs; [|done].
  rewrite (dt_ge_parsed _ _ _ _ Hd Hb) in Hs. injection Hs as Hlt%Z.leb_gt. eauto.
Qed.

(** C1: Every run of [list], whatever the server answers and whether it
    completes or raises, leaves a ledger that ends with a line feed and
    has no two records with the same id, if it started from one. *)
Theorem cmd_list_ledger_ok args srv w :
  ledger_ok (w_files w !! list_path (la_category args)) ->
  ledger_ok (w_files (cmd_list args srv w).2 !! list_path (la_category args)).
Proof.
  intros Hok. pose proof (vrf_final _ _ _ _ (cmd_list_log args srv w (fun _ => Hok))) as Hp.
  apply (list_post_after _ _ _ (fun arts => exists zs,
    Forall2 (fun a i => py_wf a /\ article_id a = Ok i) arts zs /\
    NoDup (record_ids (start_ledger args w) ++ zs))) in Hp;
    [|intros bdt arts zs _ Hap Hnd _; eauto using appended_ids].
  destruct Hp as [->|[[_ ->]|(arts & -> & zs & Hf & Hnd)]]; [done|done|].
  simpl. by destruct (record_ids_ledger_text _ _ _ (start_ledger_ends_nl args w (fun _ => Hok)) Hf) as [-> ->].
Qed.

(** C3: Without [--rescrape], a run only appends to the ledger: the old
    ledger is a prefix of the new one. *)
Theorem cmd_list_append_only args srv w c :
  la_rescrape args = false -> ledger_ok (w_files w !! list_path (la_category args)) ->
  w_files w !! list_path (la_category args) = Some c ->
  exists s, w_files (cmd_list args srv w).2 !! list_path (la_category args) = Some (c ++ s).
Proof.
  intros Hr Hok Hc. pose proof (vrf_final _ _ _ _ (cmd_list_log args srv w (fun _ => Hok))) as Hp.
  apply (list_post_after _ _ _ (fun _ => True)) in Hp; [|done].
  destruct Hp as [->|[[Hr' _]|(arts & -> & _)]]; [exists EmptyString; by rewrite str_app_nil_r|congruence|].
  exists (ledger_text arts). unfold start_ledger. by rewrite Hr, Hc.
Qed.

(** C4: With [--before s], every record a run appends has a falsy or
    missing [publishTime], or one strictly before the cutoff [s]. *)
Theorem cmd_list_cutoff args srv w s bdt :
  (la_rescrape args = false -> ledger_ok (w_files w !! list_path (la_category args))) ->
  la_before args = Some s -> s <> EmptyString -> parse_date (PStr s) = Ok bdt ->
  ledger_after args w (cmd_list args srv w).2 (Forall (published_before bdt)).
Proof.
  intros Hok Hs Hne Hb. apply list_post_after; [exact (vrf_final _ _ _ _ (cmd_list_log args srv w Hok))|].
  intros bdt' arts zs Hb' Hap _ _. rewrite Hs in Hb'. unfold before_cutoff in Hb'.
  destruct (String.eqb_spec s EmptyString); [done|]. rewrite Hb in Hb'. injection Hb' as <-.
  eapply Forall2_Forall_fst; [exact Hap|]. intros a i [_ ?%article_candidate_cutoff].
  by eapply cutoff_skip_false.
Qed.

(** C5: With [--articles al], a run appends at most [max al 1] records:
    the limit is checked after each write, so even [--articles 0] writes
    one. *)
Theorem cmd_list_article_limit args srv w al :
  (la_rescrape args = false -> ledger_ok (w_files w !! list_path (la_category args))) ->
  la_articles args = Some al ->
  ledger_after args w (cmd_list args srv w).2 (fun arts => (Z.of_nat (List.length arts) <= Z.max al 1)%Z).
Proof.
  intros Hok Hal. apply list_post_after; [exact (vrf_final _ _ _ _ (cmd_list_log args srv w Hok))|].
  intros bdt arts zs _ _ _ Hl. by rewrite Hal in Hl.
Qed.
End cmd_list_thm.

(** ** Running [list] twice

    A run of [list] without [--articles] that completes has seen every
    article of the pages it fetched; each is in the ledger or was skipped
    by the date filter. A second run with the same arguments against the
    same server fetches the same pages, finds every id known, and writes
    nothing. *)
Section rerun.
Context `{JsonLibLaws} `{DateUtil}.

Lemma article_loop_touches lf al bdt items ids n : touches_only lf (article_loop lf al bdt items ids n).
Proof.
  revert ids n. induction items as [|a items IH]; intros ids n; simpl; [auto with touches|].
  apply touches_bind; [auto with touches|]. intros [aid|]; [|auto].
  destruct (decide (aid ∈ ids)); [auto|].
  apply touches_bind; [auto with touches|]. intros _.
  destruct al as [al|]; [destruct (al <=? _)%Z|]; auto with touches.
Qed.

Lemma fetch_touches lf cat page fd :
  touches_only lf (if (page =? 1)%Z then mret fd
                   else sleep REQUEST_DELAY_MS ;; api_get "section-loadmore" (section_params cat page)).
Proof. destruct (page =? 1)%Z; auto with touches. Qed.

Lemma page_loop_touches cat lf pl al bdt fd pages ids n :
  touches_only lf (page_loop cat lf pl al bdt fd pages ids n).
Proof.
  revert ids n. induction pages as [|page pages IH]; intros ids n; simpl; [auto with touches|].
  apply touches_bind; [apply fetch_touches|]. intros data.
  apply touches_bind; [auto with touches|]. intros items.
  apply touches_bind; [apply article_loop_touches|]. intros [[ids' n'] []]; [auto with touches|].
  destruct pl as [pl|]; [destruct (pl <=? page)%Z|]; auto with touches.
Qed.

(** The page a step of [page_loop] works on does not depend on the world. *)
Lemma fetch_uniform cat page fd srv :
  exists r, forall w, exists w', 
    (if (page =? 1)%Z then mret fd
     else sleep REQUEST_DELAY_MS ;; api_get "section-loadmore" (section_params cat page)) srv w = (r, w') /\
    w_files w' = w_files w /\ w_dirs w' = w_dirs w.
Proof.
  destruct (page =? 1)%Z; [exists (Ok fd); intros w; by exists w|].
  destruct (api_get_uniform "section-loadmore" (section_params cat page) srv) as [r Hr].
  exists r. intros w. eexists. unfold mbind, sleep. rewrite Hr. by split.
Qed.

(** Without an article limit, the article loop of a run that completes
    only adds ids, and a replay that knows them all writes nothing. *)
Lemma article_loop_rerun lf bdt items ids n srv w ids' n' d w' :
  article_loop lf None bdt items ids n srv w = (Ok (ids', n', d), w') ->
  ids ⊆ ids' /\ d = false /\
  forall K m v, ids' ⊆ K -> article_loop lf None bdt items K m srv v = (Ok (K, m, false), v).
Proof.
  revert ids n w. induction items as [|a items IH]; intros ids n w; cbn [article_loop].
  { intros [= <- <- <- _]. split_and!; [done|done|]. by intros. }
  rewrite mbind_lift. destruct (article_candidate bdt a) as [[i|]|e] eqn:Hc; [| |done].
  - destruct (decide (i ∈ ids)).
    + intros (Hsub & -> & Hre)%IH. split_and!; [done|done|].
      intros K m v HK. cbn [article_loop]. rewrite mbind_lift.
      rewrite decide_True by set_solver. by apply Hre.
    + intros Hrun. unfold mbind at 1, append_to in Hrun. apply IH in Hrun as (Hsub & -> & Hre).
      split_and!; [set_solver|done|].
      intros K m v HK. cbn [article_loop]. rewrite mbind_lift.
      rewrite decide_True by set_solver. by apply Hre.
  - intros (Hsub & -> & Hre)%IH. split_and!; [done|done|].
    intros K m v HK. cbn [article_loop]. rewrite mbind_lift. by apply Hre.
Qed.

Lemma page_loop_rerun cat lf pl bdt fd pages ids n srv w ids' n' w' :
  page_loop cat lf pl None bdt fd pages ids n srv w = (Ok (ids', n'), w') ->
  ids ⊆ ids' /\
  forall K m v, ids' ⊆ K -> exists v', page_loop cat lf pl None bdt fd pages K m srv v = (Ok (K, m), v') /\
    w_files v' = w_files v /\ w_dirs v' = w_dirs v.
Proof.
  revert ids n w. induction pages as [|page pages IH]; intros ids n w Hrun.
  { cbn [page_loop] in Hrun. injection Hrun as <- <- _. split; [done|]. intros K m v _. by exists v. }
  cbn [page_loop] in Hrun.
  destruct (fetch_uniform cat page fd srv) as [r Hr].
  destruct (Hr w) as (w1 & Hw1 & _). rewrite (mbind_det _ _ _ _ _ _ Hw1) in Hrun.
  destruct r as [data|e]; [|done].
  rewrite mbind_lift in Hrun.
  destruct (let? its := py_getitem data "items" in py_iter its) as [items|e] eqn:Hit; [|done].
  destruct (article_loop lf None bdt items ids n srv w1) as [[[[ids1 n1] d]|e] w2] eqn:Ha;
    rewrite (mbind_det _ _ _ _ _ _ Ha) in Hrun; [|done].
  destruct (article_loop_rerun _ _ _ _ _ _ _ _ _ _ _ Ha) as (Hsub1 & -> & Hre1).
  assert (Hstep : forall K m v, ids1 ⊆ K -> exists v1,
    page_loop cat lf pl None bdt fd (page :: pages) K m srv v =
      (if pl is Some p then if (p <=? page)%Z then (Ok (K, m), record (EPrint (page_limit_msg p)) v1)
        else page_loop cat lf pl None bdt fd pages K m srv v1
       else page_loop cat lf pl None bdt fd pages K m srv v1) /\
    w_files v1 = w_files v /\ w_dirs v1 = w_dirs v).
  { intros K m v HK. destruct (Hr v) as (v1 & Hv1 & Hf1 & Hd1). exists v1. split; [|done].
    cbn [page_loop]. rewrite (mbind_det _ _ _ _ _ _ Hv1), mbind_lift, Hit.
    rewrite (mbind_det _ _ _ _ _ _ (Hre1 K m v1 HK)). simpl.
    destruct pl as [p|]; [destruct (p <=? page)%Z|]; reflexivity. }
  simpl in Hrun. destruct pl as [p|]; [destruct (p <=? page)%Z eqn:Hp|].
  - injection Hrun as <- <- _. split; [done|]. intros K m v HK.
    destruct (Hstep K m v HK) as (v1 & -> & Hf & Hd). by eexists.
  - apply IH in Hrun as (Hsub & Hre). split; [set_solver|]. intros K m v HK.
    destruct (Hstep K m v ltac:(set_solver)) as (v1 & -> & Hf & Hd).
    destruct (Hre K m v1 HK) as (v' & -> & Hf' & Hd'). exists v'. split_and!; congruence.
  - apply IH in Hrun as (Hsub & Hre). split; [set_solver|]. intros K m v HK.
    destruct (Hstep K m v ltac:(set_solver)) as (v1 & -> & Hf & Hd).
    destruct (Hre K m v1 HK) as (v' & -> & Hf' & Hd'). exists v'. split_and!; congruence.
Qed.

(** The second run, from what the first has established: the directories
    exist, the ledger loads to [S], the ledger can be opened, and every
    page replays without writing. *)
Lemma cmd_list_second_run args srv w1 c1 S bdt fd tp ta stop :
  la_articles args = None -> la_rescrape args = false ->
  (forall q, q ∈ path_prefixes (parent (list_path (la_category args))) -> q ∈ w_dirs w1 /\ is_file w1 q = false) ->
  w_files w1 !! list_path (la_category args) = Some c1 ->
  ids_of_lines (text_lines c1) ∅ = Ok S ->
  check_writable w1 (list_path (la_category args)) = None ->
  before_cutoff (la_before args) = Ok bdt ->
  (forall v, api_get "section-loadmore" (section_params (la_category args) 1) srv v =
     (Ok fd, record (EGet (API_BASE ++ "/" ++ "section-loadmore") (section_params (la_category args) 1)) v)) ->
  py_getitem fd "totalPage" = Ok tp -> py_dict_get fd "total" (PInt 0) = Ok ta -> py_add_int tp 1 = Ok stop ->
  (forall v, exists v', page_loop (la_category args) (list_path (la_category args)) (la_pages args) None bdt fd
       (py_range 1 stop) S 0 srv v = (Ok (S, 0%Z), v') /\ w_files v' = w_files v /\ w_dirs v' = w_dirs v) ->
  exists w2, cmd_list args srv w1 = (Ok tt, w2) /\ w_files w2 = w_files w1 /\
    last (w_trace w2) = Some (EPrint (done_msg (la_category args) 0)).
Proof.
  intros Hal Hre Hdirs Hc1 HS Hcw Hb Hapi Htp Hta Hstop Hpl.
  unfold cmd_list. rewrite Hal, Hre.
  rewrite (mbind_det _ _ _ _ _ _ (mkdir_each_noop _ _ _ Hdirs)), mbind_ret.
  rewrite (mbind_det _ _ _ _ _ _ (load_existing_ids_file _ srv _ _ _ Hc1 HS)).
  rewrite mbind_lift, Hb, mbind_print, (mbind_det _ _ _ _ _ _ (Hapi _)).
  rewrite mbind_lift, Htp, mbind_lift, Hta, mbind_print.
  erewrite mbind_det by (apply (open_append_existing _ c1); [exact Hcw|exact Hc1]).
  rewrite mbind_lift, Hstop.
  destruct (Hpl (record (EPrint ("Category '" ++ la_category args ++ "': " ++ py_str ta ++ " articles across "
      ++ py_str tp ++ " pages")) (record (EGet (API_BASE ++ "/" ++ "section-loadmore")
      (section_params (la_category args) 1)) (record (EPrint ("Fetching page 1 for category '"
      ++ la_category args ++ "'...")) w1)))) as (v' & Hv' & Hf & _).
  rewrite (mbind_det _ _ _ _ _ _ Hv'). simpl. eexists. split_and!; [reflexivity| |].
  - simpl. by rewrite Hf.
  - simpl. by rewrite last_snoc.
Qed.

Lemma valid_category_prefixes c :
  c ∈ VALID_CATEGORIES -> list_path c ∉ path_prefixes (parent (list_path c)).
Proof.
  intros Hc. repeat (apply elem_of_cons in Hc as [->|Hc]; [apply (bool_decide_unpack _); by vm_compute|]).
  by apply not_elem_of_nil in Hc.
Qed.

(** The ledger a completed [page_loop] leaves behind holds exactly the
    ids the loop returns, when the loop started from the ids of a
    [ledger_ok] ledger, with the file opened by [open(..., "a")]. *)
Lemma first_run_ledger lf bdt cat pl fd pages w wo wp S0 ids1 n1 srv :
  ledger_ok (w_files w !! lf) ->
  ids_of_lines (text_lines (default EmptyString (w_files w !! lf))) ∅ = Ok S0 ->
  w_files wo = (if w_files w !! lf then w_files w else <[lf := EmptyString]> (w_files w)) ->
  py_wf fd ->
  page_loop cat lf pl None bdt fd pages S0 0 srv wo = (Ok (ids1, n1), wp) ->
  exists c1, w_files wp !! lf = Some c1 /\ ids_of_lines (text_lines c1) ∅ = Ok ids1.
Proof.
  intros Hok HS0 Hfo Hfd Hpl.
  set (c0 := default EmptyString (w_files w !! lf)) in *.
  assert (Hc0 : ends_nl c0 = true /\
    ((w_files w !! lf = None /\ c0 = EmptyString) \/ (w_files w !! lf = Some c0 /\ NoDup (record_ids c0)))).
  { unfold c0. destruct (w_files w !! lf) as [c|]; simpl in *; [|split; [done|by left]].
    destruct Hok as [He Hn]. split; [done|by right]. }
  destruct Hc0 as (Hnl & Hstart).
  assert (HS0' : S0 = list_to_set (record_ids c0)).
  { apply ids_of_lines_ok in HS0. rewrite HS0, (left_id_L ∅ union). reflexivity. }
  destruct (log_inv_start lf bdt c0 _ wo Hstart Hfo) as [_ Hinv0].
  pose proof (page_loop_spec lf bdt c0 cat pl None fd pages S0 0 srv wo Hfd ltac:(by rewrite HS0') I) as Hspec.
  unfold vrf in Hspec. rewrite Hpl in Hspec. destruct Hspec as [(arts & zs & Hfp & Hap & _ & Hids & _) _].
  destruct (record_ids_ledger_text c0 arts zs Hnl (appended_ids _ _ _ Hap)) as [Hrec _].
  destruct (ids_of_lines_ledger_text c0 arts zs S0 Hnl (appended_ids _ _ _ Hap) HS0) as [S' HS'].
  exists (c0 ++ ledger_text arts). split; [done|]. rewrite HS'. f_equal.
  apply ids_of_lines_ok in HS' as ->. rewrite Hids.
  change (omap _ (text_lines (c0 ++ ledger_text arts))) with (record_ids (c0 ++ ledger_text arts)).
  rewrite Hrec, (left_id_L ∅ union). reflexivity.
Qed.

(** C2: Idempotence of [list]: after a run without [--articles] and
    without [--rescrape] that completes, a second run with the same
    arguments against the same server completes too, leaves every file as
    it was and reports [Done. Collected 0 new articles]. The category is
    one that [parse_args] accepts, and the ledger satisfied [ledger_ok]
    before the first run. *)
Theorem cmd_list_idempotent args srv w w1 :
  la_articles args = None -> la_rescrape args = false -> la_category args ∈ VALID_CATEGORIES ->
  ledger_ok (w_files w !! list_path (la_category args)) ->
  cmd_list args srv w = (Ok tt, w1) ->
  exists w2, cmd_list args srv w1 = (Ok tt, w2) /\ w_files w2 = w_files w1 /\
    last (w_trace w2) = Some (EPrint (done_msg (la_category args) 0)).
Proof.
  intros Hal Hre Hcat Hok Hrun.
  unfold cmd_list in Hrun. rewrite Hal, Hre in Hrun.
  apply mbind_Ok_inv in Hrun as ([] & wm & Hmk & Hrun). cbv beta in Hrun. rewrite mbind_ret in Hrun.
  apply mbind_Ok_inv in Hrun as (S0 & wl & Hload & Hrun). apply load_existing_ids_Ok in Hload as [Hwl HS0]. subst wl.
  cbv beta in Hrun. rewrite mbind_lift in Hrun.
  destruct (before_cutoff (la_before args)) as [bdt|] eqn:Hb; [|done].
  rewrite mbind_print in Hrun.
  destruct (api_get_uniform "section-loadmore" (section_params (la_category args) 1) srv) as [r Hapi].
  rewrite (mbind_det _ _ _ _ _ _ (Hapi _)) in Hrun. destruct r as [fd|]; [|done].
  pose proof (api_get_wf _ _ _ _ _ _ (Hapi wm)) as Hfd.
  rewrite mbind_lift in Hrun. destruct (py_getitem fd "totalPage") as [tp|] eqn:Htp; [|done].
  rewrite mbind_lift in Hrun. destruct (py_dict_get fd "total" (PInt 0)) as [ta|] eqn:Hta; [|done].
  rewrite mbind_print in Hrun.
  apply mbind_Ok_inv in Hrun as ([] & wo & Hopen & Hrun). cbv beta in Hrun.
  rewrite mbind_lift in Hrun. destruct (py_add_int tp 1) as [stop|] eqn:Hstop; [|done].
  apply mbind_Ok_inv in Hrun as ([ids1 n1] & wp & Hpl & Hrun). cbv beta in Hrun.
  injection Hrun as <-.
  destruct (mkdir_each_ok _ _ _ _ Hmk) as (Hfm & Hps & _ & Hin).
  destruct (open_append_Ok _ _ _ _ Hopen) as (Hcw & Hdo & Hfo). simpl in Hcw, Hdo, Hfo.
  set (lf := list_path (la_category args)) in *.
  rewrite <-Hfm in Hok.
  destruct (first_run_ledger lf bdt (la_category args) (la_pages args) fd (py_range 1 stop) wm wo wp S0 ids1 n1 srv
    Hok HS0 Hfo Hfd Hpl) as (c1 & Hc1 & HS1).
  destruct (page_loop_touches (la_category args) lf (la_pages args) None bdt fd (py_range 1 stop) S0 0 srv wo)
    as [Hft Hdt]. rewrite Hpl in Hft, Hdt. cbv [snd] in Hft, Hdt.
  destruct (page_loop_rerun _ _ _ _ _ _ _ _ _ _ _ _ _ Hpl) as [_ Hre2].
  apply (cmd_list_second_run args srv _ c1 ids1 bdt fd tp ta stop); try done.
  - intros q Hq. assert (q <> lf) by (intros ->; by apply (valid_category_prefixes _ Hcat)).
    simpl. split; [rewrite Hdt, Hdo; by apply Hin|].
    unfold is_file. rewrite Hft by done. rewrite Hfo. specialize (Hps q Hq). unfold is_file in Hps.
    destruct (w_files wm !! lf); [by rewrite Hfm|rewrite lookup_insert_ne by done; by rewrite Hfm].
  - erewrite check_writable_dirs; [exact Hcw|]. simpl. by rewrite Hdt, Hdo.
  - intros v. by apply Hre2.
Qed.
End rerun.

(** ** The page limit

    [--pages P] bounds the requests of a run: page 1 is requested before
    the loop, and the loop requests page [p + 1] only after page [p] was
    below the limit. *)
Lemma py_range_cons lo hi : (lo < hi)%Z -> py_range lo hi = lo :: py_range (lo + 1) hi.
Proof.
  intros H. unfold py_range. replace (Z.to_nat (hi - lo)) with (S (Z.to_nat (hi - (lo + 1)))) by lia.
  cbn [seq map]. rewrite Z.add_0_r. f_equal. rewrite <-seq_shift, map_map. apply map_ext. intros; lia.
Qed.

Lemma py_range_nil lo hi : (hi <= lo)%Z -> py_range lo hi = [].
Proof. intros H. unfold py_range. by replace (Z.to_nat (hi - lo)) with 0%nat by lia. Qed.

Section requests.
Context `{JsonLib} `{DateUtil}.

Lemma reqs_bind_l0 {A B} k (m : M A) (f : A -> M B) :
  reqs_le 0 m -> (forall a, reqs_le k (f a)) -> reqs_le k (mbind m f).
Proof. apply (reqs_bind 0 k). Qed.

Lemma article_loop_reqs lf al bdt items ids n : reqs_le 0 (article_loop lf al bdt items ids n).
Proof.
  revert ids n. induction items as [|a items IH]; intros ids n; simpl; [auto with reqs|].
  apply reqs_bind0; [auto with reqs|]. intros [aid|]; [|apply IH].
  destruct (decide _); [apply IH|]. apply reqs_bind0; [auto with reqs|]. intros _.
  destruct al as [al|]; [destruct (al <=? _)%Z|]; auto with reqs.
Qed.

(** From page [k] on, the loop sends a request for [k] unless [k] is 1,
    and one for each further page up to the limit [P]. *)
Lemma page_loop_reqs cat lf P al bdt fd stop ids n k :
  (1 <= k)%Z ->
  reqs_le (Z.to_nat (Z.max P k - k) + (if (k =? 1)%Z then 0 else 1))
    (page_loop cat lf (Some P) al bdt fd (py_range k stop) ids n).
Proof.
  intros Hk. remember (Z.to_nat (stop - k)) as m eqn:Hm. revert k ids n Hk Hm.
  induction m as [|m IH]; intros k ids n Hk Hm.
  { rewrite py_range_nil by lia. eapply reqs_mono; [apply reqs_ret|lia]. }
  rewrite py_range_cons by lia. cbn [page_loop].
  rewrite Nat.add_comm. apply reqs_bind.
  { destruct (k =? 1)%Z; [auto with reqs|]. apply (reqs_bind 0 1); [auto with reqs|intros; apply reqs_api_get]. }
  intros data. apply reqs_bind_l0; [auto with reqs|]. intros items.
  apply reqs_bind_l0; [apply article_loop_reqs|]. intros [[ids' n'] []].
  { eapply reqs_mono; [apply reqs_ret|lia]. }
  destruct (P <=? k)%Z eqn:Hp.
  - eapply reqs_mono; [apply reqs_bind0; auto with reqs|lia].
  - eapply reqs_mono; [apply IH; lia|]. replace ((k + 1 =? 1)%Z) with false by lia. lia.
Qed.

(** C14: The page limit: with [--pages P], a run of [list] sends at most
    [max(P, 1)] requests, whether it completes or raises: page 1 before the
    loop (line 74), and a further page only while the pages done are below
    the limit (lines 120-122). The trace of the run extends the trace
    before it. *)
Theorem cmd_list_page_limit args P srv w :
  la_pages args = Some P ->
  exists tr, w_trace (cmd_list args srv w).2 = (w_trace w ++ tr)%list /\
    List.length (requests tr) <= Z.to_nat (Z.max P 1).
Proof.
  intros HP. revert srv w. unfold cmd_list. rewrite HP.
  apply (reqs_mono (1 + ((Z.to_nat (Z.max P 1 - 1) + 0) + 0))); [|lia].
  apply reqs_bind_l0; [auto with reqs|intros []].
  apply reqs_bind_l0; [|intros []].
  { destruct (la_rescrape args); [|auto with reqs]. apply reqs_bind0; [auto with reqs|]. intros []; auto with reqs. }
  do 3 (apply reqs_bind_l0; [auto with reqs|intros]).
  apply reqs_bind; [apply reqs_api_get|intros fd].
  do 5 (apply reqs_bind_l0; [auto with reqs|intros]).
  apply reqs_bind; [apply page_loop_reqs; lia|intros]. auto with reqs.
Qed.
End requests.

(** ** Concrete runs

    The spec's example: category [politics] has three pages of two
    articles; article [2p-1] of page [p] was published on 2025-12-30 and
    article [2p] on 2026-01-02. [w0] is an empty working directory, [w12]
    one whose ledger already holds articles 1 and 2. *)
Module Scenario.
Import IsoDate.

Definition article (i : Z) (t : string) : pyval :=
  PDict [("id", PInt i); ("title", PStr "x"); ("publishTime", PStr t)].

Definition old : string := "2025-12-30T10:00:00Z".
Definition new : string := "2026-01-02".

Definition page_json (p : Z) : pyval :=
  PDict [("items", PList [article (2 * p - 1) old; article (2 * p) new]);
         ("totalPage", PInt 3); ("total", PInt 6)].

Definition srv3 : server := fun rq =>
  match rq_params rq with
  | [("section", PStr "politics"); ("page", PInt p)] =>
      if (1 <=? p)%Z && (p <=? 3)%Z then Some (mk_response 200 (cj_dumps (page_json p)))
      else Some (mk_response 404 "")
  | _ => None
  end.

Definition w0 : world := mk_world ∅ ∅ [].

Definition ledger12 : string := ledger_text [article 1 old; article 2 new].

Definition w12 : world :=
  mk_world {[ list_path "politics" := ledger12 ]} (list_to_set ["data"; "data/politics"]) [].

Definition args (pages articles : option Z) (before : option string) : list_args :=
  mk_list_args "politics" pages articles before false.

Definition ledger_of (w : world) : string := default "" (w_files w !! list_path "politics").

Definition is_get (e : event) : bool := match e with EGet _ _ => true | _ => false end.
Definition gets (w : world) : nat := List.length (List.filter is_get (w_trace w)).

Definition cutoff_dt : datetime := {| dt_wall := 20454 * 86400 * 1000000; dt_tz := Some 0 |}%Z.

Example articles5_run :
  let '(r, w) := cmd_list (args None (Some 5%Z) None) srv3 w0 in
  r = Ok tt /\ record_ids (ledger_of w) = [1; 2; 3; 4; 5]%Z /\ gets w = 3%nat.
Proof. vm_compute. repeat split. Qed.

Lemma ledger12_ok : ledger_ok (Some ledger12).
Proof. split; [vm_compute; reflexivity|apply (bool_decide_unpack _); vm_compute; reflexivity]. Qed.

Lemma w12_ok : ledger_ok (w_files w12 !! list_path "politics").
Proof.
  replace (w_files w12 !! list_path "politics") with (Some ledger12) by (vm_compute; reflexivity).
  exact ledger12_ok.
Qed.

Lemma cmd_list_ledger_ok_witness :
  ledger_ok (w_files (cmd_list (args None None None) srv3 w12).2 !! list_path "politics") /\
  record_ids (ledger_of (cmd_list (args None None None) srv3 w12).2) = [1; 2; 3; 4; 5; 6]%Z.
Proof. split; [apply cmd_list_ledger_ok; exact w12_ok|vm_compute; reflexivity]. Defined.

Lemma cmd_list_append_only_witness :
  exists s, w_files (cmd_list (args None None None) srv3 w12).2 !! list_path "politics" = Some (ledger12 ++ s).
Proof. apply cmd_list_append_only; [reflexivity|exact w12_ok|vm_compute; reflexivity]. Defined.

Lemma cmd_list_cutoff_witness :
  ledger_after (args None None (Some "2026-01-01")) w0
    (cmd_list (args None None (Some "2026-01-01")) srv3 w0).2 (Forall (published_before cutoff_dt)) /\
  record_ids (ledger_of (cmd_list (args None None (Some "2026-01-01")) srv3 w0).2) = [1; 3; 5]%Z.
Proof.
  split; [|vm_compute; reflexivity].
  apply (cmd_list_cutoff _ _ _ "2026-01-01"); [intros _; exact I|reflexivity|discriminate|reflexivity].
Defined.

Lemma cmd_list_article_limit_witness :
  ledger_after (args None (Some 0%Z) None) w0 (cmd_list (args None (Some 0%Z) None) srv3 w0).2
    (fun arts => (Z.of_nat (List.length arts) <= Z.max 0 1)%Z) /\
  record_ids (ledger_of (cmd_list (args None (Some 0%Z) None) srv3 w0).2) = [1%Z].
Proof. split; [apply cmd_list_article_limit; [intros _; exact I|reflexivity]|vm_compute; reflexivity]. Defined.

Lemma cmd_list_idempotent_witness :
  exists w2, cmd_list (args None None None) srv3 (cmd_list (args None None None) srv3 w12).2 = (Ok tt, w2) /\
    w_files w2 = w_files (cmd_list (args None None None) srv3 w12).2 /\
    last (w_trace w2) = Some (EPrint (done_msg "politics" 0)).
Proof.
  apply (cmd_list_idempotent (args None None None) srv3 w12);
    [reflexivity|reflexivity|apply (bool_decide_unpack _); by vm_compute|exact w12_ok|vm_compute; reflexivity].
Defined.

(** [list politics --pages 2] requests pages 1 and 2 and writes their four
    articles: the bound of [cmd_list_page_limit] is reached. *)
Example pages2_run :
  let '(r, w) := cmd_list (args (Some 2%Z) None None) srv3 w0 in
  r = Ok tt /\ record_ids (ledger_of w) = [1; 2; 3; 4]%Z /\ gets w = 2%nat.
Proof. vm_compute. repeat split. Qed.

Lemma cmd_list_page_limit_witness :
  la_pages (args (Some 2%Z) None None) = Some 2%Z /\
  exists tr, w_trace (cmd_list (args (Some 2%Z) None None) srv3 w0).2 = (w_trace w0 ++ tr)%list /\
    List.length (requests tr) <= Z.to_nat (Z.max 2 1).
Proof. split; [reflexivity|]. apply cmd_list_page_limit. reflexivity. Defined.

(** With [--articles], a second run with the same arguments and the same
    upstream collects the next articles: the two runs are not
    idempotent. *)
Example articles_rerun_collects_more :
  let w1 := (cmd_list (args None (Some 2%Z) None) srv3 w0).2 in
  let w2 := (cmd_list (args None (Some 2%Z) None) srv3 w1).2 in
  record_ids (ledger_of w1) = [1; 2]%Z /\ record_ids (ledger_of w2) = [1; 2; 3; 4]%Z /\
  last (w_trace w2) = Some (EPrint (done_msg "politics" 2)).
Proof. vm_compute. split_and!; reflexivity. Qed.

(** With [--before], an article whose [publishTime] [dateutil] cannot
    parse stops the whole run with [ParserError] (line 100). *)
Definition srv_bad_date : server := fun rq =>
  Some (mk_response 200 (cj_dumps (PDict [("items", PList [article 1 "yesterday"]);
                                        ("totalPage", PInt 1)]))).

Example bad_date_aborts :
  (cmd_list (args None None (Some "2026-01-01")) srv_bad_date w0).1 =
    Err (ParserError "Unknown string format: yesterday").
Proof. vm_compute. reflexivity. Qed.

(** A ledger whose last line has no line feed: the first record appended
    joins that line, and the ids of both are lost to the next run. *)
Definition w_no_lf : world :=
  mk_world {[ list_path "politics" := cj_dumps (PDict [("id", PInt 1)]) ]}
    (list_to_set ["data"; "data/politics"]) [].

Example no_trailing_newline :
  record_ids (ledger_of w_no_lf) = [1%Z] /\
  record_ids (ledger_of (cmd_list (args None None None) srv3 w_no_lf).2) = [3; 4; 5; 6]%Z.
Proof. vm_compute. split; reflexivity. Qed.
End Scenario.
