(* ===== verification/ListSpec.v ===== *)
(** * ListSpec: the list workflow of the specification, and [cmd_list] refines it

    Section 4.3 of the specification describes the [list] subcommand as a
    walk over the pages of the category index. This file states it as a
    function of the pages' contents, with no monad and no loop state:
    - [spec_pages]: the pages the run reads, [1 .. min(totalPage, max(P,1))]
      under [--pages P] and [1 .. totalPage] without;
    - [fresh known stream]: the stubs of the concatenated pages, in order,
      that the cutoff keeps and whose id is neither in the ledger nor
      kept before in the run (step 5b);
    - [spec_collect]: the first [max(N,1)] of them under [--articles N],
      all of them without.
    The theorem [cmd_list_refines] shows that when the server answers
    every page and every stub passes the checks of lines 94-102 without
    raising, [cmd_list] completes, the ledger afterwards is the ledger it
    read followed by one record per article of [spec_collect], and the
    run reports their number. The proof goes through one lemma per loop:
    [article_loop_refine] (lines 93-115) and [page_loop_refine] (lines
    86-122), with [cap] for what is left of the article limit and [upto]
    for the pages the page limit lets the loop reach.

    Section [rebuild] drops every assumption on the server: [grows] says
    the ledger only gains records of stubs some page of the category
    lists ([listed]), and [cmd_list_rescrape_rebuilds] shows that after
    [--rescrape] the old ledger is gone (lines 62-66) and what stands in
    its place is [rebuilt] from the server's pages alone. *)

From S2P Require Import Prelude Text PyObj JsonLib CJson DateTime World Ledger ListCmd.
From stdpp Require Import list_numbers.
From Stdlib Require Import Ascii String.
Local Open Scope string_scope.
Local Open Scope py_scope.

Section spec.
Context `{JsonLib} `{DateUtil}.
Variable (bdt : option datetime).

(** The id of a stub the cutoff keeps; [None] for one it skips. *)
Definition kept_id (a : pyval) : option Z :=
  match article_candidate bdt a with Ok (Some i) => Some i | _ => None end.

(** Step 5b without the limit: the kept stubs of [stream] whose id is
    not yet known, the known ids growing with each one taken. *)
Fixpoint fresh (known : gset Z) (stream : list pyval) : list pyval :=
  match stream with
  | [] => []
  | a :: rest =>
      match kept_id a with
      | Some i => if decide (i ∈ known) then fresh known rest else a :: fresh ({[i]} ∪ known) rest
      | None => fresh known rest
      end
  end.

(** Step 5: the pages read, in increasing order. *)
Definition spec_pages (total_page : Z) (pl : option Z) : list Z :=
  match pl with
  | Some p => seqZ 1 (Z.min total_page (Z.max p 1))
  | None => seqZ 1 total_page
  end.

(** The articles a run collects: the fresh stubs of the pages read, cut
    after the [max(N,1)]-th under an article limit [N]. *)
Definition spec_collect (known : gset Z) (total_page : Z) (pl al : option Z)
    (items : Z -> list pyval) : list pyval :=
  let c := fresh known (List.concat (map items (spec_pages total_page pl))) in
  match al with
  | Some a => take (Z.to_nat (Z.max a 1)) c
  | None => c
  end.

(** What the article limit leaves of [l] once [n] articles are written. *)
Definition cap (al : option Z) (n : Z) (l : list pyval) : list pyval :=
  match al with
  | Some a => take (Z.to_nat (Z.max (a - n) 1)) l
  | None => l
  end.

(** The pages of [pages] the loop reaches under the page limit [pl]: it
    stops after the first page at or past the limit. *)
Fixpoint upto (pl : option Z) (pages : list Z) : list Z :=
  match pages with
  | [] => []
  | p :: rest =>
      p :: match pl with
           | Some q => if (q <=? p)%Z then [] else upto pl rest
           | None => upto pl rest
           end
  end.

(** A stub whose id and date checks (lines 94-102) do not raise. *)
Definition stub_ok (a : pyval) : bool := is_ok (article_candidate bdt a).

(** The ids of the articles taken. *)
Definition kept_ids (l : list pyval) : gset Z := list_to_set (omap kept_id l).

Lemma kept_ids_cons a i l : kept_id a = Some i -> kept_ids (a :: l) = {[i]} ∪ kept_ids l.
Proof. intros Hk. unfold kept_ids. simpl. by rewrite Hk. Qed.

Lemma fresh_app known l1 l2 :
  fresh known (l1 ++ l2) = (fresh known l1 ++ fresh (known ∪ kept_ids (fresh known l1)) l2)%list.
Proof.
  revert known. induction l1 as [|a l1 IH]; intros known; simpl.
  { unfold kept_ids. simpl. by rewrite (right_id_L ∅ union). }
  destruct (kept_id a) as [i|] eqn:Hk; [|apply IH].
  destruct (decide (i ∈ known)); [apply IH|]. rewrite IH. simpl. do 3 f_equal.
  rewrite (kept_ids_cons _ _ _ Hk). apply leibniz_equiv. set_solver.
Qed.

(** The limit, after a write that leaves it unreached. *)
Lemma cap_app al n l1 l2 :
  (0 <= n)%Z -> cap al n l1 = l1 -> lim_ok al (n + Z.of_nat (List.length l1)) ->
  cap al n (l1 ++ l2) = (l1 ++ cap al (n + Z.of_nat (List.length l1)) l2)%list.
Proof.
  destruct al as [a|]; simpl; [|done]. intros Hn Htake Hlim.
  assert (List.length l1 <= Z.to_nat (Z.max (a - n) 1))%nat.
  { rewrite <-Htake, length_take. lia. }
  rewrite take_app, Htake. f_equal. f_equal. lia.
Qed.

(** The limit, reached inside [l1]. *)
Lemma cap_reached a n l1 l2 :
  (Z.to_nat (Z.max (a - n) 1) <= List.length l1)%nat ->
  cap (Some a) n (l1 ++ l2) = cap (Some a) n l1.
Proof. intros Hl. simpl. by rewrite take_app_le. Qed.

Lemma cap_0 al l : cap al 0 l = match al with Some a => take (Z.to_nat (Z.max a 1)) l | None => l end.
Proof. destruct al; simpl; [by rewrite Z.sub_0_r|done]. Qed.

End spec.

(** ** The loops implement the specification *)
Section refine.
Context `{JsonLib} `{DateUtil}.
Variables (lf : string) (bdt : option datetime).

Lemma cap_nil al n : cap al n [] = [].
Proof. destruct al; simpl; by rewrite ?take_nil. Qed.

Lemma kept_ids_nil : kept_ids bdt [] = ∅.
Proof. done. Qed.

(** What [article_loop] promises: the ledger grows by the capped fresh
    stubs; [done] is set exactly when the limit is reached. *)
Definition article_refine_post (al : option Z) (items : list pyval) (S : gset Z) (n : Z) (c : string)
    (r : result exn (gset Z * Z * bool)) (w' : world) : Prop :=
  let ws := cap al n (fresh bdt S items) in
  w_files w' !! lf = Some (c ++ ledger_text ws) /\
  exists done, r = Ok (S ∪ kept_ids bdt ws, n + Z.of_nat (List.length ws), done)%Z /\
    if done then
      match al with
      | Some a => (Z.to_nat (Z.max (a - n) 1) <= List.length (fresh bdt S items))%nat
      | None => False
      end
    else ws = fresh bdt S items /\ lim_ok al (n + Z.of_nat (List.length ws)).

(** One article written and the loop going on: the post of the rest gives
    the post of the whole. *)
Lemma article_refine_cons al a i items S n c r w' :
  kept_id bdt a = Some i -> i ∉ S ->
  cap al n (a :: fresh bdt ({[i]} ∪ S) items) = a :: cap al (n + 1) (fresh bdt ({[i]} ∪ S) items) ->
  (match al with Some a' => n + 1 < a' | None => True end)%Z ->
  article_refine_post al items ({[i]} ∪ S) (n + 1) (c ++ record_line a) r w' ->
  article_refine_post al (a :: items) S n c r w'.
Proof.
  intros Hk Hi Hcap Hlt (Hf & done & -> & Hd). unfold article_refine_post.
  cbn [fresh]. rewrite Hk, decide_False by done. rewrite Hcap. cbn [ledger_text List.length].
  split; [by rewrite Hf, str_app_assoc|]. exists done. split.
  - rewrite (kept_ids_cons _ _ _ _ Hk). do 3 f_equal; (lia || (apply leibniz_equiv; set_solver)).
  - destruct done; [destruct al as [a'|]; [lia|done]|].
    destruct Hd as [-> Hl]. split; [done|]. destruct al; simpl in *; lia.
Qed.

Lemma article_loop_refine al items S n srv w c :
  Forall (fun a => stub_ok bdt a = true) items -> w_files w !! lf = Some c -> (0 <= n)%Z -> lim_ok al n ->
  vrf (article_loop lf al bdt items S n) srv w (article_refine_post al items S n c).
Proof.
  revert S n w c. induction items as [|a items IH]; intros S n w c Hok Hc Hn Hlim; simpl.
  { apply vrf_ret. unfold article_refine_post. simpl. rewrite cap_nil. simpl.
    split; [by rewrite str_app_nil_r|]. exists false.
    rewrite kept_ids_nil, (right_id_L ∅ union), Z.add_0_r. auto. }
  apply Forall_cons in Hok as [Ha Hok]. unfold stub_ok in Ha.
  vrf_step. vrf_step. destruct (article_candidate bdt a) as [[i|]|e] eqn:Ec; [| |done]; simpl.
  2: { eapply vrf_mono; [|by apply IH]. intros r w' Hp. unfold article_refine_post in *.
       cbn [fresh]. by replace (kept_id bdt a) with (@None Z) by (unfold kept_id; by rewrite Ec). }
  assert (Hk : kept_id bdt a = Some i) by (unfold kept_id; by rewrite Ec).
  destruct (decide (i ∈ S)) as [Hin|Hin].
  { eapply vrf_mono; [|by apply IH]. intros r w' Hp. unfold article_refine_post in *.
    cbn [fresh]. by rewrite Hk, decide_True. }
  vrf_step. apply vrf_append_to. rewrite Hc. simpl.
  set (w1 := set_files _ w).
  assert (Hc1 : w_files w1 !! lf = Some (c ++ record_line a)) by (unfold w1; simpl; by rewrite lookup_insert_eq).
  destruct al as [al|].
  2: { eapply vrf_mono; [|apply (IH _ _ _ (c ++ record_line a)); simpl; auto; lia]. intros r w' Hp.
       by apply (article_refine_cons None a i). }
  destruct (al <=? n + 1)%Z eqn:Hle.
  - vrf_step. vrf_step. vrf_step. unfold article_refine_post. cbn [fresh cap]. rewrite Hk, decide_False by done.
    replace (Z.to_nat (Z.max (al - n) 1)) with 1%nat by lia. simpl.
    split; [by rewrite lookup_insert_eq, str_app_nil_r|]. exists true. split; [|lia].
    rewrite (kept_ids_cons _ _ _ _ Hk), take_0, kept_ids_nil. do 3 f_equal; (lia || (apply leibniz_equiv; set_solver)).
  - eapply vrf_mono; [|apply (IH _ _ _ (c ++ record_line a)); simpl; auto; lia]. intros r w' Hp.
    apply (article_refine_cons (Some al) a i); [done|done| |lia|done].
    cbn [cap]. replace (Z.to_nat (Z.max (al - n) 1)) with (Datatypes.S (Z.to_nat (Z.max (al - (n + 1)) 1))) by lia.
    done.
Qed.

Lemma ledger_text_app l1 l2 : ledger_text (l1 ++ l2) = ledger_text l1 ++ ledger_text l2.
Proof. induction l1 as [|a l1 IH]; simpl; [done|]. by rewrite IH, str_app_assoc. Qed.

(** What [page_loop] promises: the ledger grows by the capped fresh stubs
    of the pages the page limit lets it reach, and the counter by their
    number. *)
Definition page_refine_post (pl al : option Z) (items : Z -> list pyval) (pages : list Z)
    (S : gset Z) (n : Z) (c : string) (r : result exn (gset Z * Z)) (w' : world) : Prop :=
  let ws := cap al n (fresh bdt S (List.concat (map items pages))) in
  w_files w' !! lf = Some (c ++ ledger_text ws) /\
  exists S', r = Ok (S', n + Z.of_nat (List.length ws))%Z.

Section pages.
Variables (cat : string) (pl al : option Z) (page : Z -> pyval) (items : Z -> list pyval) (srv : server).

(** The server answers every page after the first with its contents. *)
Definition serves (pages : list Z) : Prop :=
  forall p, p ∈ pages -> forall v,
    (api_get "section-loadmore" (section_params cat p) srv v).1 = Ok (page p).

(** Every page lists its stubs, and no stub makes lines 94-102 raise. *)
Definition pages_ok (pages : list Z) : Prop :=
  forall p, p ∈ pages ->
    (let? its := py_getitem (page p) "items" in py_iter its) = Ok (items p) /\
    Forall (fun a => stub_ok bdt a = true) (items p).

(** Lines 87-91: the data of page [p], the first page's already fetched. *)
Lemma page_fetch_refine p w c :
  serves [p] -> w_files w !! lf = Some c ->
  vrf (if (p =? 1)%Z then World.mret (page 1%Z)
       else sleep REQUEST_DELAY_MS ;; api_get "section-loadmore" (section_params cat p)) srv w
    (fun r w' => r = Ok (page p) /\ w_files w' !! lf = Some c).
Proof.
  intros Hs Hc. destruct (p =? 1)%Z eqn:Hp1.
  { apply Z.eqb_eq in Hp1 as ->. by vrf_step. }
  apply Z.eqb_neq in Hp1. vrf_step. vrf_step. simpl.
  destruct (api_get_uniform "section-loadmore" (section_params cat p) srv) as [r Hr].
  unfold vrf. specialize (Hs p (list_elem_of_here _ _) (record (ESleep REQUEST_DELAY_MS) w)).
  rewrite Hr in Hs |- *. simpl in *. done.
Qed.

Lemma page_loop_refine pages S n w c :
  serves pages -> pages_ok pages -> w_files w !! lf = Some c -> (0 <= n)%Z -> lim_ok al n ->
  vrf (page_loop cat lf pl al bdt (page 1%Z) pages S n) srv w
    (page_refine_post pl al items (upto pl pages) S n c).
Proof.
  revert S n w c. induction pages as [|p pages IH]; intros S n w c Hs Hok Hc Hn Hlim; simpl.
  { apply vrf_ret. unfold page_refine_post. simpl. rewrite cap_nil. simpl.
    split; [by rewrite str_app_nil_r|]. exists S. f_equal. f_equal. lia. }
  apply (vrf_bind_post _ _ _ _ (fun r w' => r = Ok (page p) /\ w_files w' !! lf = Some c)); [|intros data w1 [[= ->] Hc1]|by intros ? ? []].
  { apply page_fetch_refine; [|done]. intros q ->%list_elem_of_singleton. apply Hs. by left. }
  destruct (Hok p (list_elem_of_here _ _)) as [Hit Hst].
  vrf_step. vrf_step. rewrite Hit. simpl.
  apply (vrf_bind_post _ _ _ _ (article_refine_post al (items p) S n c)); [by apply article_loop_refine| |].
  2: { intros e w' (_ & ? & ? & _). done. }
  intros [[S1 n1] done] w2 (Hf & done' & Hr & Hd). injection Hr as -> -> <-.
  set (F := fresh bdt S (items p)) in *.
  unfold page_refine_post. cbn [map List.concat]. rewrite fresh_app. fold F.
  destruct done.
  { (* the article limit is reached on this page *)
    apply vrf_ret. destruct al as [a|]; [|done].
    rewrite cap_reached by done. split; [done|]. by eexists. }
  destruct Hd as [Hcap Hl]. rewrite Hcap in Hf, Hl |- *.
  assert (Hrest : vrf (page_loop cat lf pl al bdt (page 1%Z) pages (S ∪ kept_ids bdt F) (n + Z.of_nat (List.length F))) srv w2
    (page_refine_post pl al items (upto pl pages) (S ∪ kept_ids bdt F) (n + Z.of_nat (List.length F)) (c ++ ledger_text F))).
  { apply IH; [intros q Hq; apply Hs; by right|intros q Hq; apply Hok; by right|done|lia|done]. }
  assert (Hcont : forall pages', upto pl pages = pages' -> vrf (page_loop cat lf pl al bdt (page 1%Z) pages (S ∪ kept_ids bdt F) (n + Z.of_nat (List.length F))) srv w2
    (fun r w' => let ws := cap al n (F ++ fresh bdt (S ∪ kept_ids bdt F) (List.concat (map items pages'))) in
      w_files w' !! lf = Some (c ++ ledger_text ws) /\ exists S', r = Ok (S', n + Z.of_nat (List.length ws))%Z)).
  { intros pages' <-. eapply vrf_mono; [|exact Hrest]. intros r w' (Hf' & S' & ->). cbv zeta.
    rewrite (cap_app al n F) by done. rewrite ledger_text_app, str_app_assoc, length_app.
    split; [done|]. exists S'. f_equal. f_equal. lia. }
  destruct pl as [q|]; [destruct (q <=? p)%Z|]; [|by apply Hcont..].
  vrf_step. vrf_step. vrf_step. simpl. rewrite ?app_nil_r, Hcap.
  split; [done|]. by eexists.
Qed.
End pages.

(** ** The pages the loop reaches *)

Lemma py_range_seqZ lo hi : py_range lo hi = seqZ lo (hi - lo).
Proof.
  remember (Z.to_nat (hi - lo)) as m eqn:Hm. revert lo Hm. induction m as [|m IH]; intros lo Hm.
  - by rewrite py_range_nil, seqZ_nil by lia.
  - rewrite py_range_cons, seqZ_cons by lia. f_equal. rewrite IH by lia. f_equal; lia.
Qed.

Lemma upto_none pages : upto None pages = pages.
Proof. induction pages as [|p pages IH]; simpl; congruence. Qed.

(** From page [k] on, the limit [P] lets the loop reach the pages up to
    [max(P, k)]. *)
Lemma upto_range P k hi :
  upto (Some P) (py_range k hi) = py_range k (Z.min hi (Z.max (P + 1) (k + 1))).
Proof.
  remember (Z.to_nat (hi - k)) as m eqn:Hm. revert k Hm. induction m as [|m IH]; intros k Hm.
  { by rewrite !py_range_nil by lia. }
  rewrite (py_range_cons k hi), (py_range_cons k (Z.min _ _)) by lia. simpl. f_equal.
  destruct (Z.leb_spec P k).
  - by rewrite py_range_nil by lia.
  - rewrite IH by lia. f_equal. lia.
Qed.

Lemma upto_spec_pages tp pl : upto pl (py_range 1 (tp + 1)) = spec_pages tp pl.
Proof.
  destruct pl as [P|]; simpl.
  - rewrite upto_range, py_range_seqZ. f_equal. lia.
  - rewrite upto_none, py_range_seqZ. f_equal. lia.
Qed.

End refine.

(** ** The whole command *)
Section command.
Context `{JsonLib} `{DateUtil}.

(** Lines 62-66 on a ledger path that is not a directory. *)
Lemma rescrape_run args srv w :
  let lf := list_path (la_category args) in
  is_dir w lf = false ->
  exists w', (if la_rescrape args then
                let* ex := path_exists lf in
                if ex then unlink lf ;; print ("Deleted existing " ++ lf) else World.mret tt
              else World.mret tt) srv w = (Ok tt, w') /\
    w_dirs w' = w_dirs w /\
    w_files w' !! lf = (if la_rescrape args then None else w_files w !! lf).
Proof.
  intros lf Hd. destruct (la_rescrape args); [|by exists w].
  rewrite (mbind_ok _ _ _ _ (is_file w lf || is_dir w lf) w) by done. rewrite Hd, orb_false_r.
  destruct (is_file w lf) eqn:Hf; [|exists w; split_and!; [done|done|by apply is_file_false]].
  rewrite (mbind_ok _ _ _ _ tt (set_files (delete lf (w_files w)) w)) by (unfold unlink; by rewrite Hf).
  eexists. split; [done|]. simpl. by rewrite lookup_delete_eq.
Qed.

(** Lines 60-85: a run that gets past the first page has created the
    directories, loaded the ids of the start ledger and opened it. *)
Lemma cmd_list_setup args srv w (page1 : pyval) tp ta bdt S :
  let lf := list_path (la_category args) in
  la_category args ∈ VALID_CATEGORIES ->
  (forall q, q ∈ path_prefixes (parent lf) -> is_file w q = false) ->
  is_dir w lf = false ->
  ids_of_lines (text_lines (start_ledger args w)) ∅ = Ok S ->
  before_cutoff (la_before args) = Ok bdt ->
  (forall v, (api_get "section-loadmore" (section_params (la_category args) 1) srv v).1 = Ok page1) ->
  py_getitem page1 "totalPage" = Ok (PInt tp) -> py_dict_get page1 "total" (PInt 0) = Ok ta ->
  exists w5, w_files w5 !! lf = Some (start_ledger args w) /\
    cmd_list args srv w =
      (let* res := page_loop (la_category args) lf (la_pages args) (la_articles args) bdt page1
                     (py_range 1 (tp + 1)) S 0 in
       print (done_msg (la_category args) res.2)) srv w5.
Proof.
  intros lf Hcat Hpre Hdir HS Hb Hp1 Htp Hta. unfold cmd_list. fold lf.
  set (w1 := set_dirs (list_to_set (path_prefixes (parent lf)) ∪ w_dirs w) w).
  assert (Hmk : mkdir_parents (parent lf) srv w = (Ok tt, w1)) by (by apply mkdir_each_run).
  rewrite (mbind_ok _ _ _ _ _ _ Hmk).
  assert (Hd1 : is_dir w1 lf = false).
  { unfold is_dir in *. apply orb_false_iff in Hdir as [He Hdir]. rewrite He. unfold w1, set_dirs. cbn [w_dirs orb].
    apply bool_decide_eq_false_2. apply bool_decide_eq_false_1 in Hdir.
    pose proof (valid_category_prefixes _ Hcat). set_solver. }
  destruct (rescrape_run args srv w1 Hd1) as (w2 & Hre & Hd2 & Hf2). fold lf in Hre, Hd2, Hf2.
  rewrite (mbind_ok _ _ _ _ _ _ Hre).
  assert (Hc2 : default EmptyString (w_files w2 !! lf) = start_ledger args w).
  { rewrite Hf2. unfold start_ledger. by destruct (la_rescrape args). }
  assert (Hdir2 : is_dir w2 lf = false) by (unfold is_dir; by rewrite Hd2).
  rewrite (mbind_ok _ _ _ _ _ _ (load_existing_ids_run lf srv w2 S Hdir2 ltac:(by rewrite Hc2))).
  rewrite mbind_lift, Hb, mbind_print.
  destruct (api_get_uniform "section-loadmore" (section_params (la_category args) 1) srv) as [r Hr].
  pose proof (Hp1 (record (EPrint ("Fetching page 1 for category '" ++ la_category args ++ "'...")) w2)) as Hr1.
  rewrite Hr in Hr1. simpl in Hr1. subst r. rewrite (mbind_ok _ _ _ _ _ _ (Hr _)).
  rewrite mbind_lift, Htp, mbind_lift, Hta, mbind_print.
  set (w4 := record (EPrint _) (record (EGet _ _) _)).
  assert (Hcw : check_writable w4 lf = None).
  { unfold check_writable. replace (is_dir w4 lf) with false by done. simpl.
    unfold is_dir. simpl. rewrite Hd2. simpl. rewrite bool_decide_eq_true_2; [by rewrite orb_true_r|].
    apply elem_of_union_l, elem_of_list_to_set, path_prefixes_self. }
  destruct (open_append_run lf srv w4 Hcw) as (w5 & Ho & Hf5 & _).
  rewrite (mbind_ok _ _ _ _ _ _ Ho), mbind_lift. simpl.
  exists w5. split; [rewrite Hf5; f_equal; exact Hc2|done].
Qed.
Lemma lim_ok_0 al : lim_ok al 0.
Proof. destruct al; simpl; auto. Qed.

(** C15: Refinement of the specification's list workflow: when the
    category is valid, the ledger and its directories can be written and
    read, the cutoff parses, and the server answers every page [p] of
    [1 .. max(totalPage, 1)] with a document whose stubs the id and date
    checks accept, then [cmd_list] completes; the ledger afterwards is the
    ledger the run started from (empty under [--rescrape]) followed by one
    record per article of [spec_collect], in order; and the run's last
    line reports their number. *)
Theorem cmd_list_refines args srv w (page : Z -> pyval) (items : Z -> list pyval) tp ta bdt :
  let lf := list_path (la_category args) in
  let c0 := start_ledger args w in
  la_category args ∈ VALID_CATEGORIES ->
  (forall q, q ∈ path_prefixes (parent lf) -> is_file w q = false) ->
  is_dir w lf = false ->
  is_ok (ids_of_lines (text_lines c0) ∅) = true ->
  before_cutoff (la_before args) = Ok bdt ->
  py_getitem (page 1%Z) "totalPage" = Ok (PInt tp) -> py_dict_get (page 1%Z) "total" (PInt 0) = Ok ta ->
  serves (la_category args) page srv (seqZ 1 (Z.max tp 1)) -> pages_ok bdt page items (seqZ 1 tp) ->
  let arts := spec_collect bdt (list_to_set (record_ids c0)) tp (la_pages args) (la_articles args) items in
  exists w', cmd_list args srv w = (Ok tt, w') /\
    w_files w' !! lf = Some (c0 ++ ledger_text arts) /\
    last (w_trace w') = Some (EPrint (done_msg (la_category args) (Z.of_nat (List.length arts)))).
Proof.
  intros lf c0 Hcat Hpre Hdir Hids Hb Htp Hta Hs Hok arts.
  destruct (ids_of_lines (text_lines c0) ∅) as [S|] eqn:HS; [|done].
  destruct (cmd_list_setup args srv w (page 1%Z) tp ta bdt S Hcat Hpre Hdir HS Hb) as (w5 & Hf5 & ->);
    [apply Hs; rewrite elem_of_seqZ; lia|done|done|].
  apply ids_of_lines_ok in HS. rewrite (left_id_L ∅ union) in HS.
  assert (Hs' : serves (la_category args) page srv (py_range 1 (tp + 1))).
  { intros q Hq. apply Hs. rewrite py_range_seqZ, elem_of_seqZ in Hq. rewrite elem_of_seqZ. lia. }
  assert (Hok' : pages_ok bdt page items (py_range 1 (tp + 1))).
  { intros q Hq. apply Hok. by rewrite py_range_seqZ, Z.add_simpl_r in Hq. }
  pose proof (page_loop_refine lf bdt (la_category args) (la_pages args) (la_articles args) page items srv
    (py_range 1 (tp + 1)) S 0 w5 c0 Hs' Hok' Hf5 (Z.le_refl 0) (lim_ok_0 _)) as Hv.
  unfold vrf, page_refine_post in Hv. destruct Hv as [Hf6 [S' Hr]].
  destruct (page_loop _ _ _ _ _ _ _ _ _ srv w5) as [r6 w6] eqn:Hpl. simpl in Hf6, Hr. subst r6.
  rewrite (mbind_ok _ _ _ _ _ _ Hpl). eexists. split; [reflexivity|]. cbn [w_files w_trace record].
  rewrite upto_spec_pages, cap_0 in Hf6. rewrite last_snoc. unfold arts, spec_collect. subst S.
  rewrite upto_spec_pages, cap_0. split; [exact Hf6|done].
Qed.
End command.

(** ** [--rescrape] rebuilds the ledger from the current listing

    Section 8 of the specification: after [list ... --rescrape] the ledger
    holds no record absent from the current upstream listing. [listed a]:
    [a] is a stub of a page the server returns for the category.
    [rebuilt w]: the ledger is missing, or is made of records of listed
    stubs only. This holds for every server, whether the run completes or
    raises, unless it raised before it could delete the ledger. *)
Section rebuild.
Context `{JsonLib} `{DateUtil}.
Variables (cat lf : string) (srv : server).

Definition listed (a : pyval) : Prop :=
  exists p d its, (api_get "section-loadmore" (section_params cat p) srv (mk_world ∅ ∅ [])).1 = Ok d /\
    (let? x := py_getitem d "items" in py_iter x) = Ok its /\ a ∈ its.

Definition rebuilt (w : world) : Prop :=
  match w_files w !! lf with
  | None => True
  | Some c => exists arts, c = ledger_text arts /\ Forall listed arts
  end.

(** From [w] to [w'], the ledger is untouched or has records of stubs
    satisfying [P] appended. *)
Definition grows (P : pyval -> Prop) (w w' : world) : Prop :=
  w_files w' !! lf = w_files w !! lf \/
  exists arts, w_files w' !! lf = Some (default EmptyString (w_files w !! lf) ++ ledger_text arts) /\ Forall P arts.

Lemma grows_refl P w w' : w_files w' !! lf = w_files w !! lf -> grows P w w'.
Proof. by left. Qed.

Lemma grows_trans P w1 w2 w3 : grows P w1 w2 -> grows P w2 w3 -> grows P w1 w3.
Proof.
  intros [H12|(a1 & H12 & P1)] [H23|(a2 & H23 & P2)].
  - left. congruence.
  - right. exists a2. by rewrite H23, H12.
  - right. exists a1. by rewrite H23.
  - right. exists (a1 ++ a2)%list. rewrite H23, H12. simpl.
    split; [by rewrite ledger_text_app, str_app_assoc|by apply Forall_app].
Qed.

Lemma grows_mono (P Q : pyval -> Prop) w w' : (forall a, P a -> Q a) -> grows P w w' -> grows Q w w'.
Proof. intros HPQ [Hs|(arts & Hs & HP)]; [by left|right]. exists arts. split; [done|]. by eapply Forall_impl. Qed.

Lemma grows_append P a w :
  P a -> grows P w (set_files (<[lf := default EmptyString (w_files w !! lf) ++ record_line a]> (w_files w)) w).
Proof.
  intros Ha. right. exists [a]. simpl. rewrite lookup_insert_eq. split; [|by repeat constructor].
  by rewrite str_app_nil_r.
Qed.

Lemma rebuilt_grows w w' : rebuilt w -> grows listed w w' -> rebuilt w'.
Proof.
  unfold rebuilt. intros Hw [->|(arts & -> & Hl)]; [done|].
  destruct (w_files w !! lf) as [c|]; simpl.
  - destruct Hw as (arts0 & -> & Hl0). exists (arts0 ++ arts)%list. by rewrite ledger_text_app, Forall_app.
  - by exists arts.
Qed.

(** Lines 93-115 append items of the page only. *)
Lemma article_loop_grows al bdt items S n w :
  vrf (article_loop lf al bdt items S n) srv w (fun _ w' => grows (fun a => a ∈ items) w w').
Proof.
  revert S n w. induction items as [|a items IH]; intros S n w; simpl; [by apply vrf_ret, grows_refl|].
  assert (Hsub : forall w' S' n', vrf (article_loop lf al bdt items S' n') srv w' (fun _ w'' => grows (fun x => x ∈ a :: items) w' w'')).
  { intros w' S' n'. eapply vrf_mono; [|apply IH]. intros ?r w''. apply grows_mono. intros x Hx. by right. }
  vrf_step. vrf_step. destruct (article_candidate bdt a) as [[i|]|e]; simpl; [|apply Hsub|by apply grows_refl].
  destruct (decide (i ∈ S)); [apply Hsub|]. vrf_step. apply vrf_append_to.
  pose proof (grows_append (fun x => x ∈ a :: items) a w (list_elem_of_here _ _)) as Ha.
  destruct al as [al|]; [destruct (al <=? n + 1)%Z|].
  - vrf_step. vrf_step. vrf_step. exact Ha.
  - eapply vrf_mono; [|apply Hsub]. intros ?r w''. by apply grows_trans.
  - eapply vrf_mono; [|apply Hsub]. intros ?r w''. by apply grows_trans.
Qed.

(** A page the server returns lists listed stubs only. *)
Lemma api_get_listed p d its w :
  (api_get "section-loadmore" (section_params cat p) srv w).1 = Ok d ->
  (let? x := py_getitem d "items" in py_iter x) = Ok its -> Forall listed its.
Proof.
  intros Hd Hits. apply Forall_forall. intros a Ha. exists p, d, its. split_and!; [|done|done].
  destruct (api_get_uniform "section-loadmore" (section_params cat p) srv) as [r Hr].
  rewrite Hr in Hd |- *. done.
Qed.

(** Lines 86-122 append listed stubs only, when the first page's data is
    the server's. *)
Lemma page_loop_grows pl al bdt fd pages S n w :
  (forall its, (let? x := py_getitem fd "items" in py_iter x) = Ok its -> Forall listed its) ->
  vrf (page_loop cat lf pl al bdt fd pages S n) srv w (fun _ w' => grows listed w w').
Proof.
  intros Hfd. revert S n w. induction pages as [|p pages IH]; intros S n w; simpl; [by apply vrf_ret, grows_refl|].
  apply (vrf_bind_post _ _ _ _ (fun r w1 => w_files w1 = w_files w /\
    forall d, r = Ok d -> forall its, (let? x := py_getitem d "items" in py_iter x) = Ok its -> Forall listed its));
    [|intros d w1 [Hw1 Hd]|intros e w1 [Hw1 _]; apply grows_refl; by rewrite Hw1].
  { destruct (p =? 1)%Z; [vrf_step; split; [done|by intros ? [= <-]]|].
    vrf_step. vrf_step. simpl. destruct (api_get_uniform "section-loadmore" (section_params cat p) srv) as [r Hr].
    unfold vrf. rewrite Hr. cbn [fst snd]. split; [done|]. intros d -> its Hits. apply (api_get_listed p d its w); [by rewrite Hr|done]. }
  vrf_step. vrf_step. destruct (let? x := py_getitem d "items" in py_iter x) as [its|e] eqn:Hits; simpl; [|apply grows_refl; by rewrite Hw1].
  pose proof (Hd d eq_refl its Hits) as Hl.
  assert (Hup : forall w2 w3, grows (fun a => a ∈ its) w1 w2 -> grows listed w2 w3 -> grows listed w w3).
  { intros w2 w3 H12 H23. apply (grows_trans _ w w1); [apply grows_refl; by rewrite Hw1|].
    apply (grows_trans _ w1 w2); [|done]. eapply grows_mono; [|exact H12]. intros a Ha. by eapply Forall_forall. }
  apply (vrf_bind_post _ _ _ _ (fun _ w2 => grows (fun a => a ∈ its) w1 w2)); [apply article_loop_grows| |];
    [|intros e w2 H12; by apply (Hup w2 w2), grows_refl].
  intros [[ids' n'] done] w2 H12. destruct done; [vrf_step; by apply (Hup w2 w2), grows_refl|].
  destruct pl as [q|]; [destruct (q <=? p)%Z|];
    [vrf_step; vrf_step; vrf_step; by apply (Hup w2), grows_refl| |];
    (eapply vrf_mono; [|apply IH]); intros ?r w3 H23; by apply (Hup w2).
Qed.

Lemma rebuilt_files w w' : w_files w' = w_files w -> rebuilt w -> rebuilt w'.
Proof. unfold rebuilt. by intros ->. Qed.
End rebuild.

Section rescrape.
Context `{JsonLibLaws} `{DateUtil}.

(** Lines 68-124 from a world whose ledger is rebuilt: it stays so. *)
Lemma cmd_list_after_delete args srv w :
  let lf := list_path (la_category args) in
  rebuilt (la_category args) lf srv w ->
  vrf (let* existing_ids := load_existing_ids lf in
       let* before_dt := lift (before_cutoff (la_before args)) in
       print ("Fetching page 1 for category '" ++ la_category args ++ "'...") ;;
       let* first_data := api_get "section-loadmore" (section_params (la_category args) 1) in
       let* total_page := lift (py_getitem first_data "totalPage") in
       let* total_articles := lift (py_dict_get first_data "total" (PInt 0)) in
       print ("Category '" ++ la_category args ++ "': " ++ py_str total_articles ++ " articles across "
              ++ py_str total_page ++ " pages") ;;
       open_append lf ;;
       let* stop := lift (py_add_int total_page 1) in
       let* res := page_loop (la_category args) lf (la_pages args) (la_articles args) before_dt first_data
                     (py_range 1 stop) existing_ids 0 in
       print (done_msg (la_category args) res.2)) srv w
    (fun _ w' => rebuilt (la_category args) lf srv w').
Proof.
  intros lf Hw. set (cat := la_category args) in *.
  apply (vrf_bind_post _ _ _ _ (fun _ w1 => w1 = w)); [eapply vrf_mono; [|apply load_existing_ids_ok]; by intros ? ? []| |by intros ? ? ->].
  intros ids w1 ->. vrf_step. vrf_step. destruct (before_cutoff _) as [bdt|e]; [|done]. vrf_step. vrf_step.
  apply (vrf_bind_post _ _ _ _ (fun r w3 => w_files w3 = w_files w /\ forall d, r = Ok d ->
    forall its, (let? x := py_getitem d "items" in py_iter x) = Ok its -> Forall (listed cat srv) its));
    [|intros fd w3 [Hw3 Hfd]|intros e w3 [Hw3 _]; by apply (rebuilt_files _ _ _ w)].
  { destruct (api_get_uniform "section-loadmore" (section_params cat 1) srv) as [r Hr].
    unfold vrf. rewrite Hr. cbn [fst snd]. split; [done|]. intros d -> its Hits.
    apply (api_get_listed cat srv 1 d its w); [by rewrite Hr|done]. }
  apply (rebuilt_files _ _ _ w w3) in Hw; [|done].
  specialize (Hfd fd eq_refl).
  vrf_step. vrf_step. destruct (py_getitem fd "totalPage") as [tp|e]; cbv beta iota; [|done].
  vrf_step. vrf_step. destruct (py_dict_get fd "total" (PInt 0)) as [ta|e]; cbv beta iota; [|done].
  vrf_step. vrf_step. vrf_step. apply vrf_open_append; [intros w4 Hw4|done].
  assert (Hr4 : rebuilt cat lf srv w4).
  { unfold rebuilt in *. rewrite Hw4. simpl in *. destruct (w_files w3 !! lf) eqn:E; [by rewrite E|].
    rewrite lookup_insert_eq. by exists []. }
  vrf_step. vrf_step. destruct (py_add_int tp 1) as [stop|e]; cbv beta iota; [|done].
  apply (vrf_bind_post _ _ _ _ (fun _ w5 => grows lf (listed cat srv) w4 w5)); [by apply page_loop_grows| |];
    [intros res w5 H45; vrf_step|intros e w5 H45]; by apply (rebuilt_grows cat lf srv w4).
Qed.

(** C18: Rescrape semantics of [list]: after [list ... --rescrape],
    against any server and whether the run completes or raises, every
    record of the ledger is a stub that the server lists on a page of the
    category; the ledger may also be missing. The only exception is a run
    that raised before it could delete the ledger (line 62), which leaves
    the ledger as it was. *)
Theorem cmd_list_rescrape_rebuilds args srv w :
  la_rescrape args = true ->
  let lf := list_path (la_category args) in
  rebuilt (la_category args) lf srv (cmd_list args srv w).2 \/
  (exists e, (cmd_list args srv w).1 = Err e /\ w_files (cmd_list args srv w).2 !! lf = w_files w !! lf).
Proof.
  intros Hre lf.
  change (vrf (cmd_list args) srv w (fun r w' => rebuilt (la_category args) lf srv w' \/
    (exists e, r = Err e /\ w_files w' !! lf = w_files w !! lf))).
  unfold cmd_list. cbv zeta. fold lf. rewrite Hre.
  apply (vrf_bind_post _ _ _ _ (fun _ w1 => w_files w1 = w_files w)); [by apply vrf_mkdir_parents| |];
    [intros [] w1 Hw1|intros e w1 Hw1; right; eexists; by rewrite Hw1].
  apply (vrf_bind_post _ _ _ _ (fun r w2 => match r with
    | Ok _ => rebuilt (la_category args) lf srv w2 | Err _ => w_files w2 = w_files w end)); [| |];
    [|intros [] w2 Hr2; eapply vrf_mono; [|by apply cmd_list_after_delete]; by left
     |intros e w2 Hw2; right; eexists; by rewrite Hw2].
  vrf_step. apply vrf_path_exists. destruct (is_file w1 lf) eqn:Ef; simpl.
  - vrf_step. apply vrf_unlink; [intros _; vrf_step; unfold rebuilt; simpl; by rewrite lookup_delete_eq|done].
  - destruct (is_dir w1 lf); simpl.
    + vrf_step. apply vrf_unlink; [by rewrite Ef|done].
    + vrf_step. unfold rebuilt. by rewrite is_file_false.
Qed.
End rescrape.

(** ** The specification on the spec's example

    The server of [ListCmd.Scenario]: three pages of two stubs, the odd
    ones published before 2026-01-01. Against the ledger [w12] that holds
    articles 1 and 2, [list politics --articles 3 --before 2026-01-01]
    collects articles 3 and 5: article 1 is known, the even ones are past
    the cutoff, and the limit is not reached. *)
Module SpecScenario.
Import IsoDate Scenario.

Definition items3 (p : Z) : list pyval := [article (2 * p - 1) old; article (2 * p) new].

Definition args3 : list_args := args None (Some 3%Z) (Some "2026-01-01").

Example spec_collect_example :
  spec_collect (Some cutoff_dt) (list_to_set [1; 2]%Z) 3 None (Some 3%Z) items3 = [article 3 old; article 5 old].
Proof. vm_compute. reflexivity. Qed.

Lemma cmd_list_refines_witness :
  exists w', cmd_list args3 srv3 w12 = (Ok tt, w') /\
    w_files w' !! list_path "politics" =
      Some (start_ledger args3 w12 ++ ledger_text (spec_collect (Some cutoff_dt)
              (list_to_set (record_ids (start_ledger args3 w12))) 3 None (Some 3%Z) items3)) /\
    last (w_trace w') = Some (EPrint (done_msg "politics" (Z.of_nat (List.length (spec_collect (Some cutoff_dt)
              (list_to_set (record_ids (start_ledger args3 w12))) 3 None (Some 3%Z) items3))))).
Proof.
  apply (cmd_list_refines args3 srv3 w12 page_json items3 3 (PInt 6) (Some cutoff_dt)).
  - apply (bool_decide_unpack _). by vm_compute.
  - intros q Hq. vm_compute in Hq.
    repeat (apply elem_of_cons in Hq as [->|Hq]; [vm_compute; reflexivity|]). by apply not_elem_of_nil in Hq.
  - vm_compute. reflexivity.
  - vm_compute. reflexivity.
  - reflexivity.
  - vm_compute. reflexivity.
  - vm_compute. reflexivity.
  - intros p Hp v. rewrite elem_of_seqZ in Hp.
    assert (p = 1 \/ p = 2 \/ p = 3)%Z as [->|[->| ->]] by lia; vm_compute; reflexivity.
  - intros p Hp. rewrite elem_of_seqZ in Hp.
    assert (p = 1 \/ p = 2 \/ p = 3)%Z as [->|[->| ->]] by lia;
      (split; [vm_compute; reflexivity|repeat (constructor; [vm_compute; reflexivity|]); constructor]).
Defined.

(** [list politics --rescrape] against [w12]: the old records 1 and 2 are
    deleted with the ledger and written again from the listing, with the
    rest of it. *)
Definition rescrape_args : list_args := mk_list_args "politics" None None None true.

Example rescrape_rebuild_values :
  record_ids (ledger_of (cmd_list rescrape_args srv3 w12).2) = [1; 2; 3; 4; 5; 6]%Z.
Proof. vm_compute. reflexivity. Qed.

Lemma cmd_list_rescrape_rebuilds_witness :
  la_rescrape rescrape_args = true /\
  (rebuilt "politics" (list_path "politics") srv3 (cmd_list rescrape_args srv3 w12).2 \/
   (exists e, (cmd_list rescrape_args srv3 w12).1 = Err e /\
      w_files (cmd_list rescrape_args srv3 w12).2 !! list_path "politics" = w_files w12 !! list_path "politics")).
Proof. split; [reflexivity|]. apply (cmd_list_rescrape_rebuilds rescrape_args srv3 w12). reflexivity. Defined.
End SpecScenario.
