(* ===== verification/ContentCmd.v ===== *)
(** * ContentCmd: the [content] subcommand, [cmd_content] (lines 127-172)

    [cmd_content] is modelled as the code composes it:
    - the missing-ledger report (lines 131-133), which returns without
      raising;
    - [content_dir.mkdir(...)] (line 136);
    - for [--rescrape], [unlink_all] over [content_dir.glob("*.json")] and
      its count (lines 138-143);
    - [load_stubs]: the loop of lines 146-155 over the ledger's lines, which
      skips blank lines and lines [json.loads] rejects;
    - [pending_stubs]: the list comprehension of line 158, which reads
      [s['id']] and tests whether [content_dir / f"{id}.json"] exists;
    - [fetch_one]: one iteration of lines 161-170, whose [try] catches every
      exception of the fetch and of the write, followed by the sleep;
    - the reports of lines 159 and 172.
    [tqdm] only draws a progress bar on the error stream; the loop is the
    plain [for] over [pending].
    Section [convergence] gives the exact effect of one run on the content
    files ([content_run_files]) and runs the command repeatedly
    ([content_runs]): each content file ends up holding the first answer
    the API gave for its id, and a failed fetch is retried. *)

From S2P Require Import Prelude Text PyObj JsonLib CJson World Ledger.
From Stdlib Require Import Ascii String.
Local Open Scope string_scope.
Local Open Scope py_scope.

Record content_args := mk_content_args {
  ca_category : string;
  ca_rescrape : bool
}.

(** [Path("data") / category / "content"]. *)
Definition content_dir (category : string) : string := path_join (category_dir category) "content".

(** [content_dir / f"{article_id}.json"]: an f-string formats with [str]. *)
Definition content_path (cdir : string) (article_id : pyval) : string :=
  path_join cdir (py_str article_id ++ ".json").

Definition content_url : string := API_BASE ++ "/" ++ "content".

(** Lines 139-141. *)
Fixpoint unlink_all (paths : list string) (deleted : Z) : M Z :=
  match paths with
  | [] => mret deleted
  | p :: rest => unlink p ;; unlink_all rest (deleted + 1)%Z
  end.

(** Line 158: the stubs whose content file does not exist, in order. *)
Fixpoint pending_stubs (cdir : string) (stubs : list pyval) : M (list pyval) :=
  match stubs with
  | [] => mret []
  | s :: rest =>
      let* article_id := lift (py_getitem s "id") in
      let* ex := path_exists (content_path cdir article_id) in
      let* rest' := pending_stubs cdir rest in
      mret (if ex then rest' else s :: rest')
  end.

Section content_cmd.
Context `{JsonLib}.

(** Lines 146-155, from the stubs [stubs] collected so far. *)
Fixpoint load_stubs (lines : list string) (stubs : list pyval) : result exn (list pyval) :=
  match lines with
  | [] => Ok stubs
  | l :: rest =>
      let line := py_strip l in
      if String.eqb line EmptyString then load_stubs rest stubs
      else
        match json_loads line with
        | Ok v => load_stubs rest (stubs ++ [v])%list
        | Err e => if is_json_decode_error e then load_stubs rest stubs else Err e
        end
  end.

Definition error_msg (article_id : pyval) (e : exn) : string :=
  String LF ("Error fetching article " ++ py_str article_id ++ ": " ++ exn_str e).

(** Lines 162-170. *)
Definition fetch_one (cdir : string) (stub : pyval) : M unit :=
  let* article_id := lift (py_getitem stub "id") in
  let out_file := content_path cdir article_id in
  try_except
    (let* content := api_get "content" [("id", article_id)] in
     write_text out_file (json_dump_indent content))
    (fun _ => true)
    (fun e => print (error_msg article_id e)) ;;
  sleep REQUEST_DELAY_MS.

Definition pending_msg (pending total : nat) : string :=
  "Content: " ++ z_to_str (Z.of_nat pending) ++ "/" ++ z_to_str (Z.of_nat total)
  ++ " articles pending download".

(** Lines 138-143. *)
Definition rescrape_content (cdir : string) : M unit :=
  let* files := glob_json cdir in
  let* deleted := unlink_all files 0 in
  print ("Deleted " ++ z_to_str deleted ++ " existing content files in " ++ cdir).

Definition cmd_content (args : content_args) : M unit :=
  let category := ca_category args in
  let list_file := list_path category in
  let* ex := path_exists list_file in
  if negb ex then
    print ("Error: " ++ list_file ++ " not found. Run 'scrape list " ++ category ++ "' first.")
  else
    let cdir := content_dir category in
    mkdir_parents cdir ;;
    (if ca_rescrape args then rescrape_content cdir else mret tt) ;;
    let* text := read_text list_file in
    let* stubs := lift (load_stubs (text_lines text) []) in
    let* pending := pending_stubs cdir stubs in
    print (pending_msg (List.length pending) (List.length stubs)) ;;
    for_each pending (fetch_one cdir) ;;
    print ("Done. Content saved to " ++ cdir).
End content_cmd.

(** ** Lemmas *)

Lemma srv_free_pending_stubs cdir stubs : srv_free (pending_stubs cdir stubs).
Proof. induction stubs; simpl; auto with srv_free. Qed.

Lemma srv_free_unlink_all ps d : srv_free (unlink_all ps d).
Proof. revert d. induction ps; simpl; auto with srv_free. Qed.

#[export] Hint Resolve srv_free_pending_stubs srv_free_unlink_all : srv_free.

(** The test of line 158: whether the content file of the stub with id
    [i] exists in [w]. *)
Definition content_exists (w : world) (cdir : string) (s : pyval) : bool :=
  match py_getitem s "id" with
  | Ok i => is_file w (content_path cdir i) || is_dir w (content_path cdir i)
  | Err _ => false
  end.

Definition stub_ids (stubs : list pyval) : result exn (list pyval) :=
  res_mapM (fun s => py_getitem s "id") stubs.

Lemma pending_stubs_ids cdir stubs srv w p w' :
  pending_stubs cdir stubs srv w = (Ok p, w') -> exists ids, stub_ids p = Ok ids.
Proof.
  unfold stub_ids. revert p w w'. induction stubs as [|s stubs IH]; intros p w w'; simpl.
  { intros [= <- _]. by exists []. }
  unfold mbind at 1, lift. destruct (py_getitem s "id") as [i|] eqn:Hi; [|done].
  unfold mbind, path_exists. destruct (pending_stubs cdir stubs srv w) as [[p'|] w1] eqn:Hp; [|done].
  destruct (IH _ _ _ Hp) as [ids Hids]. destruct (_ || _); intros [= <- _]; [by exists ids|].
  simpl. rewrite Hi, Hids. simpl. eauto.
Qed.

(** C8: The pending list is the stubs, in ledger order, whose content file
    does not exist, and reading it changes nothing; a stub without an id
    makes it raise, with the first such stub's error. *)
Lemma pending_stubs_spec cdir stubs srv w :
  pending_stubs cdir stubs srv w =
    (res_map (fun _ => List.filter (fun s => negb (content_exists w cdir s)) stubs) (stub_ids stubs), w).
Proof.
  unfold stub_ids. induction stubs as [|s stubs IH]; [done|]. cbn [pending_stubs res_mapM].
  unfold mbind at 1, lift, content_exists. simpl.
  destruct (py_getitem s "id") as [i|e]; simpl; [|done].
  unfold mbind. simpl. rewrite IH. destruct (res_mapM _ stubs); simpl; [|done].
  by destruct (is_file w _ || is_dir w _).
Qed.

Section downloads.
Context `{JsonLib}.

(** One iteration of lines 161-170 never raises: it requests the
    content of [i], prints an error or writes only [i]'s content file,
    and sleeps. *)
Lemma fetch_one_run cdir stub i srv w :
  py_getitem stub "id" = Ok i ->
  exists w' pr, fetch_one cdir stub srv w = (Ok tt, w') /\
    w_trace w' = (w_trace w ++ [EGet content_url [("id", i)]] ++ pr ++ [ESleep REQUEST_DELAY_MS])%list /\
    Forall (fun e => exists s, e = EPrint s) pr /\
    (forall p, p <> content_path cdir i -> w_files w' !! p = w_files w !! p).
Proof.
  intros Hi. unfold fetch_one, mbind, lift, try_except. rewrite Hi.
  unfold api_get. fold content_url.
  assert (Herr : forall e, exists w' pr,
    (@Ok exn unit tt, record (ESleep REQUEST_DELAY_MS) (record (EPrint (error_msg i e))
       (record (EGet content_url [("id", i)]) w))) = (Ok tt, w') /\
    w_trace w' = (w_trace w ++ [EGet content_url [("id", i)]] ++ pr ++ [ESleep REQUEST_DELAY_MS])%list /\
    Forall (fun e => exists s, e = EPrint s) pr /\
    (forall p, p <> content_path cdir i -> w_files w' !! p = w_files w !! p)).
  { intros e. eexists; exists [EPrint (error_msg i e)]. split_and!; [done|simpl; by rewrite <-!app_assoc| |done].
    constructor; [by eexists|constructor]. }
  destruct (srv _) as [resp|]; simpl; [|apply Herr].
  destruct (_ && _); simpl; [apply Herr|].
  destruct (json_loads _) as [c|e]; simpl; [|apply Herr].
  unfold write_text. destruct (check_writable _ _); simpl; [apply Herr|].
  eexists; exists []. split_and!; [done|simpl; by rewrite <-!app_assoc|constructor|].
  intros p Hp. simpl. by rewrite lookup_insert_ne.
Qed.

(** C7: The loop of lines 161-170 never raises. It requests the content of
    each pending stub once, in order, each request followed by the delay,
    and writes no file but the pending stubs' content files. *)
Lemma fetch_all_run cdir pending ids srv w :
  stub_ids pending = Ok ids ->
  exists w' tr, for_each pending (fetch_one cdir) srv w = (Ok tt, w') /\
    w_trace w' = (w_trace w ++ tr)%list /\
    net_events tr = flat_map (fun i => [EGet content_url [("id", i)]; ESleep REQUEST_DELAY_MS]) ids /\
    (forall p, Forall (fun i => p <> content_path cdir i) ids -> w_files w' !! p = w_files w !! p).
Proof.
  revert ids w. induction pending as [|s pending IH]; intros ids w Hids; simpl.
  - injection Hids as <-. exists w, []. split_and!; [done|by rewrite app_nil_r|done|done].
  - unfold stub_ids in Hids. simpl in Hids.
    destruct (py_getitem s "id") as [i|] eqn:Hi; simpl in Hids; [|done].
    destruct (res_mapM _ pending) as [ids'|] eqn:Hr; simpl in Hids; [|done]. injection Hids as <-.
    destruct (fetch_one_run cdir s i srv w Hi) as (w1 & pr & Hrun & Htr & Hpr & Hf).
    destruct (IH ids' w1 Hr) as (w2 & tr & Hrun2 & Htr2 & Hnet & Hf2).
    exists w2, ([EGet content_url [("id", i)]] ++ pr ++ [ESleep REQUEST_DELAY_MS] ++ tr)%list.
    unfold mbind. rewrite Hrun. split_and!; [done|by rewrite Htr2, Htr, <-!app_assoc| |].
    + rewrite !net_events_app, (net_events_prints pr Hpr). simpl. by rewrite Hnet.
    + intros p [Hp1 Hp2]%Forall_cons. rewrite Hf2 by done. by apply Hf.
Qed.

Lemma fetch_all_ok cdir pending ids srv w :
  stub_ids pending = Ok ids -> (for_each pending (fetch_one cdir) srv w).1 = Ok tt.
Proof.
  unfold stub_ids. revert ids w. induction pending as [|s pending IH]; intros ids w Hids; [done|].
  simpl in Hids. destruct (py_getitem s "id") as [i|] eqn:Hi; simpl in Hids; [|done].
  destruct (res_mapM _ pending) as [ids'|] eqn:Hr; simpl in Hids; [|done].
  destruct (fetch_one_run cdir s i srv w Hi) as (w1 & _ & Hrun & _). simpl.
  unfold mbind. rewrite Hrun. by eapply IH.
Qed.
End downloads.

Lemma stub_ids_filter (f : pyval -> bool) stubs ids :
  stub_ids stubs = Ok ids -> exists ids', stub_ids (List.filter f stubs) = Ok ids'.
Proof.
  unfold stub_ids. revert ids. induction stubs as [|s stubs IH]; intros ids; simpl; [eauto|].
  destruct (py_getitem s "id") as [i|] eqn:Hs; simpl; [|done].
  destruct (res_mapM _ stubs) as [ids1|]; simpl; [|done]. intros _.
  destruct (IH _ eq_refl) as [ids' Hids']. destruct (f s); simpl; [rewrite Hs, Hids'; simpl|]; eauto.
Qed.

(** [unlink_all] that completes has deleted each of its paths, and nothing
    else. *)
Lemma unlink_all_files ps d srv w n w' :
  unlink_all ps d srv w = (Ok n, w') ->
  forall p, w_files w' !! p = if decide (p ∈ ps) then None else w_files w !! p.
Proof.
  revert d w. induction ps as [|q ps IH]; intros d w; simpl.
  - by intros [= _ <-] p.
  - unfold mbind, unlink. destruct (is_file w q); [|by destruct (is_dir w q)].
    intros Hrun p. rewrite (IH _ _ Hrun p). simpl.
    destruct (decide (p = q)) as [->|Hne]; [rewrite lookup_delete_eq|rewrite lookup_delete_ne by done];
      repeat case_decide; set_solver.
Qed.

Section isolation.
Context `{JsonLib}.

(** C6: A failure of the server never changes the outcome of [content]:
    whether the command completes, and the exception it raises when it
    does not, are the same for every server. Each article's fetch is
    isolated by the [try] of lines 163-169. *)
Theorem cmd_content_isolated args srv1 srv2 w :
  (cmd_content args srv1 w).1 = (cmd_content args srv2 w).1.
Proof.
  unfold cmd_content. apply mbind_srv_free; [auto with srv_free|]. intros ex w1 _.
  destruct (negb ex); [done|].
  apply mbind_srv_free; [auto with srv_free|]. intros u w2 _.
  apply mbind_srv_free; [destruct (ca_rescrape args); unfold rescrape_content; auto with srv_free|].
  intros u' w3 _.
  apply mbind_srv_free; [auto with srv_free|]. intros text w4 _.
  apply mbind_srv_free; [auto with srv_free|]. intros stubs w5 _.
  apply mbind_srv_free; [auto with srv_free|]. intros pending w6 Hp.
  destruct (pending_stubs_ids _ _ _ _ _ _ Hp) as [ids Hids].
  apply mbind_srv_free; [auto with srv_free|]. intros u'' w7 _.
  unfold mbind.
  destruct (for_each pending _ srv1 w7) as [r1 wa] eqn:Ha.
  destruct (for_each pending _ srv2 w7) as [r2 wb] eqn:Hb.
  pose proof (fetch_all_ok (content_dir (ca_category args)) _ _ srv1 w7 Hids) as H1.
  pose proof (fetch_all_ok (content_dir (ca_category args)) _ _ srv2 w7 Hids) as H2.
  rewrite Ha in H1. rewrite Hb in H2. simpl in H1, H2. by subst.
Qed.

(** C10: After [content --rescrape] has deleted the content files (lines
    138-143) without raising, no [*.json] entry is left in the content
    directory, and no other file has changed. *)
Theorem rescrape_content_empties cdir srv w w' :
  (rescrape_content cdir srv w).1 = Ok tt -> w' = (rescrape_content cdir srv w).2 ->
  forall p, w_files w' !! p = if json_entry cdir p then None else w_files w !! p.
Proof.
  intros Hok -> p. unfold rescrape_content, glob_json, mbind in *. simpl in *.
  destruct (unlink_all _ 0 srv w) as [[n|e] w1] eqn:Hu; [|done]. simpl.
  rewrite (unlink_all_files _ _ _ _ _ _ Hu p).
  destruct (json_entry cdir p) eqn:Hj; case_decide as Hin; try done.
  - destruct (w_files w !! p) as [c|] eqn:Hp; [|done]. exfalso. apply Hin.
    apply elem_of_app. left. apply list_elem_of_filter. split; [by rewrite Hj|].
    apply list_elem_of_In, in_map_iff. exists (p, c). split; [done|]. by apply list_elem_of_In, elem_of_map_to_list.
  - apply elem_of_app in Hin as [Hin|Hin]; apply list_elem_of_filter in Hin as [Hin _]; by rewrite Hj in Hin.
Qed.
End isolation.

Section missing.
Context `{JsonLib}.

Definition missing_msg (category : string) : string :=
  "Error: " ++ list_path category ++ " not found. Run 'scrape list " ++ category ++ "' first.".

(** C11: Without a ledger, [content] reports it and does nothing else: no
    request, no file or directory, and no exception (lines 130-133). *)
Theorem cmd_content_missing_ledger args srv w :
  w_files w !! list_path (ca_category args) = None -> list_path (ca_category args) ∉ w_dirs w ->
  cmd_content args srv w = (Ok tt, record (EPrint (missing_msg (ca_category args))) w).
Proof.
  intros Hf Hd. unfold cmd_content, mbind, path_exists, is_file, is_dir. rewrite Hf.
  rewrite (bool_decide_eq_false_2 (is_Some None)) by (by intros []).
  rewrite (bool_decide_eq_false_2 (_ ∈ w_dirs w)) by done.
  by replace (list_path (ca_category args) =? EmptyString) with false.
Qed.
End missing.

(** ** Repeated runs of [content] download every article

    The pending list is recomputed from the content files at each run
    (line 158), a fetch that fails leaves no file (lines 164-169), and a
    file, once written, is never pending again; so each article is
    downloaded by the first run whose API answers it, and only then. *)

(** The content file of [i] exists (the test of line 158). *)
Definition content_done (w : world) (cdir : string) (i : pyval) : bool :=
  is_file w (content_path cdir i) || is_dir w (content_path cdir i).

(** Line 158 on a stub with an id. *)
Lemma content_exists_done w cdir s i :
  py_getitem s "id" = Ok i -> content_exists w cdir s = content_done w cdir i.
Proof. intros Hi. unfold content_exists. by rewrite Hi. Qed.

(** A file name made from an id: no slash. *)
Definition id_ok (s : pyval) : Prop :=
  exists i, py_getitem s "id" = Ok i /\ has_char "/" (py_str i) = false.

Lemma stub_ids_ok stubs : Forall id_ok stubs -> exists ids, stub_ids stubs = Ok ids.
Proof.
  unfold stub_ids. induction 1 as [|s stubs (i & Hi & _) _ (ids & Hids)]; [by exists []|].
  exists (i :: ids). cbn. by rewrite Hi, Hids.
Qed.

(** Distinct ids of the ledger name distinct content files ([str()] of
    the ids is injective on them, as for integer ids). *)
Definition paths_inj (cdir : string) (stubs : list pyval) : Prop :=
  forall s1 s2 i1 i2, s1 ∈ stubs -> s2 ∈ stubs ->
    py_getitem s1 "id" = Ok i1 -> py_getitem s2 "id" = Ok i2 ->
    content_path cdir i1 = content_path cdir i2 -> i1 = i2.

Lemma paths_inj_sub cdir l l' : (forall s, s ∈ l' -> s ∈ l) -> paths_inj cdir l -> paths_inj cdir l'.
Proof. intros Hsub Hinj s1 s2 i1 i2 H1 H2. apply Hinj; auto. Qed.

(** The ledger and the ancestors of the content directory are no
    content file. *)
Lemma str_app_inj_l (a x y : string) : a ++ x = a ++ y -> x = y.
Proof. induction a as [|c a IH]; [done|]. intros [= H]. by apply IH. Qed.

Lemma list_path_not_content cat i : list_path cat <> content_path (content_dir cat) i.
Proof.
  unfold list_path, content_path, content_dir, path_join. rewrite <-!str_app_assoc.
  intros H%str_app_inj_l. discriminate H.
Qed.

Lemma prefix_not_content cdir q i : q ∈ path_prefixes cdir -> q <> content_path cdir i.
Proof.
  intros Hq ->. apply path_prefixes_len in Hq. unfold content_path, path_join in Hq.
  rewrite !str_length_app in Hq. cbn in Hq. lia.
Qed.

(** [content_dir.mkdir(parents=True)] creates no content file's path. *)
Lemma is_dir_mkdir_content cdir i w :
  is_dir (set_dirs (list_to_set (path_prefixes cdir) ∪ w_dirs w) w) (content_path cdir i) =
  is_dir w (content_path cdir i).
Proof.
  pose proof (prefix_not_content cdir (content_path cdir i) i) as Hn.
  unfold is_dir. cbn [w_dirs set_dirs]. f_equal.
  case_bool_decide as H1; case_bool_decide as H2; try done; exfalso; set_solver.
Qed.

Section convergence.
Context `{JsonLib}.

(** The API's answer to the content request of [i] (lines 164-165): by
    [api_get_uniform], it does not depend on the world. *)
Definition content_answer (srv : server) (i : pyval) : result exn pyval :=
  (api_get "content" [("id", i)] srv (mk_world ∅ ∅ [])).1.

Lemma api_get_content srv i w :
  api_get "content" [("id", i)] srv w = (content_answer srv i, record (EGet content_url [("id", i)]) w).
Proof.
  unfold content_answer. destruct (api_get_uniform "content" [("id", i)] srv) as [r Hr]. by rewrite !Hr.
Qed.

(** What lines 164-169 leave in the content file: the pretty-printed
    answer, or the file as it was when the fetch raised. *)
Definition written (r : result exn pyval) (old : option string) : option string :=
  match r with Ok v => Some (json_dump_indent v) | Err _ => old end.

Lemma fetch_one_files cdir stub i srv w :
  py_getitem stub "id" = Ok i -> is_dir w cdir = true -> has_char "/" (py_str i) = false ->
  is_dir w (content_path cdir i) = false ->
  let w' := (fetch_one cdir stub srv w).2 in
  w_dirs w' = w_dirs w /\
  w_files w' !! content_path cdir i = written (content_answer srv i) (w_files w !! content_path cdir i) /\
  (forall p, p <> content_path cdir i -> w_files w' !! p = w_files w !! p).
Proof.
  intros Hi Hd Hn Hnd w'. subst w'. unfold fetch_one, mbind at 1, lift. rewrite Hi.
  unfold try_except, mbind. rewrite api_get_content.
  destruct (content_answer srv i) as [c|e]; cbn [written]; [|done].
  unfold write_text. replace (check_writable _ (content_path cdir i)) with (@None exn).
  - cbn [sleep fst snd w_files w_dirs record set_files]. split_and!; [done|by rewrite lookup_insert_eq|].
    intros p Hp. by rewrite lookup_insert_ne by congruence.
  - unfold check_writable. rewrite !is_dir_record, Hnd. unfold content_path.
    by rewrite parent_join, Hd by (rewrite has_char_app; by apply orb_false_iff).
Qed.

Lemma written_idem r o : written r (written r o) = written r o.
Proof. by destruct r. Qed.

(** Some stub of [l] has [p] as its content file. *)
Definition hits (cdir : string) (l : list pyval) (p : string) : bool :=
  existsb (fun s => match py_getitem s "id" with
                    | Ok j => bool_decide (content_path cdir j = p)
                    | Err _ => false
                    end) l.

Lemma hits_true cdir l p :
  hits cdir l p = true -> exists s j, s ∈ l /\ py_getitem s "id" = Ok j /\ content_path cdir j = p.
Proof.
  unfold hits. intros (s & Hs & Hm)%existsb_exists. cbv beta in Hm.
  destruct (py_getitem s "id") as [j|] eqn:Hj; [|done].
  apply bool_decide_eq_true in Hm. exists s, j. split_and!; [by apply list_elem_of_In|done|done].
Qed.

Lemma hits_false cdir l p :
  hits cdir l p = false <-> forall s j, s ∈ l -> py_getitem s "id" = Ok j -> content_path cdir j <> p.
Proof.
  unfold hits. rewrite <-not_true_iff_false, existsb_exists. split.
  - intros Hn s j Hs Hj Hp. apply Hn. exists s. split; [by apply list_elem_of_In|]. cbv beta. rewrite Hj.
    by apply bool_decide_eq_true.
  - intros Hn (s & Hs & Hm). cbv beta in Hm. destruct (py_getitem s "id") as [j|] eqn:Hj; [|done].
    apply bool_decide_eq_true in Hm. apply (Hn s j); [by apply list_elem_of_In|done|done].
Qed.

(** The loop of lines 161-170: each pending stub's content file holds
    what its fetch left, and no other file changes. *)
Lemma fetch_all_files cdir pending srv w :
  is_dir w cdir = true -> Forall id_ok pending -> paths_inj cdir pending ->
  (forall s i, s ∈ pending -> py_getitem s "id" = Ok i -> is_dir w (content_path cdir i) = false) ->
  let w' := (for_each pending (fetch_one cdir) srv w).2 in
  w_dirs w' = w_dirs w /\
  (forall p, hits cdir pending p = false -> w_files w' !! p = w_files w !! p) /\
  (forall s i, s ∈ pending -> py_getitem s "id" = Ok i ->
     w_files w' !! content_path cdir i = written (content_answer srv i) (w_files w !! content_path cdir i)).
Proof.
  revert w. induction pending as [|s rest IH]; intros w Hd Hok Hinj Hnd w'.
  { split_and!; [done|done|]. intros s i Hs. by apply not_elem_of_nil in Hs. }
  apply Forall_cons in Hok as [(i & Hi & Hn) Hok].
  destruct (fetch_one_run cdir s i srv w Hi) as (w1 & _ & Hrun & _).
  pose proof (fetch_one_files cdir s i srv w Hi Hd Hn (Hnd s i (list_elem_of_here _ _) Hi)) as Hf.
  rewrite Hrun in Hf. cbn [snd] in Hf. destruct Hf as (Hd1 & Hf1 & Hfr1).
  assert (Hdir1 : forall p, is_dir w1 p = is_dir w p) by (intros p; unfold is_dir; by rewrite Hd1).
  destruct (IH w1) as (Hd2 & Hfr2 & Hf2).
  { by rewrite Hdir1. }
  { exact Hok. }
  { apply (paths_inj_sub _ (s :: rest)); [set_solver|exact Hinj]. }
  { intros s' i' Hs' Hi'. rewrite Hdir1. apply (Hnd s' i'); [set_solver|done]. }
  assert (Heq : for_each (s :: rest) (fetch_one cdir) srv w = for_each rest (fetch_one cdir) srv w1)
    by (cbn [for_each]; unfold mbind; by rewrite Hrun).
  subst w'. rewrite Heq. split_and!.
  - congruence.
  - intros p Hp. pose proof (proj1 (hits_false _ _ _) Hp) as Hp'. clear Hp. rename Hp' into Hp. rewrite Hfr2.
    + apply Hfr1. intros ->. apply (Hp s i); [set_solver|done|done].
    + apply (proj2 (hits_false _ _ _)). intros s' j Hs' Hj. apply (Hp s' j); [set_solver|done].
  - intros s' i' Hs' Hi'.
    assert (Hsame : forall j, content_path cdir j = content_path cdir i' -> forall t, t ∈ s :: rest ->
              py_getitem t "id" = Ok j -> j = i') by (intros j Hj t Ht Htj; exact (Hinj t s' j i' Ht Hs' Htj Hi' Hj)).
    destruct (hits cdir rest (content_path cdir i')) eqn:Eh.
    + apply hits_true in Eh as (s'' & j & Hs'' & Hj & Hpj).
      assert (j = i') as -> by (apply (Hsame j Hpj s''); [set_solver|done]).
      rewrite (Hf2 s'' i' Hs'' Hj).
      destruct (decide (content_path cdir i' = content_path cdir i)) as [Hp|Hp].
      * assert (i = i') as <- by (apply (Hsame i (eq_sym Hp) s); [set_solver|done]).
        by rewrite Hf1, written_idem.
      * by rewrite (Hfr1 _ Hp).
    + rewrite Hfr2 by exact Eh. apply elem_of_cons in Hs' as [->|Hs'].
      * rewrite Hi in Hi'. injection Hi' as <-. exact Hf1.
      * exfalso. by apply (proj1 (hits_false _ _ _) Eh s' i').
Qed.

Lemma content_done_mkdir cdir i w :
  content_done (set_dirs (list_to_set (path_prefixes cdir) ∪ w_dirs w) w) cdir i = content_done w cdir i.
Proof. unfold content_done. by rewrite is_dir_mkdir_content. Qed.

(** One run of [content] without [--rescrape] on a ledger whose stubs
    all have an id: the ledger and the ancestors of the content directory
    are left alone, no content path becomes or stops being a directory,
    and the content file of each stub is what it was if it existed, and
    otherwise the server's answer, or nothing when the fetch failed. *)
Lemma content_run_files args srv w c stubs :
  ca_rescrape args = false ->
  w_files w !! list_path (ca_category args) = Some c ->
  load_stubs (text_lines c) [] = Ok stubs -> Forall id_ok stubs ->
  paths_inj (content_dir (ca_category args)) stubs ->
  (forall q, q ∈ path_prefixes (content_dir (ca_category args)) -> is_file w q = false) ->
  let w' := (cmd_content args srv w).2 in
  w_files w' !! list_path (ca_category args) = Some c /\
  (forall q, q ∈ path_prefixes (content_dir (ca_category args)) -> is_file w' q = false) /\
  (forall s i, s ∈ stubs -> py_getitem s "id" = Ok i ->
     is_dir w' (content_path (content_dir (ca_category args)) i) =
       is_dir w (content_path (content_dir (ca_category args)) i) /\
     w_files w' !! content_path (content_dir (ca_category args)) i =
       if content_done w (content_dir (ca_category args)) i
       then w_files w !! content_path (content_dir (ca_category args)) i
       else written (content_answer srv i) None).
Proof.
  intros Hr Hf Hl Hok Hinj Hpre w'. subst w'.
  set (cdir := content_dir (ca_category args)) in *.
  destruct (stub_ids_ok _ Hok) as [ids Hids].
  set (w1 := set_dirs (list_to_set (path_prefixes cdir) ∪ w_dirs w) w).
  set (pending := List.filter (fun s => negb (content_exists w1 cdir s)) stubs).
  set (w2 := record (EPrint (pending_msg (List.length pending) (List.length stubs))) w1).
  destruct (stub_ids_filter (fun s => negb (content_exists w1 cdir s)) _ _ Hids) as [ids' Hids'].
  fold pending in Hids'.
  destruct (fetch_all_run cdir pending ids' srv w2 Hids') as (w3 & tr3 & E3 & _ & _ & _).
  assert (Hrun : cmd_content args srv w = (Ok tt, record (EPrint ("Done. Content saved to " ++ cdir)) w3)).
  { unfold cmd_content. cbv zeta. fold cdir.
    rewrite (mbind_ok (path_exists _) _ srv w true w)
      by (unfold path_exists, is_file; rewrite Hf; by rewrite bool_decide_eq_true_2 by by eexists).
    cbn [negb]. rewrite (mbind_ok (mkdir_parents _) _ srv w tt w1) by (apply mkdir_each_run; exact Hpre).
    rewrite Hr, mbind_ret.
    rewrite (mbind_ok (read_text _) _ srv w1 c w1) by (unfold read_text, w1; cbn [w_files set_dirs]; by rewrite Hf).
    rewrite mbind_lift, Hl. rewrite (mbind_ok (pending_stubs _ _) _ srv w1 pending w1) by (by rewrite pending_stubs_spec, Hids).
    rewrite mbind_print. fold w2. by rewrite (mbind_ok _ _ srv w2 tt w3 E3). }
  rewrite Hrun. cbn [snd]. setoid_rewrite is_file_record. setoid_rewrite is_dir_record. cbn [w_files record].
  assert (Hpend : forall s, s ∈ pending <-> s ∈ stubs /\ content_exists w1 cdir s = false).
  { intros st. unfold pending. rewrite !list_elem_of_In, filter_In, negb_true_iff. done. }
  assert (Hd2 : is_dir w2 cdir = true).
  { unfold is_dir, w2, w1. cbn [record set_dirs w_dirs]. apply orb_true_iff. right. apply bool_decide_eq_true.
    apply elem_of_union_l, elem_of_list_to_set, path_prefixes_self. }
  destruct (fetch_all_files cdir pending srv w2) as (Hd3 & Hfr3 & Hf3).
  { exact Hd2. }
  { apply Forall_forall. intros st [Hst _]%Hpend. by eapply Forall_forall in Hok. }
  { apply (paths_inj_sub _ stubs); [intros st [? _]%Hpend; done|exact Hinj]. }
  { intros st i [_ Hx]%Hpend Hi. rewrite (content_exists_done _ _ _ _ Hi) in Hx.
    apply orb_false_iff in Hx as [_ Hx]. exact Hx. }
  rewrite E3 in Hd3, Hfr3, Hf3. cbn [snd] in Hd3, Hfr3, Hf3.
  assert (Hdir3 : forall p, is_dir w3 p = is_dir w1 p) by (intros p; unfold is_dir; by rewrite Hd3).
  unfold w1 in Hdir3, Hpend.
  split_and!.
  - rewrite Hfr3; [exact Hf|]. apply hits_false. intros st j _ _. apply not_eq_sym, list_path_not_content.
  - intros q Hq. unfold is_file. rewrite Hfr3; [exact (Hpre q Hq)|].
    apply hits_false. intros st j _ _. apply not_eq_sym. by apply prefix_not_content.
  - intros st i Hst Hi. split; [by rewrite Hdir3, is_dir_mkdir_content|].
    destruct (content_done w cdir i) eqn:Hdone.
    + rewrite Hfr3; [done|]. apply hits_false. intros st' j [_ Hx]%Hpend Hj Hp.
      rewrite (content_exists_done _ _ _ _ Hj), content_done_mkdir in Hx.
      unfold content_done in Hx, Hdone. rewrite Hp in Hx. congruence.
    + rewrite (Hf3 st i); [|apply Hpend; split; [done|by rewrite (content_exists_done _ _ _ _ Hi), content_done_mkdir]|done].
      unfold content_done in Hdone. apply orb_false_iff in Hdone as [Hnf _].
      unfold w2, w1. cbn [w_files record set_dirs]. by rewrite (is_file_false _ _ Hnf).
Qed.

Lemma filter_all_false {A} (f : A -> bool) l : Forall (fun x => f x = false) l -> List.filter f l = [].
Proof. induction 1 as [|x l Hx _ IH]; [done|]. cbn. by rewrite Hx. Qed.

(** [scrape content <category>] run once against each server in turn
    ([srvs] are the states of the API at successive runs). *)
Fixpoint content_runs (args : content_args) (srvs : list server) (w : world) : world :=
  match srvs with
  | [] => w
  | srv :: rest => content_runs args rest (cmd_content args srv w).2
  end.

(** The first answer the API gives to the content request of [i] over
    the runs. *)
Fixpoint first_answer (srvs : list server) (i : pyval) : option pyval :=
  match srvs with
  | [] => None
  | srv :: rest =>
      match content_answer srv i with
      | Ok v => Some v
      | Err _ => first_answer rest i
      end
  end.

Lemma content_done_files w w' cdir i :
  w_files w' !! content_path cdir i = w_files w !! content_path cdir i ->
  is_dir w' (content_path cdir i) = is_dir w (content_path cdir i) ->
  content_done w' cdir i = content_done w cdir i.
Proof. intros Hf Hd. unfold content_done, is_file. by rewrite Hf, Hd. Qed.

Lemma content_runs_files args srvs w c stubs :
  ca_rescrape args = false ->
  w_files w !! list_path (ca_category args) = Some c ->
  load_stubs (text_lines c) [] = Ok stubs -> Forall id_ok stubs ->
  paths_inj (content_dir (ca_category args)) stubs ->
  (forall q, q ∈ path_prefixes (content_dir (ca_category args)) -> is_file w q = false) ->
  forall s i, s ∈ stubs -> py_getitem s "id" = Ok i ->
    is_dir (content_runs args srvs w) (content_path (content_dir (ca_category args)) i) =
      is_dir w (content_path (content_dir (ca_category args)) i) /\
    w_files (content_runs args srvs w) !! content_path (content_dir (ca_category args)) i =
      if content_done w (content_dir (ca_category args)) i
      then w_files w !! content_path (content_dir (ca_category args)) i
      else option_map json_dump_indent (first_answer srvs i).
Proof.
  intros Hr Hf Hl Hok Hinj. revert w Hf.
  induction srvs as [|srv rest IH]; intros w Hf Hpre s i Hs Hi; cbn [content_runs first_answer].
  - split; [done|]. destruct (content_done w _ i) eqn:Hd; [done|].
    apply orb_false_iff in Hd as [Hnf _]. by rewrite (is_file_false _ _ Hnf).
  - destruct (content_run_files args srv w c stubs Hr Hf Hl Hok Hinj Hpre) as (Hf' & Hpre' & Hfiles).
    destruct (Hfiles s i Hs Hi) as [Hd1 Hf1].
    destruct (IH _ Hf' Hpre' s i Hs Hi) as [Hd2 Hf2]. rewrite Hd2, Hf2, Hd1. split; [done|].
    destruct (content_done w _ i) eqn:Hd.
    + by rewrite (content_done_files _ _ _ _ Hf1 Hd1), Hd.
    + destruct (content_answer srv i) as [v|e] eqn:Ha; cbn [written] in Hf1.
      * replace (content_done _ _ i) with true; [done|].
        unfold content_done, is_file. by rewrite Hf1, bool_decide_eq_true_2 by by eexists.
      * replace (content_done _ _ i) with false; [done|]. symmetry. unfold content_done, is_file.
        rewrite Hf1, Hd1. unfold content_done in Hd. apply orb_false_iff in Hd as [_ ->].
        by rewrite bool_decide_eq_false_2 by (by intros []).
Qed.

(** C19: Liveness of [content]: over runs without [--rescrape] against the
    API's successive states, every article is downloaded, by the first run
    whose API answers it, and a fetch that fails is retried by the next
    run. The content file of each stub is afterwards what it was if it
    existed before the runs, else the pretty-printed first answer, or
    absent if no run got one. So once every id has been answered, no stub
    is pending and a further run requests nothing. The ids are file names
    ([id_ok]) and distinct ids name distinct files ([paths_inj]). *)
Theorem content_runs_download args srvs w c stubs :
  ca_rescrape args = false ->
  w_files w !! list_path (ca_category args) = Some c ->
  load_stubs (text_lines c) [] = Ok stubs -> Forall id_ok stubs ->
  paths_inj (content_dir (ca_category args)) stubs ->
  (forall q, q ∈ path_prefixes (content_dir (ca_category args)) -> is_file w q = false) ->
  (forall s i, s ∈ stubs -> py_getitem s "id" = Ok i ->
     w_files (content_runs args srvs w) !! content_path (content_dir (ca_category args)) i =
       if content_done w (content_dir (ca_category args)) i
       then w_files w !! content_path (content_dir (ca_category args)) i
       else option_map json_dump_indent (first_answer srvs i)) /\
  ((forall s i, s ∈ stubs -> py_getitem s "id" = Ok i -> is_Some (first_answer srvs i)) ->
   forall srv, pending_stubs (content_dir (ca_category args)) stubs srv (content_runs args srvs w) =
               (Ok [], content_runs args srvs w)).
Proof.
  intros Hr Hf Hl Hok Hinj Hpre.
  pose proof (content_runs_files args srvs w c stubs Hr Hf Hl Hok Hinj Hpre) as Hfiles.
  split; [intros s i Hs Hi; exact (proj2 (Hfiles s i Hs Hi))|].
  intros Hans srv. destruct (stub_ids_ok _ Hok) as [ids Hids].
  rewrite pending_stubs_spec, Hids. cbn [res_map]. do 2 f_equal.
  apply filter_all_false. apply Forall_forall. intros s Hs.
  eapply Forall_forall in Hok; [|exact Hs]. destruct Hok as (i & Hi & _).
  rewrite (content_exists_done _ _ _ _ Hi). apply negb_false_iff.
  destruct (Hfiles s i Hs Hi) as [Hd Hf'].
  destruct (content_done w _ i) eqn:Hdone.
  - by rewrite (content_done_files _ _ _ _ Hf' Hd).
  - destruct (Hans s i Hs Hi) as [v Hv]. rewrite Hv in Hf'. cbn [option_map] in Hf'.
    unfold content_done, is_file. by rewrite Hf', bool_decide_eq_true_2 by by eexists.
Qed.

End convergence.

(** ** The two readers of the ledger

    [list] reads the ledger with [load_existing_ids] (lines 34-48), keeping
    [int(a["id"])] of every line that decodes to a record with an id;
    [content] reads it with [load_stubs] (lines 146-155), keeping every
    line that decodes. On the lines [list] itself writes they agree. *)
Section readers.
Context `{JsonLibLaws}.

Lemma load_stubs_app l1 l2 acc :
  load_stubs (l1 ++ l2) acc = res_bind (load_stubs l1 acc) (load_stubs l2).
Proof.
  revert acc. induction l1 as [|l l1 IH]; intros acc; simpl; [done|].
  destruct (String.eqb _ _); [apply IH|]. destruct (json_loads _); [apply IH|].
  by destruct (is_json_decode_error _).
Qed.

Lemma load_stubs_records arts acc :
  Forall py_wf arts -> load_stubs (map record_line arts) acc = Ok (acc ++ arts)%list.
Proof.
  revert acc. induction arts as [|a arts IH]; intros acc Hwf; simpl; [by rewrite app_nil_r|].
  apply Forall_cons in Hwf as [Ha Hwf].
  rewrite record_line_strip, (proj2 (String.eqb_neq _ _) (dumps_nonempty a)).
  rewrite <-record_line_strip, record_line_loads by done. rewrite IH by done. by rewrite <-app_assoc.
Qed.

(** C17: Equivalence of the ledger's two readers on what [list] writes:
    after records of articles [arts] with ids [zs] are appended to a
    ledger that ends with a line feed, [content] reads the stubs it read
    before followed by [arts], in order, and [list] reads the ids it read
    before followed by [zs]. *)
Theorem ledger_readers_agree c arts zs :
  ends_nl c = true -> Forall2 (fun a i => py_wf a /\ article_id a = Ok i) arts zs ->
  load_stubs (text_lines (c ++ ledger_text arts)) [] = res_map (fun st => st ++ arts)%list (load_stubs (text_lines c) []) /\
  record_ids (c ++ ledger_text arts) = (record_ids c ++ zs)%list.
Proof.
  intros Hc Hf. split; [|by apply record_ids_ledger_text].
  rewrite text_lines_ledger_text, load_stubs_app by done.
  destruct (load_stubs (text_lines c) []) as [st|e]; simpl; [|done].
  apply load_stubs_records. eapply Forall2_Forall_fst; [exact Hf|]. by intros ? ? [].
Qed.
End readers.

(** ** The spec's example

    The ledger holds the stubs 1 and 2; the content directory holds
    [1.json] only. [content politics] fetches and writes [2.json] alone,
    leaves [1.json] as it was, and reports [Content: 1/2 articles pending
    download] before it starts. *)
Module ContentScenario.
Definition stub (i : Z) : pyval := PDict [("id", PInt i); ("title", PStr "t")].
Definition body (i : pyval) : pyval := PDict [("id", i); ("content", PStr "<p>...</p>")].

Definition srv : server := fun rq =>
  match rq_params rq with
  | [("id", i)] => Some (mk_response 200 (cj_dumps (body i)))
  | _ => None
  end.

Definition cdir : string := content_dir "politics".
Definition old_1 : string := "{}".

Definition w12 : world :=
  mk_world (<[path_join cdir "1.json" := old_1]> {[ list_path "politics" := ledger_text [stub 1; stub 2] ]})
    (list_to_set ["data"; "data/politics"; cdir]) [].

Definition args : content_args := mk_content_args "politics" false.

Example content_example :
  let '(r, w) := cmd_content args srv w12 in
  r = Ok tt /\
  w_files w !! path_join cdir "2.json" = Some (cj_dump_indent (body (PInt 2))) /\
  w_files w !! path_join cdir "1.json" = Some old_1 /\
  requests (w_trace w) = [(content_url, [("id", PInt 2)])] /\
  EPrint "Content: 1/2 articles pending download" ∈ w_trace w.
Proof. vm_compute. split_and!; try reflexivity. set_solver. Qed.

Lemma fetch_all_run_witness :
  stub_ids [stub 2] = Ok [PInt 2] /\
  exists w' tr, for_each [stub 2] (fetch_one cdir) srv w12 = (Ok tt, w') /\
    w_trace w' = (w_trace w12 ++ tr)%list /\
    net_events tr = flat_map (fun i => [EGet content_url [("id", i)]; ESleep REQUEST_DELAY_MS]) [PInt 2] /\
    (forall p, Forall (fun i => p <> content_path cdir i) [PInt 2] -> w_files w' !! p = w_files w12 !! p).
Proof. split; [reflexivity|]. apply fetch_all_run. reflexivity. Defined.

Definition w_json : world :=
  mk_world (<[path_join cdir "a.txt" := "x"]> (w_files w12)) (w_dirs w12) [].

Lemma rescrape_content_empties_witness :
  (rescrape_content cdir srv w_json).1 = Ok tt /\
  forall p, w_files (rescrape_content cdir srv w_json).2 !! p =
            if json_entry cdir p then None else w_files w_json !! p.
Proof.
  assert (Hok : (rescrape_content cdir srv w_json).1 = Ok tt) by (vm_compute; reflexivity).
  split; [exact Hok|]. exact (rescrape_content_empties cdir srv w_json _ Hok eq_refl).
Defined.

Lemma cmd_content_missing_ledger_witness :
  cmd_content args srv (mk_world ∅ ∅ []) =
    (Ok tt, record (EPrint (missing_msg "politics")) (mk_world ∅ ∅ [])).
Proof. apply cmd_content_missing_ledger; [reflexivity|vm_compute; set_solver]. Defined.

(** A ledger line that is JSON but has no [id] is not skipped: the list
    comprehension of line 158 raises [KeyError] and no article is
    downloaded, not even the ones with an id. *)
Definition w_noid : world :=
  mk_world {[ list_path "politics" := ledger_text [stub 1; PDict [("title", PStr "t")]] ]}
    (list_to_set ["data"; "data/politics"]) [].

Example stub_without_id_aborts :
  let '(r, w) := cmd_content args srv w_noid in
  r = Err (KeyError "id") /\ requests (w_trace w) = [].
Proof. vm_compute. split; reflexivity. Qed.

(** A ledger holding stub 1, then the record of stub 2 appended. *)
Lemma ledger_readers_agree_witness :
  load_stubs (text_lines (record_line (stub 1) ++ ledger_text [stub 2])) [] =
    res_map (fun st => st ++ [stub 2])%list (load_stubs (text_lines (record_line (stub 1))) []) /\
  record_ids (record_line (stub 1) ++ ledger_text [stub 2]) = (record_ids (record_line (stub 1)) ++ [2%Z])%list.
Proof.
  apply ledger_readers_agree; [vm_compute; reflexivity|].
  repeat constructor; vm_compute; reflexivity.
Defined.

Example ledger_readers_agree_values :
  load_stubs (text_lines (record_line (stub 1) ++ ledger_text [stub 2])) [] = Ok [stub 1; stub 2].
Proof. vm_compute. reflexivity. Qed.
(** A ledger of three stubs and no content directory yet; at the first
    run the API answers odd ids only (503 for the others), at the second
    it answers every id. *)
Definition w_fresh : world :=
  mk_world {[ list_path "politics" := ledger_text [stub 1; stub 2; stub 3] ]}
    (list_to_set ["data"; "data/politics"]) [].

Definition srv_odd : server := fun rq =>
  match rq_params rq with
  | [("id", PInt i)] => if Z.odd i then Some (mk_response 200 (cj_dumps (body (PInt i))))
                        else Some (mk_response 503 "")
  | _ => None
  end.

(** After the first run article 2 is still pending and has no file; the
    second run downloads it. *)
Example content_runs_values :
  pending_stubs cdir [stub 1; stub 2; stub 3] srv (content_runs args [srv_odd] w_fresh) =
    (Ok [stub 2], content_runs args [srv_odd] w_fresh) /\
  w_files (content_runs args [srv_odd] w_fresh) !! path_join cdir "2.json" = None /\
  w_files (content_runs args [srv_odd; srv] w_fresh) !! path_join cdir "2.json" =
    Some (cj_dump_indent (body (PInt 2))).
Proof. split_and!; vm_compute; reflexivity. Qed.

Definition stubs3 : list pyval := [stub 1; stub 2; stub 3].

Lemma content_runs_download_witness :
  (forall s i, s ∈ stubs3 -> py_getitem s "id" = Ok i ->
     w_files (content_runs args [srv_odd; srv] w_fresh) !! content_path cdir i =
       if content_done w_fresh cdir i then w_files w_fresh !! content_path cdir i
       else option_map json_dump_indent (first_answer [srv_odd; srv] i)) /\
  ((forall s i, s ∈ stubs3 -> py_getitem s "id" = Ok i -> is_Some (first_answer [srv_odd; srv] i)) ->
   forall srv0, pending_stubs cdir stubs3 srv0 (content_runs args [srv_odd; srv] w_fresh) =
                (Ok [], content_runs args [srv_odd; srv] w_fresh)).
Proof.
  apply (content_runs_download args [srv_odd; srv] w_fresh (ledger_text stubs3) stubs3).
  - reflexivity.
  - vm_compute. reflexivity.
  - vm_compute. reflexivity.
  - apply Forall_forall. intros st [<-|[<-|[<-|[]]]]%list_elem_of_In; eexists; split; reflexivity.
  - intros s1 s2 i1 i2 [<-|[<-|[<-|[]]]]%list_elem_of_In [<-|[<-|[<-|[]]]]%list_elem_of_In H1 H2;
      vm_compute in H1, H2; injection H1 as <-; injection H2 as <-; intros Hp;
      first [reflexivity | vm_compute in Hp; discriminate Hp].
  - intros q Hq. apply list_elem_of_In in Hq. vm_compute in Hq.
    destruct Hq as [<-|[<-|[<-|[]]]]; vm_compute; reflexivity.
Defined.
End ContentScenario.
