(* ===== verification/Cli.v ===== *)
(** * Cli: the command line of [main] (lines 175-219)

    [main] builds an [argparse] parser with two subcommands and calls the
    function of the one given. The parser is the library's; what the
    program fixes is its configuration:
    - [list] takes the positional [category] (one of [VALID_CATEGORIES]),
      the mutually exclusive [--pages N] and [--articles N] ([type=int]),
      [--before DATE] and the flag [--rescrape];
    - [content] takes [category] and [--rescrape].
    [parse_args] is the library's algorithm on these tables, token by
    token: [classify] is [_parse_optional] (exact names, [--name=value],
    unique abbreviations of long options, negative numbers and strings
    with a space as positionals); an option that takes a value takes the
    next token ([pend]); the value is converted with [int()] before the
    mutual-exclusion check, as [take_action] does; the first positional is
    the category, checked against the choices; other positionals and
    unknown options are the extras that [parse_args] rejects at the end.
    What goes to standard error (usage and messages) is not part of the
    world; an error is [SystemExit 2], [--help] is [SystemExit 0]. *)

From S2P Require Import Prelude Text PyObj JsonLib CJson DateTime World Ledger ListCmd ContentCmd.
From Stdlib Require Import Ascii String.
Local Open Scope string_scope.
Local Open Scope py_scope.

Inductive command :=
| CmdList (a : list_args)
| CmdContent (a : content_args).

(** What [parse_args] does: return, print the help and exit 0, or print a
    usage error and exit 2. *)
Inductive outcome (A : Type) :=
| Parsed (a : A)
| Help
| Usage (msg : string).
Arguments Parsed {A} a.
Arguments Help {A}.
Arguments Usage {A} msg.

Definition out_bind {A B} (o : outcome A) (k : A -> outcome B) : outcome B :=
  match o with Parsed a => k a | Help => Help | Usage m => Usage m end.

Definition LIST_OPTS : list string := ["--help"; "--pages"; "--articles"; "--before"; "--rescrape"].
Definition CONTENT_OPTS : list string := ["--help"; "--rescrape"].
Definition TOP_OPTS : list string := ["--help"].

(** [--name=value] as the name and the value. *)
Fixpoint split_eq (s : string) : string * option string :=
  match s with
  | EmptyString => (EmptyString, None)
  | String c r =>
      if Ascii.eqb c "=" then (EmptyString, Some r)
      else let '(a, v) := split_eq r in (String c a, v)
  end.

(** [_negative_number_matcher]: [-N] or [-N.N] / [-.N]. *)
Fixpoint num_body (dot : bool) (digits_after : bool) (s : string) : bool :=
  match s with
  | EmptyString => digits_after
  | String c r =>
      if is_digit c then num_body dot true r
      else if Ascii.eqb c "." && negb dot then num_body true false r
      else false
  end.

Definition is_neg_number (s : string) : bool :=
  match s with
  | String c r => Ascii.eqb c "-" && num_body false false r
  | EmptyString => false
  end.

Definition is_some {A} (o : option A) : bool := match o with Some _ => true | None => false end.

Inductive arg_kind :=
| KArg
| KOpt (name : string) (explicit : option string)
| KUnknown
| KAmbiguous (msg : string).

(** [_parse_optional] on the option table [opts]. *)
Definition classify (opts : list string) (t : string) : arg_kind :=
  match t with
  | EmptyString => KArg
  | String c r =>
      if negb (Ascii.eqb c "-") then KArg
      else if String.eqb t "-h" then KOpt "--help" None
      else if existsb (String.eqb t) opts then KOpt t None
      else if String.eqb r EmptyString then KArg
      else
        let '(name, v) := split_eq t in
        if existsb (String.eqb name) opts && is_some v then KOpt name v
        else if String.prefix "--" name then
          match List.filter (String.prefix name) opts with
          | [o] => KOpt o v
          | o :: os => KAmbiguous ("ambiguous option: " ++ name ++ " could match " ++ String.concat ", " (o :: os))
          | [] => if is_neg_number t || has_char " " t then KArg else KUnknown
          end
        else if is_neg_number t || has_char " " t then KArg else KUnknown
  end.

(** A token that can be the value of an option. *)
Definition is_value (opts : list string) (t : string) : bool :=
  negb (String.eqb t "--") && match classify opts t with KArg => true | _ => false end.

(** The namespace being built. *)
Record acc := mk_acc {
  a_cat : option string;
  a_pages : option Z;
  a_articles : option Z;
  a_before : option string;
  a_rescrape : bool;
  a_extras : list string
}.

Definition acc0 : acc := mk_acc None None None None false [].

Definition add_extra (t : string) (a : acc) : acc :=
  mk_acc (a_cat a) (a_pages a) (a_articles a) (a_before a) (a_rescrape a) (a_extras a ++ [t]).

Definition choices_msg : string := String.concat ", " (map repr_str VALID_CATEGORIES).

(** A positional: the category first, checked against the choices. *)
Definition positional (t : string) (a : acc) : outcome acc :=
  match a_cat a with
  | None =>
      if existsb (String.eqb t) VALID_CATEGORIES
      then Parsed (mk_acc (Some t) (a_pages a) (a_articles a) (a_before a) (a_rescrape a) (a_extras a))
      else Usage ("argument category: invalid choice: " ++ repr_str t ++ " (choose from " ++ choices_msg ++ ")")
  | Some _ => Parsed (add_extra t a)
  end.

Definition int_value (o v : string) : outcome Z :=
  match int_of_str v with
  | Some n => Parsed n
  | None => Usage ("argument " ++ o ++ ": invalid int value: " ++ repr_str v)
  end.

(** [take_action] for an option with its value: the conversion, then the
    mutual-exclusion check of [--pages] and [--articles]. *)
Definition take (o v : string) (a : acc) : outcome acc :=
  if String.eqb o "--pages" then
    out_bind (int_value o v) (fun n =>
      if is_some (a_articles a) then Usage "argument --pages: not allowed with argument --articles"
      else Parsed (mk_acc (a_cat a) (Some n) (a_articles a) (a_before a) (a_rescrape a) (a_extras a)))
  else if String.eqb o "--articles" then
    out_bind (int_value o v) (fun n =>
      if is_some (a_pages a) then Usage "argument --articles: not allowed with argument --pages"
      else Parsed (mk_acc (a_cat a) (a_pages a) (Some n) (a_before a) (a_rescrape a) (a_extras a)))
  else Parsed (mk_acc (a_cat a) (a_pages a) (a_articles a) (Some v) (a_rescrape a) (a_extras a)).

Definition expected_msg (o : string) : string := "argument " ++ o ++ ": expected one argument".

(** The subparser's loop. [pend] is an option waiting for its value,
    [dd] whether a [--] has been seen. *)
Fixpoint parse_sub (opts : list string) (toks : list string) (pend : option string) (dd : bool) (a : acc)
    : outcome acc :=
  match toks with
  | [] => match pend with Some o => Usage (expected_msg o) | None => Parsed a end
  | t :: rest =>
      match pend with
      | Some o =>
          if is_value opts t then out_bind (take o t a) (parse_sub opts rest None dd)
          else Usage (expected_msg o)
      | None =>
          if dd then out_bind (positional t a) (parse_sub opts rest None dd)
          else if String.eqb t "--" then parse_sub opts rest None true a
          else
            match classify opts t with
            | KArg => out_bind (positional t a) (parse_sub opts rest None dd)
            | KUnknown => parse_sub opts rest None dd (add_extra t a)
            | KAmbiguous m => Usage m
            | KOpt o v =>
                if String.eqb o "--help" then Help
                else if String.eqb o "--rescrape" then
                  match v with
                  | Some x => Usage ("argument --rescrape: ignored explicit argument " ++ repr_str x)
                  | None =>
                      parse_sub opts rest None dd
                        (mk_acc (a_cat a) (a_pages a) (a_articles a) (a_before a) true (a_extras a))
                  end
                else
                  match v with
                  | Some x => out_bind (take o x a) (parse_sub opts rest None dd)
                  | None => parse_sub opts rest (Some o) dd a
                  end
            end
      end
  end.

(** The end of [parse_known_args] and [parse_args]: the required
    category, then the extras. *)
Definition finish {A} (top_extras : list string) (r : outcome acc) (k : string -> acc -> A) : outcome A :=
  out_bind r (fun a =>
    match a_cat a with
    | None => Usage "the following arguments are required: category"
    | Some c =>
        match (top_extras ++ a_extras a)%list with
        | [] => Parsed (k c a)
        | ex => Usage ("unrecognized arguments: " ++ String.concat " " ex)
        end
    end).

Fixpoint parse_top (toks : list string) (extras : list string) : outcome command :=
  match toks with
  | [] => Usage "the following arguments are required: command"
  | t :: rest =>
      if String.eqb t "--" then parse_top rest extras
      else
        match classify TOP_OPTS t with
        | KOpt _ _ => Help
        | KAmbiguous m => Usage m
        | KUnknown => parse_top rest (extras ++ [t])
        | KArg =>
            if String.eqb t "list" then
              finish extras (parse_sub LIST_OPTS rest None false acc0) (fun c a =>
                CmdList (mk_list_args c (a_pages a) (a_articles a) (a_before a) (a_rescrape a)))
            else if String.eqb t "content" then
              finish extras (parse_sub CONTENT_OPTS rest None false acc0) (fun c a =>
                CmdContent (mk_content_args c (a_rescrape a)))
            else Usage ("argument command: invalid choice: " ++ repr_str t ++ " (choose from 'list', 'content')")
        end
  end.

(** [parser.parse_args()] on [sys.argv[1:]]. *)
Definition parse_args (argv : list string) : outcome command := parse_top argv [].

Section main.
Context `{JsonLib} `{DateUtil}.

(** [args.func(args)]. *)
Definition main (argv : list string) : M unit :=
  match parse_args argv with
  | Parsed (CmdList a) => cmd_list a
  | Parsed (CmdContent a) => cmd_content a
  | Help => raise (SystemExit 0)
  | Usage _ => raise (SystemExit 2)
  end.
(** [if __name__ == "__main__": main()]: [sys.argv[1:]] are the tokens. *)
Definition script (sys_argv : list string) : M unit := main (tl sys_argv).
End main.

Example parse_ex :
  parse_args ["list"; "politics"; "--pages"; "2"] = Parsed (CmdList (mk_list_args "politics" (Some 2%Z) None None false)) /\
  parse_args ["list"; "--art=5"; "economy"; "--before"; "2026-01-01"] =
    Parsed (CmdList (mk_list_args "economy" None (Some 5%Z) (Some "2026-01-01") false)) /\
  parse_args ["list"; "politics"; "--pages"; "-1"] = Parsed (CmdList (mk_list_args "politics" (Some (-1)%Z) None None false)) /\
  parse_args ["list"; "politics"; "--pages"; "2"; "--articles"; "3"] =
    Usage "argument --articles: not allowed with argument --pages" /\
  parse_args ["content"; "news"] = Usage ("argument category: invalid choice: 'news' (choose from " ++ choices_msg ++ ")") /\
  parse_args ["content"; "sport"; "--rescrape"] = Parsed (CmdContent (mk_content_args "sport" true)).
Proof. split_and!; reflexivity. Qed.

(** ** The parser's guarantees *)

(** At most one of the two limits is set. *)
Definition excl (a : acc) : Prop := a_pages a = None \/ a_articles a = None.

Lemma take_excl o v a a' : take o v a = Parsed a' -> excl a -> excl a'.
Proof.
  unfold take, excl. destruct (o =? "--pages"); [|destruct (o =? "--articles")].
  - destruct (int_value o v) as [n| |]; simpl; [|done|done].
    destruct (a_articles a) eqn:E; simpl; [done|]. intros [= <-] _. by right.
  - destruct (int_value o v) as [n| |]; simpl; [|done|done].
    destruct (a_pages a) eqn:E; simpl; [done|]. intros [= <-] _. by left.
  - intros [= <-]. done.
Qed.

Lemma positional_excl t a a' : positional t a = Parsed a' -> excl a -> excl a'.
Proof. unfold positional, excl. repeat case_match; intros; simplify_eq/=; done. Qed.

Lemma parse_sub_excl opts toks pend dd a a' :
  parse_sub opts toks pend dd a = Parsed a' -> excl a -> excl a'.
Proof.
  revert pend dd a. induction toks as [|t rest IH]; intros pend dd a; simpl.
  { destruct pend; intros; simplify_eq. done. }
  intros Hp Ha. destruct pend as [o|].
  { destruct (is_value opts t); [|done].
    destruct (take o t a) as [a1| |] eqn:Ht; cbn [out_bind] in Hp; [|done|done].
    eapply IH; [exact Hp|]. eauto using take_excl. }
  destruct dd.
  { destruct (positional t a) as [a1| |] eqn:Ht; cbn [out_bind] in Hp; [|done|done].
    eapply IH; [exact Hp|]. eauto using positional_excl. }
  destruct (String.eqb t "--"); [by eapply IH|].
  destruct (classify opts t) as [|o v| |m]; [..|done].
  - destruct (positional t a) as [a1| |] eqn:Ht; cbn [out_bind] in Hp; [|done|done].
    eapply IH; [exact Hp|]. eauto using positional_excl.
  - destruct (String.eqb o "--help"); [done|]. destruct (String.eqb o "--rescrape").
    + destruct v; [done|]. eapply IH; [exact Hp|]. done.
    + destruct v as [x|]; [|by eapply IH].
      destruct (take o x a) as [a1| |] eqn:Ht; cbn [out_bind] in Hp; [|done|done].
      eapply IH; [exact Hp|]. eauto using take_excl.
  - eapply IH; [exact Hp|]. done.
Qed.

Lemma finish_parsed {A} ex r (k : string -> acc -> A) x :
  finish ex r k = Parsed x -> exists c a, r = Parsed a /\ a_cat a = Some c /\ a_extras a = [] /\ x = k c a.
Proof.
  unfold finish, out_bind. destruct r as [a| |]; [|done|done].
  destruct (a_cat a) as [c|] eqn:Hc; [|done].
  destruct (ex ++ a_extras a)%list eqn:E; [|done]. intros [= <-].
  apply app_eq_nil in E as [_ ?]. by exists c, a.
Qed.

(** C12: [--pages] and [--articles] are mutually exclusive: no command line
    that [parse_args] accepts sets both limits. *)
Theorem parse_args_exclusive argv a :
  parse_args argv = Parsed (CmdList a) -> la_pages a = None \/ la_articles a = None.
Proof.
  unfold parse_args. generalize (@nil string) as ex.
  induction argv as [|t rest IH]; intros ex Hp; simpl in Hp; [done|].
  destruct (String.eqb t "--"); [by eapply IH|].
  destruct (classify TOP_OPTS t); [|done|by eapply IH|done].
  destruct (String.eqb t "list"); [|destruct (String.eqb t "content"); [|done]].
  - apply finish_parsed in Hp as (c & a1 & Hr & _ & _ & Heq). injection Heq as ->. simpl.
    apply (parse_sub_excl _ _ _ _ _ _ Hr). by left.
  - apply finish_parsed in Hp as (c & a1 & _ & _ & _ & Heq). discriminate.
Qed.

(** Where an occurrence of the option [o] has gone: its value is set, it
    waits for its value, or it is an extra. *)
Definition limit_of (o : string) (a : acc) : option Z :=
  if String.eqb o "--pages" then a_pages a else a_articles a.

Definition recorded (o : string) (a : acc) (pend : option string) : Prop :=
  is_Some (limit_of o a) \/ pend = Some o \/ o ∈ a_extras a.

Section recorded.
Variable o : string.
Hypothesis Ho : o = "--pages" \/ o = "--articles".

Lemma recorded_pend a p : recorded o a None -> recorded o a p.
Proof. intros [?|[?|?]]; [by left|done|by right; right]. Qed.

Lemma take_recorded p v a a' :
  take p v a = Parsed a' -> recorded o a (Some p) -> recorded o a' None.
Proof.
  unfold take, recorded, limit_of. intros Ht Hr.
  destruct (String.eqb_spec p "--pages") as [->|Hp1].
  - destruct (int_value _ v) as [n| |]; simpl in Ht; [|done|done].
    destruct (a_articles a) eqn:E; [done|]. injection Ht as <-.
    destruct Ho as [-> | ->]; simpl in *; naive_solver.
  - destruct (String.eqb_spec p "--articles") as [->|Hp2].
    + destruct (int_value _ v) as [n| |]; simpl in Ht; [|done|done].
      destruct (a_pages a) eqn:E; [done|]. injection Ht as <-.
      destruct Ho as [-> | ->]; simpl in *; naive_solver.
    + injection Ht as <-. destruct Ho as [-> | ->]; simpl in *; naive_solver.
Qed.

Lemma positional_recorded t a a' :
  positional t a = Parsed a' -> (recorded o a None \/ t = o) -> recorded o a' None.
Proof.
  unfold positional, recorded, limit_of. destruct (a_cat a).
  - intros [= <-]. simpl. rewrite elem_of_app, list_elem_of_singleton. naive_solver.
  - destruct (existsb _ _) eqn:E; [|done]. intros [= <-]. simpl.
    intros [?| ->]; [done|]. by destruct Ho as [-> | ->].
Qed.

Lemma add_extra_recorded t a :
  recorded o a None \/ t = o -> recorded o (add_extra t a) None.
Proof.
  unfold recorded, add_extra, limit_of. simpl. rewrite elem_of_app, list_elem_of_singleton. naive_solver.
Qed.

Lemma classify_o : classify LIST_OPTS o = KOpt o None.
Proof. by destruct Ho as [-> | ->]. Qed.

(** Every occurrence of [o] in the tokens is recorded at the end. *)
Lemma parse_sub_recorded toks pend dd a a' :
  parse_sub LIST_OPTS toks pend dd a = Parsed a' ->
  recorded o a pend \/ o ∈ toks -> recorded o a' None.
Proof.
  revert pend dd a. induction toks as [|t rest IH]; intros pend dd a; simpl.
  { destruct pend; [done|]. intros [= <-] [?|Hn]; [done|by apply not_elem_of_nil in Hn]. }
  rewrite elem_of_cons. intros Hp Hr. destruct pend as [p|].
  - destruct (is_value LIST_OPTS t) eqn:Hv; [|done].
    destruct (take p t a) as [a1| |] eqn:Ht; cbn [out_bind] in Hp; [|done|done].
    apply (IH _ _ _ Hp). destruct Hr as [Hr|[Heq|Hr]]; [left; by eapply take_recorded| |by right].
    exfalso. rewrite <-Heq in Hv. by destruct Ho as [Ho' | Ho']; rewrite Ho' in Hv.
  - assert (Hpos : forall a1, positional t a = Parsed a1 -> recorded o a1 None \/ o ∈ rest).
    { intros a1 Ha1. destruct Hr as [Hr|[Heq|Hr]]; [| |by right]; left;
        (eapply positional_recorded; [exact Ha1|]); [by left|by right]. }
    destruct dd.
    { destruct (positional t a) as [a1| |] eqn:Ht; cbn [out_bind] in Hp; [|done|done]. eauto. }
    destruct (String.eqb_spec t "--") as [Hdd|Hdd].
    { apply (IH _ _ _ Hp). destruct Hr as [?|[Heq|?]]; [by left| |by right].
      exfalso. rewrite Hdd in Heq. by destruct Ho as [Ho' | Ho']; rewrite Ho' in Heq. }
    destruct (classify LIST_OPTS t) as [|p v| |m] eqn:Hc; [..|done].
    + destruct (positional t a) as [a1| |] eqn:Ht; cbn [out_bind] in Hp; [|done|done]. eauto.
    + assert (Ht : o = t -> p = o /\ v = None).
      { intros Heq. rewrite <-Heq, classify_o in Hc. by injection Hc. }
      destruct (String.eqb p "--help"); [done|]. destruct (String.eqb_spec p "--rescrape") as [Hre|Hre].
      * destruct v; [done|]. apply (IH _ _ _ Hp).
        destruct Hr as [Hr|[Heq|Hr]]; [left; exact Hr| |by right].
        exfalso. destruct (Ht Heq) as [Hpo _]. rewrite Hre in Hpo.
        by destruct Ho as [Ho' | Ho']; rewrite Ho' in Hpo.
      * destruct v as [x|].
        -- destruct (take p x a) as [a1| |] eqn:Htk; cbn [out_bind] in Hp; [|done|done].
           apply (IH _ _ _ Hp). destruct Hr as [Hr|[Heq|Hr]]; [|by destruct (Ht Heq)|by right].
           left. eapply take_recorded; [exact Htk|]. by apply recorded_pend.
        -- apply (IH _ _ _ Hp). destruct Hr as [Hr|[Heq|Hr]]; [|left|by right].
           ++ left. by apply recorded_pend.
           ++ destruct (Ht Heq) as [Hpo _]. rewrite Hpo. by right; left.
    + apply (IH _ _ _ Hp). destruct Hr as [Hr|[Heq|Hr]]; [| |by right]; left; apply add_extra_recorded;
        [by left|by right].
Qed.
End recorded.

Lemma parse_list_both toks a :
  "--pages" ∈ toks -> "--articles" ∈ toks ->
  parse_sub LIST_OPTS toks None false acc0 = Parsed a -> a_extras a = [] -> False.
Proof.
  intros Hp Ha Hr He. unfold recorded, limit_of in *.
  destruct (parse_sub_recorded "--pages" (or_introl eq_refl) _ _ _ _ _ Hr (or_intror Hp))
    as [Hs1|[?|Hx1]]; [|done|by rewrite He in Hx1; apply not_elem_of_nil in Hx1].
  destruct (parse_sub_recorded "--articles" (or_intror eq_refl) _ _ _ _ _ Hr (or_intror Ha))
    as [Hs2|[?|Hx2]]; [|done|by rewrite He in Hx2; apply not_elem_of_nil in Hx2].
  unfold limit_of in Hs1, Hs2. simpl in Hs1, Hs2.
  destruct (parse_sub_excl _ _ _ _ _ _ Hr (or_introl eq_refl)) as [E|E]; rewrite E in *; by destruct Hs1 || destruct Hs2.
Qed.

(** A category recorded by the subparser is one of the choices. *)
Definition cat_ok (a : acc) : Prop := forall c, a_cat a = Some c -> c ∈ VALID_CATEGORIES.

Lemma positional_cat_ok t a a' : positional t a = Parsed a' -> cat_ok a -> cat_ok a'.
Proof.
  unfold positional, cat_ok. destruct (a_cat a) as [c0|] eqn:Hc.
  - intros [= <-] Hok c Hc'. apply Hok. simpl in Hc'. congruence.
  - destruct (existsb _ _) eqn:E; [|done]. intros [= <-] _ c [= <-].
    apply existsb_exists in E as (x & Hx & ->%String.eqb_eq). by apply list_elem_of_In.
Qed.

Lemma take_cat_ok o v a a' : take o v a = Parsed a' -> a_cat a' = a_cat a.
Proof.
  unfold take. repeat case_match; cbn [out_bind]; intros; simplify_eq/=; try done;
    by destruct (int_value _ _); simpl in *; repeat case_match; simplify_eq/=.
Qed.

Lemma parse_sub_cat_ok opts toks pend dd a a' :
  parse_sub opts toks pend dd a = Parsed a' -> cat_ok a -> cat_ok a'.
Proof.
  unfold cat_ok. revert pend dd a. induction toks as [|t rest IH]; intros pend dd a; simpl.
  { destruct pend; [done|]. intros [= <-] Ha. exact Ha. }
  intros Hp Ha. destruct pend as [o|].
  { destruct (is_value opts t); [|done].
    destruct (take o t a) as [a1| |] eqn:Ht; cbn [out_bind] in Hp; [|done|done].
    eapply IH; [exact Hp|]. by rewrite (take_cat_ok _ _ _ _ Ht). }
  destruct dd.
  { destruct (positional t a) as [a1| |] eqn:Ht; cbn [out_bind] in Hp; [|done|done].
    eapply IH; [exact Hp|]. by apply (positional_cat_ok _ _ _ Ht). }
  destruct (String.eqb t "--"); [by eapply IH|].
  destruct (classify opts t) as [|o v| |m]; [..|done].
  - destruct (positional t a) as [a1| |] eqn:Ht; cbn [out_bind] in Hp; [|done|done].
    eapply IH; [exact Hp|]. by apply (positional_cat_ok _ _ _ Ht).
  - destruct (String.eqb o "--help"); [done|]. destruct (String.eqb o "--rescrape").
    + destruct v; [done|]. by eapply IH.
    + destruct v as [x|]; [|by eapply IH].
      destruct (take o x a) as [a1| |] eqn:Ht; cbn [out_bind] in Hp; [|done|done].
      eapply IH; [exact Hp|]. by rewrite (take_cat_ok _ _ _ _ Ht).
  - by eapply IH.
Qed.

Definition command_category (c : command) : string :=
  match c with CmdList a => la_category a | CmdContent a => ca_category a end.

(** C13: A command that [parse_args] accepts names one of the thirteen
    categories, so the commands only read and write under
    [data/<category>] for a category of [VALID_CATEGORIES]. *)
Theorem parse_args_category argv cmd :
  parse_args argv = Parsed cmd -> command_category cmd ∈ VALID_CATEGORIES.
Proof.
  unfold parse_args. generalize (@nil string) as ex.
  induction argv as [|t rest IH]; intros ex Hp; simpl in Hp; [done|].
  destruct (String.eqb t "--"); [by eapply IH|].
  destruct (classify TOP_OPTS t); [|done|by eapply IH|done].
  destruct (String.eqb t "list"); [|destruct (String.eqb t "content"); [|done]];
    apply finish_parsed in Hp as (c & a1 & Hr & Hc & _ & ->); simpl;
    by apply (parse_sub_cat_ok _ _ _ _ _ _ Hr).
Qed.

Section main_thm.
Context `{JsonLib} `{DateUtil}.

(** C9: [list] with both [--pages] and [--articles] is rejected before
    anything is done: [main] exits, with the world as it was, so no
    request is made and no file is touched. *)
Theorem main_both_limits toks srv w :
  "--pages" ∈ toks -> "--articles" ∈ toks ->
  exists code, main ("list" :: toks) srv w = (Err (SystemExit code), w).
Proof.
  intros Hp Ha.
  assert (E : parse_args ("list" :: toks) =
    finish [] (parse_sub LIST_OPTS toks None false acc0)
      (fun c a => CmdList (mk_list_args c (a_pages a) (a_articles a) (a_before a) (a_rescrape a))))
    by reflexivity.
  unfold main. rewrite E.
  destruct (finish _ _ _) as [c| |m] eqn:F; [|by exists 0%Z|by exists 2%Z].
  exfalso. apply finish_parsed in F as (cat & a & Hr & _ & He & _). by eapply parse_list_both.
Qed.
End main_thm.

(** ** Every valid namespace has a command line

    [render c] is the canonical command line of the namespace [c]: the
    subcommand, the category, then each option that is set, written
    [--name=value] so that any value is read as it is. *)
Definition opt_tok (o : string) (v : option string) : list string :=
  match v with Some x => [o ++ "=" ++ x] | None => [] end.

Definition flag_tok (o : string) (b : bool) : list string := if b then [o] else [].

Definition render (c : command) : list string :=
  match c with
  | CmdList a =>
      ["list"; la_category a] ++ opt_tok "--pages" (option_map z_to_str (la_pages a))
      ++ opt_tok "--articles" (option_map z_to_str (la_articles a)) ++ opt_tok "--before" (la_before a)
      ++ flag_tok "--rescrape" (la_rescrape a)
  | CmdContent a => ["content"; ca_category a] ++ flag_tok "--rescrape" (ca_rescrape a)
  end.

(** What [main] can be asked to do: a valid category, and not both
    limits. *)
Definition cmd_ok (c : command) : Prop :=
  match c with
  | CmdList a => la_category a ∈ VALID_CATEGORIES /\ (la_pages a = None \/ la_articles a = None)
  | CmdContent a => ca_category a ∈ VALID_CATEGORIES
  end.

Definition set_cat (c : string) (a : acc) : acc :=
  mk_acc (Some c) (a_pages a) (a_articles a) (a_before a) (a_rescrape a) (a_extras a).

(** The category, first positional. *)
Lemma parse_sub_cat opts c rest a :
  c ∈ VALID_CATEGORIES -> a_cat a = None ->
  parse_sub opts (c :: rest) None false a = parse_sub opts rest None false (set_cat c a).
Proof.
  intros Hc Ha. cbn [parse_sub]. unfold positional. rewrite Ha.
  repeat (apply elem_of_cons in Hc as [->|Hc]; [reflexivity|]). by apply not_elem_of_nil in Hc.
Qed.

(** An option with its value, [--name=value]. *)
Lemma parse_sub_eq opts o x rest a :
  classify opts (o ++ "=" ++ x) = KOpt o (Some x) -> String.eqb (o ++ "=" ++ x) "--" = false ->
  String.eqb o "--help" = false -> String.eqb o "--rescrape" = false ->
  parse_sub opts ((o ++ "=" ++ x) :: rest) None false a = out_bind (take o x a) (parse_sub opts rest None false).
Proof. intros Hk Hd Hh Hr. cbn [parse_sub]. by rewrite Hd, Hk, Hh, Hr. Qed.

Lemma parse_sub_rescrape opts rest a :
  classify opts "--rescrape" = KOpt "--rescrape" None ->
  parse_sub opts ("--rescrape" :: rest) None false a =
  parse_sub opts rest None false (mk_acc (a_cat a) (a_pages a) (a_articles a) (a_before a) true (a_extras a)).
Proof. intros Hk. cbn [parse_sub]. by rewrite Hk. Qed.

Lemma take_pages n a :
  take "--pages" (z_to_str n) a =
  if is_some (a_articles a) then Usage "argument --pages: not allowed with argument --articles"
  else Parsed (mk_acc (a_cat a) (Some n) (a_articles a) (a_before a) (a_rescrape a) (a_extras a)).
Proof. unfold take, int_value. cbn [String.eqb Ascii.eqb Bool.eqb]. by rewrite int_of_str_z_to_str. Qed.

Lemma take_articles n a :
  take "--articles" (z_to_str n) a =
  if is_some (a_pages a) then Usage "argument --articles: not allowed with argument --pages"
  else Parsed (mk_acc (a_cat a) (a_pages a) (Some n) (a_before a) (a_rescrape a) (a_extras a)).
Proof. unfold take, int_value. cbn [String.eqb Ascii.eqb Bool.eqb]. by rewrite int_of_str_z_to_str. Qed.

(** C16: Round trip of the command line: every namespace [main] can act
    on, [list] with a valid category and at most one limit, any cutoff
    text and either value of [--rescrape], or [content] with a valid
    category, is what [parse_args] returns on its canonical command line.
    Together with C12 and C13, [parse_args] reaches exactly the valid
    namespaces. *)
Theorem parse_args_render c : cmd_ok c -> parse_args (render c) = Parsed c.
Proof.
  destruct c as [[cat pg ar bf rs]|[cat rs]]; cbn [cmd_ok la_category la_pages la_articles ca_category].
  - intros [Hcat Hex].
    change (parse_args (render (CmdList (mk_list_args cat pg ar bf rs)))) with
      (finish [] (parse_sub LIST_OPTS (cat :: (opt_tok "--pages" (option_map z_to_str pg)
         ++ opt_tok "--articles" (option_map z_to_str ar) ++ opt_tok "--before" bf ++ flag_tok "--rescrape" rs)) None false acc0)
        (fun c a => CmdList (mk_list_args c (a_pages a) (a_articles a) (a_before a) (a_rescrape a)))).
    rewrite parse_sub_cat by done.
    destruct pg as [n|], ar as [m|]; [by destruct Hex|..]; destruct bf as [b|], rs; cbn [opt_tok flag_tok option_map app];
      repeat first [rewrite parse_sub_eq by reflexivity | rewrite parse_sub_rescrape by reflexivity
                   | rewrite take_pages | rewrite take_articles | progress cbn [out_bind set_cat a_pages a_articles is_some acc0]];
      reflexivity.
  - intros Hcat.
    change (parse_args (render (CmdContent (mk_content_args cat rs)))) with
      (finish [] (parse_sub CONTENT_OPTS (cat :: flag_tok "--rescrape" rs) None false acc0)
        (fun c a => CmdContent (mk_content_args c (a_rescrape a)))).
    rewrite parse_sub_cat by done. destruct rs; cbn [flag_tok]; [rewrite parse_sub_rescrape by reflexivity|]; reflexivity.
Qed.

Module CliScenario.
Import IsoDate.
Definition no_server : server := fun _ => None.
Definition w0 : world := mk_world ∅ ∅ [].
Definition both : list string := ["politics"; "--pages"; "2"; "--articles"; "3"].

(** The script's entry point drops [argv[0]]. *)
Example script_ex :
  script ["scrape.py"; "content"; "news"] no_server w0 = (Err (SystemExit 2), w0) /\
  script ["scrape.py"; "-h"] no_server w0 = (Err (SystemExit 0), w0) /\
  script ["scrape.py"; "content"; "politics"] no_server w0 = (Ok tt, record (EPrint (missing_msg "politics")) w0).
Proof. split_and!; vm_compute; reflexivity. Qed.

Lemma main_both_limits_witness :
  (exists code, main ("list" :: both) no_server w0 = (Err (SystemExit code), w0)) /\
  main ("list" :: both) no_server w0 = (Err (SystemExit 2), w0).
Proof.
  split; [|reflexivity].
  apply main_both_limits; apply (bool_decide_unpack _); reflexivity.
Defined.

Lemma parse_args_category_witness :
  command_category (CmdList (mk_list_args "politics" (Some 2%Z) None None false)) ∈ VALID_CATEGORIES.
Proof. apply (parse_args_category ["list"; "politics"; "--pages"; "2"]). reflexivity. Defined.

Lemma parse_args_exclusive_witness :
  la_pages (mk_list_args "politics" (Some 2%Z) None None false) = None \/
  la_articles (mk_list_args "politics" (Some 2%Z) None None false) = None.
Proof. apply (parse_args_exclusive ["list"; "politics"; "--pages"; "2"]). reflexivity. Defined.

Definition econ10 : command := CmdList (mk_list_args "economy" None (Some 10%Z) (Some "2026-01-01") true).

Example render_econ10 :
  render econ10 = ["list"; "economy"; "--articles=10"; "--before=2026-01-01"; "--rescrape"].
Proof. reflexivity. Qed.

Lemma parse_args_render_witness : cmd_ok econ10 /\ parse_args (render econ10) = Parsed econ10.
Proof.
  assert (H : cmd_ok econ10) by (split; [apply (bool_decide_unpack _); reflexivity|by left]).
  split; [exact H|apply parse_args_render; exact H].
Defined.
End CliScenario.
